(** * asterisklint: the line-production pipeline of [asterisklint/file.py]

    The Python module stacks five mixins into [FileReader]:
    [BinFileReader] (a stack of opened files), [EncodingReader] (UTF-8 with
    a cp1252 fallback), [NoCtrlReader] (control characters),
    [FileformatReader] (DOS/UNIX line endings per included file) and
    [AsteriskCommentReader] (backslash escapes and comments).

    Every mixin is a generator that pulls one item from the mixin below it
    and yields one item, so the pipeline is modelled as loop bodies that are
    run line by line.  Diagnostics are side effects of constructing a
    message object and exceptions abort the generators; both are kept in a
    small writer/exception monad.

    Part I embeds the code, Part II names what the properties speak
    about, Part III states and proves them. *)

From Stdlib Require Import String List NArith ZArith Arith Bool Lia Permutation.
From Stdlib.Strings Require Import Byte Ascii.
From Equations.Prop Require Import Equations Logic.
Import ListNotations.


(* ===================================================================== *)
(** * Part I: the embedding                                               *)
(* ===================================================================== *)

(** ** Data shared by all readers *)

(** A Python [bytes] line, and a Python [str] seen as its code points. *)
Definition bytes := list byte.
Definition char := N.
Definition text := list char.

(** Literal text, written as a Rocq string (ASCII only). *)
Definition str (s : string) : text := map N_of_ascii (list_ascii_of_string s).

Definition LF : char := 10%N.
Definition CR : char := 13%N.
Definition TAB : char := 9%N.
Definition SPACE : char := 32%N.
Definition SEMI : char := 59%N.
Definition BACKSLASH : char := 92%N.

(** Modelled from the spec: the class [Where] of [where.py] is not part of
    the sources at hand; the spec describes a Position as the immutable
    record {source_name, line_number (1-based), raw_line}, and
    [BinFileReader.__iter__] builds it as [Where(filename, i + 1, line)]. *)
Record Where := mkWhere {
  filename : string;
  lineno : nat;
  line : bytes
}.

(** Modelled from the spec: [defines.py] ([ErrorDef], [WarningDef]) is not
    part of the sources at hand.  Constructing one of the message classes
    of [file.py] with a position emits that diagnostic to the sink; the
    model records the emissions in order. *)
Inductive diag :=
| E_FILE_UTF8_BAD (w : Where)
| W_FILE_CTRL_CHAR (w : Where)
| W_FILE_DOS_EOFCRLF (w : Where)
| W_FILE_DOS_BARELF (w : Where)
| W_FILE_UNIX_CRLF (w : Where)
| W_FILE_UNIX_NOLF (w : Where)
| W_WSH_EOL (w : Where).

(** The exceptions the code can run into. *)
Inductive exn :=
| UnicodeDecodeError
| UnicodeEncodeError
| AssertionError
| IndexError
| OSError.

Inductive outcome (A : Type) :=
| Return (a : A)
| Raise (e : exn).
Arguments Return {A} a.
Arguments Raise {A} e.

(** A computation emits diagnostics and then returns or raises. *)
Definition M (A : Type) : Type := list diag * outcome A.

Definition ret {A} (a : A) : M A := ([], Return a).
Definition raise {A} (e : exn) : M A := ([], Raise e).
Definition emit (d : diag) : M unit := ([d], Return tt).
Definition bind {A B} (c : M A) (k : A -> M B) : M B :=
  match c with
  | (ds, Return a) => let (ds', r) := k a in (ds ++ ds', r)
  | (ds, Raise e) => (ds, Raise e)
  end.

Declare Scope py_scope.
Delimit Scope py_scope with py.
Notation "x <- c ;; k" := (bind c (fun x => k))
  (at level 61, c at next level, right associativity) : py_scope.
Notation "' pat <- c ;; k" := (bind c (fun x => match x with pat => k end))
  (at level 61, pat pattern, c at next level, right associativity) : py_scope.
Notation "c ;;; k" := (bind c (fun _ => k))
  (at level 61, right associativity) : py_scope.
Open Scope py_scope.

Definition diags {A} (c : M A) : list diag := fst c.
Definition result {A} (c : M A) : outcome A := snd c.

(** Running a loop body over the items a generator pulls, threading the
    loop's local state and collecting what it yields. *)
Fixpoint for_each {S I O} (body : S -> I -> M (S * O)) (st : S) (items : list I)
  : M (S * list O) :=
  match items with
  | [] => ret (st, [])
  | item :: rest =>
      '(st1, o) <- body st item ;;
      '(st2, os) <- for_each body st1 rest ;;
      ret (st2, o :: os)
  end.

(** ** Python's sequence operations on [str] *)

Module Py.

(** [data.index(c)]; [None] stands for [ValueError]. *)
Fixpoint index (c : char) (data : text) : option nat :=
  match data with
  | [] => None
  | x :: rest => if N.eqb x c then Some 0 else option_map S (index c rest)
  end.

(** [c in data] for a single character. *)
Definition contains (c : char) (data : text) : bool := existsb (N.eqb c) data.

(** [a == b] on two [str]. *)
Fixpoint eqb (a b : text) : bool :=
  match a, b with
  | [], [] => true
  | x :: a', y :: b' => N.eqb x y && eqb a' b'
  | _, _ => false
  end.

(** [data.endswith(suffix)]. *)
Definition endswith (data suffix : text) : bool :=
  Nat.leb (length suffix) (length data)
  && eqb (skipn (length data - length suffix) data) suffix.

(** [data[0:-k]] for a [data] of at least [k] characters. *)
Definition drop_last (k : nat) (data : text) : text :=
  firstn (length data - k) data.

(** [data[i - 1] in ' \t'] *)
Definition is_blank (c : char) : bool := N.eqb c SPACE || N.eqb c TAB.

(** [while i > 0 and data[i - 1] in ' \t': i -= 1] *)
Fixpoint back_over_blanks (data : text) (i : nat) : nat :=
  match i with
  | 0 => 0
  | S j =>
      match nth_error data j with
      | Some c => if is_blank c then back_over_blanks data j else i
      | None => i
      end
  end.

(** [data.endswith(tuple(' \t'))] *)
Definition ends_blank (data : text) : bool :=
  endswith data [SPACE] || endswith data [TAB].

(** [data.rstrip(' \t')] *)
Definition rstrip_blanks (data : text) : text :=
  firstn (back_over_blanks data (length data)) data.

End Py.

(** ** BinFileReader: the stack of opened files *)

Module BinFileReader.

(** What the opener returns: a file-like object.  [mode_binary] is
    [None] when the object has no [mode] attribute and otherwise tells
    whether ['b' in fp.mode]; [has_close] is [hasattr(fp, 'close')];
    [content] is what iterating the object yields. *)
Record file := mkFile {
  name : string;
  mode_binary : option bool;
  has_close : bool;
  content : list bytes
}.

(** The injected opener; [None] stands for the opener raising. *)
Definition opener := string -> option file.

(** One entry of the three parallel lists [_files], [_generators] and
    [_filenames], which are pushed and popped together.  [hid] numbers
    the handles in the order they were pushed; [pending] and [counter]
    are the state of [enumerate(fp)]. *)
Record handle := mkHandle {
  hid : nat;
  hfile : file;
  pending : list bytes;
  counter : nat
}.

(** The reader and the generator its consumer pulls from.  [_files] has
    its top (Python's [[-1]]) at the head.  [closed] logs the calls of
    [close()] by handle; [popped] keeps the handles that left the stack.
    [finished] tells that the generator [__iter__] has returned: the test
    [while self._generators] found the stack empty, and from then on a
    pull raises [StopIteration] without running any code of the reader. *)
Record state := mkState {
  _files : list handle;
  pushed : nat;
  closed : list nat;
  popped : list handle;
  finished : bool
}.

Definition __init__ : state := mkState [] 0 [] [] false.

Definition include (open : opener) (fname : string) (st : state) : outcome state :=
  match open fname with
  | None => Raise OSError
  | Some fp =>
      match mode_binary fp with
      | Some false => Raise AssertionError
      | _ =>
          Return (mkState (mkHandle (pushed st) fp (content fp) 0 :: _files st)
                          (S (pushed st)) (closed st) (popped st) (finished st))
      end
  end.

(** Resuming the generator [__iter__]: exhausted files are closed and
    popped until a line can be yielded or the stack is empty. *)
Fixpoint resume (files : list handle) (closed : list nat) (popped : list handle)
  : option (Where * bytes) * (list handle * list nat * list handle) :=
  match files with
  | [] => (None, ([], closed, popped))
  | h :: rest =>
      match pending h with
      | [] =>
          resume rest
                 (if has_close (hfile h) then closed ++ [hid h] else closed)
                 (popped ++ [h])
      | l :: more =>
          (Some (mkWhere (name (hfile h)) (counter h + 1) l, l),
           (mkHandle (hid h) (hfile h) more (S (counter h)) :: rest, closed, popped))
      end
  end.

(** One pull, [next(gen)]: [None] stands for [StopIteration].  A
    generator that has returned stays finished, whatever is included
    afterwards. *)
Definition next (st : state) : option (Where * bytes) * state :=
  if finished st then (None, st)
  else
    let '(item, (files, cl, po)) := resume (_files st) (closed st) (popped st) in
    (item, mkState files (pushed st) cl po
                   (match item with None => true | Some _ => false end)).

(** What the consumer does between two pulls: call [include] on the
    reader, or pull from the one generator it got from [iter]. *)
Inductive op :=
| Include (fname : string)
| Next.

(** A consumer session; an [include] that raises leaves the stack as it
    was.  The lines pulled are collected. *)
Fixpoint drive (open : opener) (ops : list op) (st : state)
  : list (Where * bytes) * state :=
  match ops with
  | [] => ([], st)
  | Include f :: ops' =>
      match include open f st with
      | Return st' => drive open ops' st'
      | Raise _ => drive open ops' st
      end
  | Next :: ops' =>
      let (item, st') := next st in
      let (items, st'') := drive open ops' st' in
      (match item with Some i => i :: items | None => items end, st'')
  end.

Definition is_open (st : state) (id : nat) : bool :=
  existsb (fun h => Nat.eqb (hid h) id) (_files st).
Definition times_closed (st : state) (id : nat) : nat :=
  count_occ Nat.eq_dec (closed st) id.

End BinFileReader.

(** ** EncodingReader: UTF-8, else cp1252 *)

(** [bytes.decode('utf-8')] in strict mode: shortest forms only, no
    surrogates, nothing above U+10FFFF.  [None] stands for
    [UnicodeDecodeError]. *)
Module Utf8.

Definition between (lo hi n : N) : bool := (lo <=? n)%N && (n <=? hi)%N.
Definition is_cont (n : N) : bool := between 0x80 0xBF n.
Definition low6 (n : N) : N := (n - 0x80)%N.

(** The range of the second byte depends on the lead byte. *)
Definition second_of3 (n0 n1 : N) : bool :=
  between (if (n0 =? 0xE0)%N then 0xA0 else 0x80)
          (if (n0 =? 0xED)%N then 0x9F else 0xBF) n1.
Definition second_of4 (n0 n1 : N) : bool :=
  between (if (n0 =? 0xF0)%N then 0x90 else 0x80)
          (if (n0 =? 0xF4)%N then 0x8F else 0xBF) n1.

Fixpoint decode (data : bytes) : option text :=
  match data with
  | [] => Some []
  | b0 :: r0 =>
      let n0 := Byte.to_N b0 in
      if (n0 <? 0x80)%N then option_map (cons n0) (decode r0)
      else if between 0xC2 0xDF n0 then
        match r0 with
        | b1 :: r1 =>
            let n1 := Byte.to_N b1 in
            if is_cont n1
            then option_map (cons ((n0 - 0xC0) * 64 + low6 n1)%N) (decode r1)
            else None
        | _ => None
        end
      else if between 0xE0 0xEF n0 then
        match r0 with
        | b1 :: b2 :: r2 =>
            let n1 := Byte.to_N b1 in
            let n2 := Byte.to_N b2 in
            if second_of3 n0 n1 && is_cont n2
            then option_map
                   (cons ((n0 - 0xE0) * 4096 + low6 n1 * 64 + low6 n2)%N)
                   (decode r2)
            else None
        | _ => None
        end
      else if between 0xF0 0xF4 n0 then
        match r0 with
        | b1 :: b2 :: b3 :: r3 =>
            let n1 := Byte.to_N b1 in
            let n2 := Byte.to_N b2 in
            let n3 := Byte.to_N b3 in
            if second_of4 n0 n1 && is_cont n2 && is_cont n3
            then option_map
                   (cons ((n0 - 0xF0) * 262144 + low6 n1 * 4096
                          + low6 n2 * 64 + low6 n3)%N)
                   (decode r3)
            else None
        | _ => None
        end
      else None
  end.

Definition byte_of (n : N) : byte :=
  match Byte.of_N n with Some b => b | None => x00 end.

(** [str.encode('utf-8')]; [None] stands for [UnicodeEncodeError]
    (a lone surrogate). *)
Definition encode_char (c : char) : option bytes :=
  if (c <? 0x80)%N then Some [byte_of c]
  else if (c <? 0x800)%N then
    Some [byte_of (0xC0 + c / 64); byte_of (0x80 + c mod 64)]
  else if between 0xD800 0xDFFF c then None
  else if (c <? 0x10000)%N then
    Some [byte_of (0xE0 + c / 4096); byte_of (0x80 + (c / 64) mod 64);
          byte_of (0x80 + c mod 64)]
  else if (c <? 0x110000)%N then
    Some [byte_of (0xF0 + c / 262144); byte_of (0x80 + (c / 4096) mod 64);
          byte_of (0x80 + (c / 64) mod 64); byte_of (0x80 + c mod 64)]
  else None.

Fixpoint encode (t : text) : option bytes :=
  match t with
  | [] => Some []
  | c :: rest =>
      match encode_char c, encode rest with
      | Some bs, Some more => Some (bs ++ more)
      | _, _ => None
      end
  end.

End Utf8.

(** [bytes.decode('cp1252')] in strict mode, after the decoding table of
    Python's [encodings/cp1252.py]: 0x00-0x7F and 0xA0-0xFF map to the
    code point of the same number, 0x80-0x9F go through the table below,
    where five bytes are undefined. *)
Module Cp1252.

Definition table_80_9F : list (option char) :=
  [ Some 0x20AC; None;        Some 0x201A; Some 0x0192;
    Some 0x201E; Some 0x2026; Some 0x2020; Some 0x2021;
    Some 0x02C6; Some 0x2030; Some 0x0160; Some 0x2039;
    Some 0x0152; None;        Some 0x017D; None;
    None;        Some 0x2018; Some 0x2019; Some 0x201C;
    Some 0x201D; Some 0x2022; Some 0x2013; Some 0x2014;
    Some 0x02DC; Some 0x2122; Some 0x0161; Some 0x203A;
    Some 0x0153; None;        Some 0x017E; Some 0x0178 ]%N.

Definition decode_byte (b : byte) : option char :=
  let n := Byte.to_N b in
  if (n <? 0x80)%N then Some n
  else if (n <? 0xA0)%N then nth (N.to_nat (n - 0x80)) table_80_9F None
  else Some n.

Fixpoint decode (data : bytes) : option text :=
  match data with
  | [] => Some []
  | b :: rest =>
      match decode_byte b, decode rest with
      | Some c, Some t => Some (c :: t)
      | _, _ => None
      end
  end.

End Cp1252.

Module EncodingReader.

(** The body of the [for] loop of [__iter__]. *)
Definition body (item : Where * bytes) : M (Where * text) :=
  let '(where_, data) := item in
  match Utf8.decode data with
  | Some data => ret (where_, data)
  | None =>
      emit (E_FILE_UTF8_BAD where_) ;;;
      match Cp1252.decode data with
      | Some data => ret (where_, data)
      | None => raise UnicodeDecodeError
      end
  end.

End EncodingReader.

(** ** NoCtrlReader: unusual control characters *)

Module NoCtrlReader.

(** all, except \r (0d), \n (0a), \t (09) *)
Definition illegal : list char :=
  [ 0x00; 0x01; 0x02; 0x03; 0x04; 0x05; 0x06; 0x07;
    0x08;             0x0b; 0x0c;       0x0e; 0x0f;
    0x10; 0x11; 0x12; 0x13; 0x14; 0x15; 0x16; 0x17;
    0x18; 0x19; 0x1a; 0x1b; 0x1c; 0x1d; 0x1e; 0x1f ]%N.

(** [set(data) & self.illegal] is not empty. *)
Definition has_illegal (data : text) : bool :=
  existsb (fun c => existsb (N.eqb c) illegal) data.

Definition body (item : Where * text) : M (Where * text) :=
  let '(where_, data) := item in
  (if has_illegal data then emit (W_FILE_CTRL_CHAR where_) else ret tt) ;;;
  ret (where_, data).

End NoCtrlReader.

(** ** FileformatReader: line endings per file *)

Module FileformatReader.

(** One entry [[filename, is_dos, latest_has_lf, where]] of [fileinfo];
    [None] is Python's [None]. *)
Record frame := mkFrame {
  fn : string;
  is_dos : option bool;
  latest_has_lf : option bool;
  last_where : Where
}.

(** [fileinfo] has its top (Python's [[-1]]) at the head. *)
Definition fileinfo := list frame.

(** [fileinfo[-1][0] != stop_at], where [stop_at] is a file name or
    [None]. *)
Definition differs (f : frame) (stop_at : option string) : bool :=
  match stop_at with
  | Some s => negb (String.eqb (fn f) s)
  | None => true
  end.

Fixpoint _pop_fileinfo (fi : fileinfo) (stop_at : option string) : M fileinfo :=
  match fi with
  | [] => ret []
  | top :: rest =>
      if differs top stop_at then
        match is_dos top, latest_has_lf top with
        | Some dos, Some has_lf =>
            (if dos && has_lf then emit (W_FILE_DOS_EOFCRLF (last_where top))
             else if negb dos && negb has_lf
                  then emit (W_FILE_UNIX_NOLF (last_where top))
                  else ret tt) ;;;
            _pop_fileinfo rest stop_at
        | _, _ => raise AssertionError
        end
      else ret fi
  end.

(** The variables that live across iterations of the [for] loop:
    [fileinfo] and the local [is_dos] ([None] also before it is first
    bound). *)
Definition state : Type := fileinfo * option bool.

Definition start : state := ([], None).

(** [where.filename in [i[0] for i in fileinfo]] *)
Definition known (fi : fileinfo) (f : string) : bool :=
  existsb (fun i => String.eqb (fn i) f) fi.

(** The test of line 118. *)
Definition changes_file (fi : fileinfo) (where_ : Where) : bool :=
  match fi with
  | [] => true
  | top :: _ => negb (String.eqb (fn top) (filename where_))
  end.

(** Assignments to [fileinfo[-1][1]], [[2]] and [[3]]. *)
Definition set_top (fi : fileinfo) (upd : frame -> frame) : M fileinfo :=
  match fi with
  | top :: rest => ret (upd top :: rest)
  | [] => raise IndexError
  end.

(** [data[0:-2]], [data[0:-1]] or [data], by the terminator found. *)
Definition strip_terminator (data : text) : text :=
  if Py.endswith data [CR; LF] then Py.drop_last 2 data
  else if Py.endswith data [LF] then Py.drop_last 1 data
  else data.

(** Lines 117-127, "Keep track of includes": the frame of the line's file
    becomes the top, and [is_dos] and [where] are re-set from it. *)
Definition track_includes (st : state) (where_ : Where)
  : M (fileinfo * option bool * Where) :=
  let '(fi, is_dos) := st in
  if changes_file fi where_ then
    fi <- (if known fi (filename where_)
           then _pop_fileinfo fi (Some (filename where_))
           else ret (mkFrame (filename where_) None None where_ :: fi)) ;;
    match fi with
    | top :: _ => ret (fi, FileformatReader.is_dos top, last_where top)
    | [] => raise IndexError
    end
  else ret (fi, is_dos, where_).

(** Lines 129-150: the ending of the line is recorded, checked against the
    convention of the file and stripped. *)
Definition check_ending (vars : fileinfo * option bool * Where) (data : text)
  : M (state * (Where * text)) :=
  let '(fi, is_dos, where_) := vars in
  let has_crlf := Py.endswith data [CR; LF] in
  let has_lf := Py.endswith data [LF] in
  fi <- set_top fi (fun t => mkFrame (fn t) (FileformatReader.is_dos t)
                                      (Some has_lf) where_) ;;
  '(fi, dos) <-
    (match is_dos with
     | None =>
         let dos := has_crlf || negb has_lf in
         fi <- set_top fi (fun t => mkFrame (fn t) (Some dos)
                                             (latest_has_lf t) (last_where t)) ;;
         ret (fi, dos)
     | Some dos => ret (fi, dos)
     end) ;;
  (if dos then
     if has_lf && negb has_crlf then emit (W_FILE_DOS_BARELF where_) else ret tt
   else
     if has_crlf then emit (W_FILE_UNIX_CRLF where_) else ret tt) ;;;
  ret ((fi, Some dos), (where_, strip_terminator data)).

(** The body of the [for] loop of [__iter__]. *)
Definition body (st : state) (item : Where * text) : M (state * (Where * text)) :=
  let '(where_, data) := item in
  vars <- track_includes st where_ ;;
  check_ending vars data.

(** The generator run to its end: the loop, then the final
    [_pop_fileinfo(fileinfo, None)]. *)
Definition __iter__ (items : list (Where * text)) : M (list (Where * text)) :=
  '(st, out) <- for_each body start items ;;
  _pop_fileinfo (fst st) None ;;;
  ret out.

End FileformatReader.

(** ** AsteriskCommentReader: escapes and comments *)

Module AsteriskCommentReader.

Definition simple_comment_split (data : text) : text * text :=
  match Py.index SEMI data with
  | None => (data, [])
  | Some i =>
      let i := Py.back_over_blanks data i in
      (firstn i data, skipn i data)
  end.

(** The [while True] loop of lines 193-207: it returns [parts] and
    [comment].  Every turn that does not leave the loop shortens
    [data]. *)
Equations? escape_scan (data : text) (parts : list text) : list text * text
  by wf (length data) lt :=
  escape_scan data parts with inspect (Py.index SEMI data) := {
    | exist _ None _ => (parts ++ [data], [])
    | exist _ (Some i) _ with inspect (negb (Nat.eqb i 0)
                                 && match nth_error data (i - 1) with
                                    | Some c => N.eqb c BACKSLASH
                                    | None => false
                                    end) := {
        | exist _ true _ =>
            escape_scan (skipn (i + 1) data)
                        (parts ++ [firstn (i - 1) data ++ [SEMI]])
        | exist _ false _ => (parts ++ [firstn i data], skipn i data) } }.
Proof.
  rewrite length_skipn.
  destruct data as [|c data]; [discriminate | cbn [length]; lia].
Qed.

(** Lines 191-215: the scan, [''.join(parts)], and the blanks at the end
    of the code moved to the comment. *)
Definition escape_split (data : text) : text * text :=
  let '(parts, comment) := escape_scan data [] in
  let data := concat parts in
  let i := Py.back_over_blanks data (length data) in
  (firstn i data, skipn i data ++ comment).

(** The body of the [for] loop of [__iter__]. *)
Definition body (item : Where * text) : M (Where * text * text) :=
  let '(where_, data) := item in
  data <- (if Py.ends_blank data
           then emit (W_WSH_EOL where_) ;;; ret (Py.rstrip_blanks data)
           else ret data) ;;
  if negb (Py.contains BACKSLASH data) then
    let '(data, comment) := simple_comment_split data in
    ret (where_, data, comment)
  else
    let '(data, comment) := escape_split data in
    ret (where_, data, comment).

End AsteriskCommentReader.

(** ** FileReader: the five readers stacked *)

Module FileReader.

(** One pull through the four readers above [BinFileReader]. *)
Definition body (st : FileformatReader.state) (item : Where * bytes)
  : M (FileformatReader.state * (Where * text * text)) :=
  item <- EncodingReader.body item ;;
  item <- NoCtrlReader.body item ;;
  '(st, item) <- FileformatReader.body st item ;;
  rec <- AsteriskCommentReader.body item ;;
  ret (st, rec).

(** The whole generator run over the lines [BinFileReader] yields; at
    their end [FileformatReader] finalizes its frames. *)
Definition __iter__ (items : list (Where * bytes)) : M (list (Where * text * text)) :=
  '(st, out) <- for_each body FileformatReader.start items ;;
  FileformatReader._pop_fileinfo (fst st) None ;;;
  ret out.

End FileReader.

(* ===================================================================== *)
(** * Part II: the vocabulary of the properties                         *)
(* ===================================================================== *)

(** ** Texts and bytes *)

(** A backslash directly before a [;] somewhere in the text. *)
Fixpoint has_escaped_semi (data : text) : bool :=
  match data with
  | a :: rest =>
      match rest with
      | b :: _ => (N.eqb a BACKSLASH && N.eqb b SEMI) || has_escaped_semi rest
      | [] => false
      end
  | [] => false
  end.

(** The split the loop body makes of a line whose trailing blanks are
    gone. *)
Definition split_of (data : text) : text * text :=
  if negb (Py.contains BACKSLASH data)
  then AsteriskCommentReader.simple_comment_split data
  else AsteriskCommentReader.escape_split data.

(** The bytes Python's cp1252 table leaves undefined. *)
Definition cp1252_undefined (b : byte) : bool :=
  match b with
  | x81 | x8d | x8f | x90 | x9d => true
  | _ => false
  end.

(** The Unicode scalar values: the characters a decoded [str] is made of. *)
Definition valid_char (c : char) : bool :=
  (c <? 0xD800)%N || ((0xDFFF <? c)%N && (c <? 0x110000)%N).

(** A line feed occurs at most at the end of the line. *)
Definition lf_only_at_end (raw : bytes) : bool :=
  forallb (fun b => negb (Byte.eqb b x0a)) (removelast raw).

(** No line feed anywhere in the text. *)
Definition no_lf (t : text) : bool := forallb (fun c => negb (N.eqb c LF)) t.

(** The raw line [s] followed by a line feed. *)
Definition LF_bytes (s : string) : bytes := list_byte_of_string s ++ [x0a].

(** The decoded line [s] with its terminator. *)
Definition CRLF_line (s : string) : text := str s ++ [CR; LF].

Definition LF_line (s : string) : text := str s ++ [LF].

(** ** The frames of the Line-Ending Tracker *)

(** The two tests of lines 129-130. *)
Definition has_crlf (data : text) : bool := Py.endswith data [CR; LF].

Definition has_lf (data : text) : bool := Py.endswith data [LF].

(** What lines 138-143 report for a line of a file of convention [dos]. *)
Definition line_diags (dos : bool) (w : Where) (data : text) : list diag :=
  if dos then
    if has_lf data && negb (has_crlf data) then [W_FILE_DOS_BARELF w] else []
  else
    if has_crlf data then [W_FILE_UNIX_CRLF w] else [].

(** What [_pop_fileinfo] reports for a frame it pops. *)
Definition final_diags (f : FileformatReader.frame) : list diag :=
  match FileformatReader.is_dos f, FileformatReader.latest_has_lf f with
  | Some true, Some true => [W_FILE_DOS_EOFCRLF (FileformatReader.last_where f)]
  | Some false, Some false => [W_FILE_UNIX_NOLF (FileformatReader.last_where f)]
  | _, _ => []
  end.

(** The frames above the topmost frame of file [name], and the frames
    from that one down. *)
Fixpoint above (fi : FileformatReader.fileinfo) (name : string) : list FileformatReader.frame :=
  match fi with
  | [] => []
  | top :: rest =>
      if String.eqb (FileformatReader.fn top) name then [] else top :: above rest name
  end.

Fixpoint from (fi : FileformatReader.fileinfo) (name : string) : list FileformatReader.frame :=
  match fi with
  | [] => []
  | top :: rest =>
      if String.eqb (FileformatReader.fn top) name then fi else from rest name
  end.


(** The line comes from a file that has a frame below the top: an include
    has ended. *)
Definition returns_from_include (fi : FileformatReader.fileinfo) (w : Where) : bool :=
  FileformatReader.changes_file fi w && FileformatReader.known fi (filename w).

(** The frame has seen a line: neither flag is [None] any more. *)
Definition classified (f : FileformatReader.frame) : Prop :=
  FileformatReader.is_dos f <> None /\ FileformatReader.latest_has_lf f <> None.

(** What holds between two lines: every frame has seen a line, and the
    local [is_dos] is that of the top frame. *)
Definition tracker_inv (st : FileformatReader.state) : Prop :=
  Forall classified (fst st)
  /\ match fst st with
     | top :: _ => snd st = FileformatReader.is_dos top
     | [] => True
     end.


(** [line_diags] and the stripping of the terminator, on the items the
    loop pulls. *)
Definition line_of (dos : bool) (item : Where * text) : list diag :=
  line_diags dos (fst item) (snd item).

Definition stripped (item : Where * text) : Where * text :=
  (fst item, FileformatReader.strip_terminator (snd item)).

(** The top frame after more lines of its own file. *)
Definition after_block (top : FileformatReader.frame) (lines : list (Where * text))
  : FileformatReader.frame :=
  fold_left (fun f item =>
               FileformatReader.mkFrame (FileformatReader.fn f)
                 (FileformatReader.is_dos f) (Some (has_lf (snd item))) (fst item))
            lines top.

(** The state with which the loop meets the next line of [items]. *)
Definition reaches (items : list (Where * text)) (st : FileformatReader.state) : Prop :=
  exists ds out,
    for_each FileformatReader.body FileformatReader.start items = (ds, Return (st, out)).

Section TrackerVocabulary.

Import FileformatReader.

(** The file, position and convention the loop body works with after
    lines 118-127, and the frames popped and kept. *)
Definition enter (fi : fileinfo) (w : Where)
  : list frame * Where * option bool * list frame :=
  match from fi (filename w) with
  | old :: rest =>
      (above fi (filename w),
       if returns_from_include fi w then last_where old else w,
       is_dos old, rest)
  | [] => ([], w, None, fi)
  end.

(** The line was read from file [name]. *)
Definition from_file (name : string) (item : Where * text) : Prop :=
  filename (fst item) = name.

(** The first line after an include carries the position recorded for the
    including file. *)
Definition rebound (w : Where) (lines : list (Where * text)) : list (Where * text) :=
  match lines with
  | [] => []
  | (_, d) :: more => (w, d) :: more
  end.

(** What finalization reports for a file whose last line is [z]. *)
Definition dos_eof (z : Where * text) : list diag :=
  if has_lf (snd z) then [W_FILE_DOS_EOFCRLF (fst z)] else [].

Definition unix_eof (z : Where * text) : list diag :=
  if has_lf (snd z) then [] else [W_FILE_UNIX_NOLF (fst z)].

(** What two runs over the same files share in a frame. *)
Definition shape (f : frame) : string * Where := (fn f, last_where f).

(** A frame whose finalization reports nothing. *)
Definition quiet (f : frame) : Prop :=
  is_dos f = Some true /\ latest_has_lf f = Some false.

(** The position a frame stores is one of its own file. *)
Definition own_position (f : frame) : Prop := filename (last_where f) = fn f.

(** The frames of the second run mirror those of the first, and are all
    DOS frames whose last line had no line feed. *)
Definition sim (st1 st2 : state) : Prop :=
  tracker_inv st1
  /\ Forall own_position (fst st1)
  /\ map shape (fst st1) = map shape (fst st2)
  /\ Forall quiet (fst st2)
  /\ match fst st2 with [] => True | _ :: _ => snd st2 = Some true end.

End TrackerVocabulary.

(** ** Records and the second run *)




(** What [FileReader] yields: [where, data, comment]. *)
Definition record : Type := Where * text * text.

Definition position (r : record) : Where := fst (fst r).

Definition code_text (r : record) : text := snd (fst r).

Definition comment_text (r : record) : text := snd r.

(** The cleaned line of a record. *)
Definition cleaned (r : record) : text := code_text r ++ comment_text r.

(** The second run reads, at the position of each record, the cleaned
    line of the record encoded as UTF-8, without terminator. *)
Fixpoint rerun_input (recs : list record) : option (list (Where * bytes)) :=
  match recs with
  | [] => Some []
  | r :: rest =>
      match Utf8.encode (cleaned r), rerun_input rest with
      | Some raw, Some items => Some ((position r, raw) :: items)
      | _, _ => None
      end
  end.

Definition second_run (recs : list record) : M (list record) :=
  match rerun_input recs with
  | Some items => FileReader.__iter__ items
  | None => raise UnicodeEncodeError
  end.

(** A record the second run can reproduce: no disallowed control
    character, no [;] left in the code by an escape, no line feed left at
    the end of the line. *)
Definition rerunnable (r : record) : Prop :=
  NoCtrlReader.has_illegal (cleaned r) = false
  /\ Py.contains SEMI (code_text r) = false
  /\ has_lf (cleaned r) = false.

(** ** The handles of the Source Stack *)

Section StackVocabulary.

Import BinFileReader.



End StackVocabulary.

(** ** A session used as example *)

(** [extensions.conf] includes [users.conf], a DOS file, from its second
    line.  The consumer pulls two lines, includes, and pulls to the end. *)
Definition session_opener : BinFileReader.opener :=
  fun fname =>
    if String.eqb fname "extensions.conf" then
      Some (BinFileReader.mkFile "extensions.conf" (Some true) true
              [LF_bytes "[general]"; LF_bytes "#include users.conf";
               LF_bytes "exten => s,1,NoOp() ; greet"])
    else if String.eqb fname "users.conf" then
      Some (BinFileReader.mkFile "users.conf" (Some true) true
              [list_byte_of_string "[alice]" ++ [x0d; x0a];
               list_byte_of_string "secret=1" ++ [x0d; x0a]])
    else None.

Definition session_ops : list BinFileReader.op :=
  [ BinFileReader.Include "extensions.conf"; BinFileReader.Next; BinFileReader.Next;
    BinFileReader.Include "users.conf"; BinFileReader.Next; BinFileReader.Next;
    BinFileReader.Next; BinFileReader.Next ].

(** ** The splitter in one pass *)

(** The split read from left to right with one character of lookahead:
    a backslash directly before a [;] gives a [;] in the code, the first
    [;] met otherwise starts the comment. *)
Fixpoint unescape (data : text) : text * text :=
  match data with
  | [] => ([], [])
  | a :: rest =>
      if N.eqb a SEMI then ([], data)
      else
        match rest with
        | b :: rest' =>
            if N.eqb a BACKSLASH && N.eqb b SEMI
            then let (code, comment) := unescape rest' in (SEMI :: code, comment)
            else let (code, comment) := unescape rest in (a :: code, comment)
        | [] => ([a], [])
        end
  end.

(** The blanks at the end of a text. *)
Definition trailing_blanks (data : text) : text :=
  skipn (Py.back_over_blanks data (length data)) data.


(** ** Control characters and undecodable lines *)

(** A control character other than tab, line feed and carriage return. *)
Definition control_char (c : char) : bool :=
  (c <? 0x20)%N && negb (N.eqb c TAB) && negb (N.eqb c LF) && negb (N.eqb c CR).

(** A byte of 7-bit ASCII. *)
Definition ascii_byte (b : byte) : bool := (Byte.to_N b <? 0x80)%N.

(** A line that neither codec decodes. *)
Definition undecodable (raw : bytes) : bool :=
  match Utf8.decode raw with
  | Some _ => false
  | None => existsb cp1252_undefined raw
  end.

(** ** What the Line-Ending Tracker removes *)

(** The terminator found at the end of a line, by the tests of lines
    129-130. *)
Definition terminator (data : text) : text :=
  if has_crlf data then [CR; LF] else if has_lf data then [LF] else [].

(** A line that ends in a line feed without a carriage return before it. *)
Definition lf_terminated (item : Where * text) : Prop :=
  has_lf (snd item) = true /\ has_crlf (snd item) = false.

(** ** The lines of the Source Stack *)

(** [enumerate(fp)] continued from count [start], each line at
    [Where(name, i + 1, line)]. *)
Fixpoint numbered (nm : string) (start : nat) (lines : list bytes)
  : list (Where * bytes) :=
  match lines with
  | [] => []
  | l :: more => (mkWhere nm (start + 1) l, l) :: numbered nm (S start) more
  end.

(** The lines of a file, numbered from 1 under the name the file object
    carries. *)
Definition lines_of (fp : BinFileReader.file) : list (Where * bytes) :=
  numbered (BinFileReader.name fp) 0 (BinFileReader.content fp).

(** The lines a handle has yet to give. *)
Definition remaining (h : BinFileReader.handle) : list (Where * bytes) :=
  numbered (BinFileReader.name (BinFileReader.hfile h))
           (BinFileReader.counter h) (BinFileReader.pending h).

(** The object passes the test of lines 44-45. *)
Definition binary (fp : BinFileReader.file) : Prop :=
  BinFileReader.mode_binary fp <> Some false.

(** ** A file without anything to report *)

(** A byte of printable ASCII, or a tab. *)
Definition plain_byte (b : byte) : bool :=
  let n := Byte.to_N b in
  ((0x20 <=? n)%N && (n <? 0x7F)%N) || (n =? 0x09)%N.

(** The line is plain bytes and then a line feed, with no blank before the
    line feed. *)
Definition clean_line (raw : bytes) : bool :=
  Byte.eqb (last raw x00) x0a
  && forallb plain_byte (removelast raw)
  && negb (Py.ends_blank (map Byte.to_N (removelast raw))).

(** The record of a clean line: the split of its text. *)
Definition clean_record (item : Where * bytes) : record :=
  let t := map Byte.to_N (removelast (snd item)) in
  (fst item, fst (split_of t), snd (split_of t)).

(** Between two lines of a clean file the tracker holds nothing, or the
    one frame of the file, classified UNIX with a line feed last seen. *)
Definition clean_state (nm : string) (st : FileformatReader.state) : Prop :=
  st = FileformatReader.start
  \/ exists w, st = ([FileformatReader.mkFrame nm (Some false) (Some true) w], Some false).

(* ===================================================================== *)
(** * Part III: proofs                                                    *)
(* ===================================================================== *)

(** ** The monad of diagnostics and exceptions *)

Section MonadFacts.

Context {A B C : Type}.

Lemma bind_ret (a : A) (k : A -> M B) : bind (ret a) k = k a.
Proof. unfold bind, ret. destruct (k a). reflexivity. Qed.

Lemma bind_return (ds : list diag) (a : A) (k : A -> M B) :
  bind (ds, Return a) k = (ds ++ diags (k a), result (k a)).
Proof. unfold bind, diags, result. destruct (k a). reflexivity. Qed.

Lemma bind_assoc (c : M A) (k : A -> M B) (h : B -> M C) :
  bind (bind c k) h = bind c (fun a => bind (k a) h).
Proof.
  destruct c as [ds [a|e]]; [|reflexivity].
  unfold bind. destruct (k a) as [ds1 [b|e]]; [|reflexivity].
  destruct (h b) as [ds2 r]. rewrite app_assoc. reflexivity.
Qed.

End MonadFacts.

(** ** Python's sequence operations *)

Section PyFacts.

Lemma index_Some c data i :
  Py.index c data = Some i ->
  i < length data /\ nth_error data i = Some c
  /\ forall j, j < i -> nth_error data j <> Some c.
Proof.
  revert i. induction data as [|x rest IH]; simpl; intros i H; [discriminate|].
  destruct (N.eqb_spec x c) as [->|Hne].
  - injection H as <-. repeat split; [lia | intros j Hj; lia].
  - destruct (Py.index c rest) as [k|]; [|discriminate].
    injection H as <-. destruct (IH k eq_refl) as (Hlt & Hnth & Hmin).
    repeat split; [lia | exact Hnth |].
    intros [|j] Hj; simpl; [congruence | apply Hmin; lia].
Qed.

Lemma back_over_blanks_le data i : Py.back_over_blanks data i <= i.
Proof.
  induction i as [|j IH]; simpl; [lia|].
  destruct (nth_error data j) as [c|]; [|lia].
  destruct (Py.is_blank c); lia.
Qed.

Lemma back_over_blanks_firstn data k i :
  i <= k -> Py.back_over_blanks (firstn k data) i = Py.back_over_blanks data i.
Proof.
  induction i as [|j IH]; simpl; intros Hle; [reflexivity|].
  rewrite nth_error_firstn.
  destruct (Nat.ltb_spec j k); [|lia].
  destruct (nth_error data j) as [c|]; [|reflexivity].
  destruct (Py.is_blank c); [apply IH; lia | reflexivity].
Qed.

Lemma skipn_firstn_app (data : text) j i :
  j <= i -> skipn j (firstn i data) ++ skipn i data = skipn j data.
Proof.
  intros Hle.
  rewrite <- (firstn_skipn i data) at 3.
  rewrite skipn_app, length_firstn. f_equal.
  destruct (Nat.le_gt_cases (length data) i) as [Hlen|Hlen].
  - rewrite (skipn_all2 data Hlen), skipn_nil. reflexivity.
  - replace (j - Nat.min i (length data)) with 0 by lia. reflexivity.
Qed.

Lemma eqb_eq a b : Py.eqb a b = true <-> a = b.
Proof.
  revert b. induction a as [|x a IH]; intros [|y b]; simpl;
    try (split; (reflexivity || discriminate)).
  rewrite andb_true_iff, N.eqb_eq, IH.
  split; [intros [-> ->]; reflexivity | intros H; injection H; auto].
Qed.

Lemma endswith_app l s : Py.endswith (l ++ s) s = true.
Proof.
  unfold Py.endswith. rewrite length_app.
  replace (length l + length s - length s) with (length l) by lia.
  rewrite skipn_app, skipn_all, Nat.sub_diag. simpl.
  rewrite andb_true_iff, Nat.leb_le, eqb_eq. split; [lia | reflexivity].
Qed.

Lemma endswith_true data s :
  Py.endswith data s = true -> data = Py.drop_last (length s) data ++ s.
Proof.
  unfold Py.endswith, Py.drop_last.
  rewrite andb_true_iff, eqb_eq. intros [_ H].
  rewrite <- (firstn_skipn (length data - length s) data) at 1.
  f_equal. exact H.
Qed.

Lemma endswith_snoc l x c : Py.endswith (l ++ [x]) [c] = N.eqb x c.
Proof.
  unfold Py.endswith. rewrite length_app. simpl length. rewrite Nat.add_1_r.
  replace (S (length l) - 1) with (length l) by lia.
  rewrite skipn_app, skipn_all, Nat.sub_diag. simpl. apply andb_true_r.
Qed.

Lemma ends_blank_snoc l x : Py.ends_blank (l ++ [x]) = Py.is_blank x.
Proof. unfold Py.ends_blank. rewrite !endswith_snoc. reflexivity. Qed.

Lemma back_over_blanks_snoc l x :
  Py.back_over_blanks (l ++ [x]) (length (l ++ [x])) =
  if Py.is_blank x then Py.back_over_blanks l (length l) else length (l ++ [x]).
Proof.
  rewrite length_app. simpl length. rewrite Nat.add_1_r. simpl.
  rewrite nth_error_app2, Nat.sub_diag by lia. simpl.
  destruct (Py.is_blank x); [|reflexivity].
  rewrite <- (back_over_blanks_firstn (l ++ [x]) (length l)) by lia.
  rewrite firstn_app, firstn_all, Nat.sub_diag. simpl. rewrite app_nil_r.
  reflexivity.
Qed.

Lemma rstrip_blanks_snoc l x :
  Py.rstrip_blanks (l ++ [x]) =
  if Py.is_blank x then Py.rstrip_blanks l else l ++ [x].
Proof.
  unfold Py.rstrip_blanks. rewrite back_over_blanks_snoc.
  destruct (Py.is_blank x).
  - rewrite firstn_app.
    pose proof (back_over_blanks_le l (length l)).
    replace (Py.back_over_blanks l (length l) - length l) with 0 by lia.
    simpl. apply app_nil_r.
  - apply firstn_all.
Qed.

Lemma ends_blank_rstrip data : Py.ends_blank (Py.rstrip_blanks data) = false.
Proof.
  induction data as [|x l IH] using rev_ind; [reflexivity|].
  rewrite rstrip_blanks_snoc.
  destruct (Py.is_blank x) eqn:E; [exact IH|].
  rewrite ends_blank_snoc. exact E.
Qed.

Lemma no_blank_end data :
  Py.ends_blank data = false ->
  Py.back_over_blanks data (length data) = length data.
Proof.
  destruct data as [|x l] using rev_ind; [reflexivity|].
  rewrite ends_blank_snoc, back_over_blanks_snoc. intros ->. reflexivity.
Qed.

Lemma rstrip_no_blank_end data :
  Py.ends_blank data = false -> Py.rstrip_blanks data = data.
Proof.
  intros H. unfold Py.rstrip_blanks. rewrite (no_blank_end _ H).
  apply firstn_all.
Qed.

(** What the first statement of the splitter's loop leaves in [data]. *)
Lemma trimmed_is_rstrip data :
  (if Py.ends_blank data then Py.rstrip_blanks data else data)
  = Py.rstrip_blanks data.
Proof.
  destruct (Py.ends_blank data) eqn:E; [reflexivity|].
  symmetry. apply rstrip_no_blank_end, E.
Qed.

End PyFacts.

(** ** AsteriskCommentReader *)

Lemma escape_scan_unfold data parts :
  AsteriskCommentReader.escape_scan data parts =
  match Py.index SEMI data with
  | None => (parts ++ [data], [])
  | Some i =>
      if negb (Nat.eqb i 0)
         && match nth_error data (i - 1) with
            | Some c => N.eqb c BACKSLASH
            | None => false
            end
      then AsteriskCommentReader.escape_scan (skipn (i + 1) data)
             (parts ++ [firstn (i - 1) data ++ [SEMI]])
      else (parts ++ [firstn i data], skipn i data)
  end.
Proof.
  funelim (AsteriskCommentReader.escape_scan data parts).
  - rewrite e. reflexivity.
  - rewrite e, e0. reflexivity.
  - rewrite e, e0. reflexivity.
Qed.

Lemma no_escaped_semi_nth data j :
  has_escaped_semi data = false ->
  nth_error data j = Some BACKSLASH -> nth_error data (S j) <> Some SEMI.
Proof.
  revert j. induction data as [|a rest IH]; intros j H Hj; [destruct j; discriminate|].
  simpl in H. destruct rest as [|b rest'].
  - destruct j; simpl; [discriminate | destruct j; discriminate].
  - apply orb_false_iff in H. destruct H as [H1 H2].
    destruct j as [|j].
    + simpl in Hj. injection Hj as ->. simpl in *.
      destruct (N.eqb_spec b SEMI); [discriminate | congruence].
    + change (nth_error (a :: b :: rest') (S (S j)))
        with (nth_error (b :: rest') (S j)).
      apply IH; assumption.
Qed.

(** Without an escaped delimiter the scan stops at the first [;]. *)
Lemma escape_scan_plain data :
  has_escaped_semi data = false ->
  AsteriskCommentReader.escape_scan data [] =
  match Py.index SEMI data with
  | None => ([data], [])
  | Some i => ([firstn i data], skipn i data)
  end.
Proof.
  intros Hno. rewrite escape_scan_unfold.
  destruct (Py.index SEMI data) as [i|] eqn:Ei; [|reflexivity].
  destruct (index_Some _ _ _ Ei) as (Hlt & Hnth & _).
  destruct i as [|j]; [reflexivity|].
  simpl. rewrite Nat.sub_0_r.
  destruct (nth_error data j) as [c|] eqn:Ej; [|reflexivity].
  destruct (N.eqb_spec c BACKSLASH) as [->|]; [|reflexivity].
  exfalso. exact (no_escaped_semi_nth _ _ Hno Ej Hnth).
Qed.

Lemma contains_no_escaped data :
  Py.contains BACKSLASH data = false -> has_escaped_semi data = false.
Proof.
  unfold Py.contains.
  induction data as [|a rest IH]; [reflexivity|].
  cbn [existsb]. intros H. apply orb_false_iff in H. destruct H as [Ha Hr].
  destruct rest as [|b rest']; [reflexivity|].
  cbn [has_escaped_semi] in *.
  rewrite (N.eqb_sym a), Ha. cbn [andb orb]. apply IH, Hr.
Qed.

(** What lines 208-215 do to a single part and its comment. *)
Lemma escape_split_plain data :
  has_escaped_semi data = false ->
  AsteriskCommentReader.escape_split data =
  match Py.index SEMI data with
  | None =>
      let i := Py.back_over_blanks data (length data) in
      (firstn i data, skipn i data)
  | Some i =>
      let j := Py.back_over_blanks data i in
      (firstn j data, skipn j data)
  end.
Proof.
  intros Hno. unfold AsteriskCommentReader.escape_split.
  rewrite (escape_scan_plain _ Hno).
  destruct (Py.index SEMI data) as [i|] eqn:Ei; simpl; rewrite !app_nil_r.
  - destruct (index_Some _ _ _ Ei) as (Hlt & _ & _).
    rewrite length_firstn, Nat.min_l by lia.
    rewrite back_over_blanks_firstn by lia.
    pose proof (back_over_blanks_le data i) as Hle.
    rewrite firstn_firstn, Nat.min_l by lia.
    rewrite skipn_firstn_app by lia. reflexivity.
  - reflexivity.
Qed.

(** The loop body with its first statement resolved: the warning, then
    the split of the line without its trailing blanks. *)
Lemma comment_body_unfold (w : Where) (data : text) :
  AsteriskCommentReader.body (w, data) =
  ((if Py.ends_blank data then emit (W_WSH_EOL w) else ret tt) ;;;
   let '(code, comment) :=
     if negb (Py.contains BACKSLASH (Py.rstrip_blanks data))
     then AsteriskCommentReader.simple_comment_split (Py.rstrip_blanks data)
     else AsteriskCommentReader.escape_split (Py.rstrip_blanks data) in
   ret (w, code, comment)).
Proof.
  unfold AsteriskCommentReader.body.
  destruct (Py.ends_blank data) eqn:E.
  - rewrite bind_assoc. unfold emit at 1 2. rewrite !bind_return, bind_ret.
    destruct (negb (Py.contains BACKSLASH (Py.rstrip_blanks data)));
      reflexivity.
  - rewrite !bind_ret, (rstrip_no_blank_end _ E).
    destruct (negb (Py.contains BACKSLASH data)); reflexivity.
Qed.

(** C6. Round trip: a line with no backslash directly before a [;] and no
    space or tab at its end is split into a code and a comment that
    concatenate to the line, and no diagnostic is emitted. *)
Theorem split_round_trip (w : Where) (data : text) :
  has_escaped_semi data = false ->
  Py.ends_blank data = false ->
  exists code comment,
    AsteriskCommentReader.body (w, data) = ([], Return (w, code, comment))
    /\ code ++ comment = data.
Proof.
  intros Hno Hend. unfold AsteriskCommentReader.body. rewrite Hend, bind_ret.
  destruct (negb (Py.contains BACKSLASH data)).
  - unfold AsteriskCommentReader.simple_comment_split.
    destruct (Py.index SEMI data) as [i|].
    + eexists _, _. split; [reflexivity | apply firstn_skipn].
    + eexists _, _. split; [reflexivity | apply app_nil_r].
  - rewrite (escape_split_plain _ Hno).
    destruct (Py.index SEMI data) as [i|];
      eexists _, _; (split; [reflexivity | apply firstn_skipn]).
Qed.

Lemma split_round_trip_witness :
  exists code comment,
    AsteriskCommentReader.body (mkWhere "extensions.conf" 7 [], str "a\b = c ; d")
    = ([], Return (mkWhere "extensions.conf" 7 [], code, comment))
    /\ code ++ comment = str "a\b = c ; d".
Proof. apply split_round_trip; reflexivity. Defined.

(** C7. Escape fidelity: [foo\; bar; baz] is split into the code
    [foo; bar], where the escaped delimiter has become a plain [;], and
    the comment [; baz], which starts at the first delimiter that is not
    escaped; nothing is reported. *)
Theorem escape_fidelity (w : Where) :
  AsteriskCommentReader.escape_scan (str "foo\; bar; baz") []
  = ([str "foo;"; str " bar"], str "; baz")
  /\ AsteriskCommentReader.body (w, str "foo\; bar; baz")
     = ([], Return (w, str "foo; bar", str "; baz")).
Proof. split; reflexivity. Qed.




(** ** EncodingReader *)

Lemma cp1252_decode_byte_None (b : byte) :
  Cp1252.decode_byte b = None <-> cp1252_undefined b = true.
Proof. destruct b; vm_compute; split; (reflexivity || discriminate). Qed.

Lemma cp1252_decode_Some (data : bytes) :
  (exists t, Cp1252.decode data = Some t)
  <-> existsb cp1252_undefined data = false.
Proof.
  induction data as [|b rest IH]; simpl.
  - split; [reflexivity | intros _; eexists; reflexivity].
  - pose proof (cp1252_decode_byte_None b) as Hb.
    destruct (Cp1252.decode_byte b) as [c|], (cp1252_undefined b); simpl;
      try (destruct Hb as [Hb1 Hb2]; (specialize (Hb1 eq_refl) || specialize (Hb2 eq_refl));
           discriminate).
    + rewrite <- IH. destruct (Cp1252.decode rest) as [t|].
      * split; intros _; eexists; reflexivity.
      * split; intros [t Ht]; discriminate.
    + split; [intros [t Ht]; discriminate | discriminate].
Qed.

(** A line that is not UTF-8: one [E_FILE_UTF8_BAD] at the line's position,
    then whatever the cp1252 decoder does. *)
Lemma decoder_fallback (w : Where) (data : bytes) :
  Utf8.decode data = None ->
  EncodingReader.body (w, data) =
  ([E_FILE_UTF8_BAD w],
   match Cp1252.decode data with
   | Some t => Return (w, t)
   | None => Raise UnicodeDecodeError
   end).
Proof.
  intros H. unfold EncodingReader.body. rewrite H.
  destruct (Cp1252.decode data); reflexivity.
Qed.

Lemma decoder_utf8 (w : Where) (data : bytes) (t : text) :
  Utf8.decode data = Some t -> EncodingReader.body (w, data) = ([], Return (w, t)).
Proof. intros H. unfold EncodingReader.body. rewrite H. reflexivity. Qed.

Example utf8_decodes :
  Utf8.decode [x61; xc3; xa9; xe2; x82; xac; xf0; x9f; x98; x80]
  = Some [0x61; 0xE9; 0x20AC; 0x1F600]%N.
Proof. reflexivity. Qed.

(** Overlong forms, surrogates, code points above U+10FFFF, lone
    continuation bytes and truncated sequences are refused. *)
Example utf8_refuses :
  Utf8.decode [xc0; x80] = None
  /\ Utf8.decode [xe0; x80; x80] = None
  /\ Utf8.decode [xed; xa0; x80] = None
  /\ Utf8.decode [xf4; x90; x80; x80] = None
  /\ Utf8.decode [x80] = None
  /\ Utf8.decode [xe2; x82] = None.
Proof. repeat split. Qed.

Example cp1252_decodes :
  Cp1252.decode [x61; x80; xe9; x9f] = Some [0x61; 0x20AC; 0xE9; 0x0178]%N.
Proof. reflexivity. Qed.

(** A line in Latin-1 is reported and read through the fallback. *)
Example decoder_falls_back (w : Where) :
  EncodingReader.body (w, [x63; x61; x66; xe9; x0a])
  = ([E_FILE_UTF8_BAD w], Return (w, [0x63; 0x61; 0x66; 0xE9; 0x0A]%N)).
Proof. reflexivity. Qed.

(** C1. The line [b'\x81'] is not UTF-8, so the Decoder emits one
    [E_FILE_UTF8_BAD] at its position; the fallback [decode('cp1252')] then
    raises [UnicodeDecodeError], because byte 0x81 has no character in
    that codepage. *)
Theorem fallback_decode_raises (w : Where) :
  Utf8.decode [x81] = None
  /\ Cp1252.decode_byte x81 = None
  /\ EncodingReader.body (w, [x81])
     = ([E_FILE_UTF8_BAD w], Raise UnicodeDecodeError).
Proof. repeat split. Qed.

(** The fallback raises exactly on the lines that hold one of the five
    undefined bytes. *)
Lemma fallback_raises_iff (w : Where) (data : bytes) :
  Utf8.decode data = None ->
  (result (EncodingReader.body (w, data)) = Raise UnicodeDecodeError
   <-> existsb cp1252_undefined data = true).
Proof.
  intros H. rewrite (decoder_fallback w _ H). unfold result. simpl.
  pose proof (cp1252_decode_Some data) as Hd.
  destruct (Cp1252.decode data) as [t|].
  - destruct Hd as [Hd _]. rewrite Hd by (eexists; reflexivity).
    split; discriminate.
  - destruct (existsb cp1252_undefined data); [tauto|].
    destruct Hd as [_ Hd]. destruct (Hd eq_refl); discriminate.
Qed.

(** ** FileformatReader *)

Section TrackerFacts.

Import FileformatReader.

Lemma above_from fi name : above fi name ++ from fi name = fi.
Proof.
  induction fi as [|top rest IH]; simpl; [reflexivity|].
  destruct (String.eqb (fn top) name); simpl; [reflexivity | now rewrite IH].
Qed.

Lemma known_from fi name :
  known fi name = true ->
  exists old rest, from fi name = old :: rest /\ fn old = name.
Proof.
  induction fi as [|top rest IH]; simpl; [discriminate|].
  destruct (String.eqb_spec (fn top) name) as [E|E]; simpl.
  - intros _. exists top, rest. auto.
  - exact IH.
Qed.

Lemma unknown_from fi name : known fi name = false -> from fi name = [].
Proof.
  induction fi as [|top rest IH]; simpl; [reflexivity|].
  destruct (String.eqb (fn top) name); simpl; [discriminate | exact IH].
Qed.

Lemma pop_to fi name :
  Forall classified fi ->
  _pop_fileinfo fi (Some name)
  = (flat_map final_diags (above fi name), Return (from fi name)).
Proof.
  induction 1 as [|top rest [Hd Hl] _ IH]; [reflexivity|].
  cbn [_pop_fileinfo above from differs].
  destruct (String.eqb (fn top) name); cbn [negb]; [reflexivity|].
  cbn [flat_map]. unfold final_diags at 1.
  destruct (is_dos top) as [[|]|], (latest_has_lf top) as [[|]|];
    try congruence; rewrite IH; reflexivity.
Qed.

Lemma pop_all fi :
  Forall classified fi ->
  _pop_fileinfo fi None = (flat_map final_diags fi, Return []).
Proof.
  induction 1 as [|top rest [Hd Hl] _ IH]; [reflexivity|].
  cbn [_pop_fileinfo differs flat_map]. unfold final_diags at 1.
  destruct (is_dos top) as [[|]|], (latest_has_lf top) as [[|]|];
    try congruence; rewrite IH; reflexivity.
Qed.

Lemma track_includes_spec st w :
  tracker_inv st ->
  let '(pops, w', cls, rest) := enter (fst st) w in
  track_includes st w
  = (flat_map final_diags pops,
     Return (mkFrame (filename w) cls
                     (match from (fst st) (filename w) with
                      | old :: _ => latest_has_lf old
                      | [] => None
                      end)
                     (match from (fst st) (filename w) with
                      | old :: _ => last_where old
                      | [] => w
                      end) :: rest,
             cls, w')).
Proof.
  destruct st as [fi loc]. intros [Hall Htop]. simpl in Hall, Htop.
  unfold enter, returns_from_include, track_includes. cbn [fst].
  destruct (changes_file fi w) eqn:Ec.
  - destruct (known fi (filename w)) eqn:Ek.
    + destruct (known_from _ _ Ek) as (old & rest & Ef & En).
      rewrite Ef. cbn [andb].
      rewrite (pop_to _ _ Hall), Ef, bind_return. cbn.
      rewrite app_nil_r. destruct old; simpl in *; subst; reflexivity.
    + rewrite (unknown_from _ _ Ek), bind_ret. reflexivity.
  - destruct fi as [|top rest]; [discriminate|].
    simpl in Ec. apply negb_false_iff in Ec. cbn [from above]. rewrite Ec.
    apply String.eqb_eq in Ec. cbn [andb].
    destruct top; simpl in *; subst; reflexivity.
Qed.

Lemma check_ending_spec top rest cls w data :
  let dos := match cls with
             | Some b => b
             | None => has_crlf data || negb (has_lf data)
             end in
  check_ending (top :: rest, cls, w) data
  = (line_diags dos w data,
     Return ((mkFrame (fn top)
                      (match cls with None => Some dos | Some _ => is_dos top end)
                      (Some (has_lf data)) w :: rest,
              Some dos),
             (w, strip_terminator data))).
Proof.
  unfold check_ending, line_diags, has_crlf, has_lf. cbn [set_top].
  destruct cls as [[|]|], (Py.endswith data [CR; LF]), (Py.endswith data [LF]);
    reflexivity.
Qed.

Lemma body_spec st w data :
  tracker_inv st ->
  let '(pops, w', cls, rest) := enter (fst st) w in
  let dos := match cls with
             | Some b => b
             | None => has_crlf data || negb (has_lf data)
             end in
  body st (w, data)
  = (flat_map final_diags pops ++ line_diags dos w' data,
     Return ((mkFrame (filename w) (Some dos) (Some (has_lf data)) w' :: rest,
              Some dos),
             (w', strip_terminator data))).
Proof.
  intros Hinv. pose proof (track_includes_spec st w Hinv) as Ht.
  destruct (enter (fst st) w) as [[[pops w'] cls] rest] eqn:Ee.
  cbv zeta. unfold body. rewrite Ht, bind_return, check_ending_spec.
  cbn [diags result fst snd fn].
  destruct cls; reflexivity.
Qed.

Lemma enter_rest fi w pops w' cls rest :
  enter fi w = (pops, w', cls, rest) -> exists pre, fi = pre ++ rest.
Proof.
  unfold enter. pose proof (above_from fi (filename w)) as Hf.
  destruct (from fi (filename w)) as [|old rest0]; intros H; injection H as <- <- <- <-.
  - exists []. reflexivity.
  - exists (above fi (filename w) ++ [old]). rewrite <- app_assoc. symmetry. exact Hf.
Qed.

(** The loop body never raises, and keeps the invariant. *)
Lemma body_inv st w data :
  tracker_inv st ->
  exists ds st' o,
    body st (w, data) = (ds, Return (st', o)) /\ tracker_inv st'.
Proof.
  intros Hinv. pose proof (body_spec st w data Hinv) as Hb.
  destruct (enter (fst st) w) as [[[pops w'] cls] rest] eqn:Ee.
  cbv zeta in Hb. eexists _, _, _. split; [exact Hb|].
  destruct (enter_rest _ _ _ _ _ _ Ee) as [pre Hpre].
  destruct Hinv as [Hall _]. rewrite Hpre in Hall.
  apply Forall_app in Hall. destruct Hall as [_ Hrest].
  split; cbn [fst snd]; [|reflexivity].
  constructor; [split; discriminate | exact Hrest].
Qed.

Lemma start_inv : tracker_inv start.
Proof. split; simpl; [constructor | exact I]. Qed.

End TrackerFacts.

Section ForEachFacts.

Context {S I O : Type} (body : S -> I -> M (S * O)).

Lemma for_each_cons st item rest :
  for_each body st (item :: rest)
  = ('(st1, o) <- body st item ;;
     '(st2, os) <- for_each body st1 rest ;;
     ret (st2, o :: os)).
Proof. reflexivity. Qed.

Lemma for_each_step st item rest ds st1 o :
  body st item = (ds, Return (st1, o)) ->
  for_each body st (item :: rest)
  = ('(st2, os) <- ((ds, Return tt) ;;; for_each body st1 rest) ;;
     ret (st2, o :: os)).
Proof.
  intros H. rewrite for_each_cons, H.
  unfold bind. destruct (for_each body st1 rest) as [ds2 [[st2 os]|e]];
    simpl; rewrite ?app_nil_r; reflexivity.
Qed.

Lemma for_each_returns st items ds1 st1 out1 rest :
  for_each body st items = (ds1, Return (st1, out1)) ->
  for_each body st (items ++ rest)
  = ('(st2, out2) <- ((ds1, Return tt) ;;; for_each body st1 rest) ;;
     ret (st2, out1 ++ out2)).
Proof.
  revert st ds1 st1 out1.
  induction items as [|item items IH]; intros st ds1 st1 out1 H.
  - simpl in H. injection H as <- <- <-. simpl app.
    unfold bind. simpl. destruct (for_each body st rest) as [ds2 [[st2 os]|e]];
      simpl; rewrite ?app_nil_r; reflexivity.
  - rewrite for_each_cons in H. simpl app. rewrite for_each_cons.
    destruct (body st item) as [d0 [[st0 o]|e]]; [|discriminate].
    rewrite bind_return in H. rewrite bind_return.
    destruct (for_each body st0 items) as [d1 [[st1' o1]|e]] eqn:E;
      [|discriminate].
    rewrite (IH _ _ _ _ E).
    simpl in H. injection H as <- <- <-.
    unfold bind, diags, result. simpl.
    destruct (for_each body st1' rest) as [ds2 [[st2 os]|e]];
      simpl; rewrite ?app_nil_r, ?app_assoc; reflexivity.
Qed.

Lemma for_each_cons_returns st item rest ds st1 o ds2 st2 os :
  body st item = (ds, Return (st1, o)) ->
  for_each body st1 rest = (ds2, Return (st2, os)) ->
  for_each body st (item :: rest) = (ds ++ ds2, Return (st2, o :: os)).
Proof.
  intros H1 H2. rewrite for_each_cons, H1, bind_return, H2.
  cbn. rewrite app_nil_r. reflexivity.
Qed.

Lemma for_each_app_returns st items ds1 st1 out1 rest ds2 st2 out2 :
  for_each body st items = (ds1, Return (st1, out1)) ->
  for_each body st1 rest = (ds2, Return (st2, out2)) ->
  for_each body st (items ++ rest) = (ds1 ++ ds2, Return (st2, out1 ++ out2)).
Proof.
  intros H1 H2. rewrite (for_each_returns _ _ _ _ _ rest H1), H2.
  cbn. rewrite !app_nil_r. reflexivity.
Qed.

Lemma bind_returns {A B} (c : M A) (k : A -> M B) ds b :
  bind c k = (ds, Return b) ->
  exists d1 a d2, c = (d1, Return a) /\ k a = (d2, Return b) /\ ds = d1 ++ d2.
Proof.
  destruct c as [d1 [a|e]]; [|discriminate].
  rewrite bind_return. destruct (k a) as [d2 r] eqn:E. cbn.
  intros H. injection H as <- ->. eexists _, _, _. repeat split. exact E.
Qed.

End ForEachFacts.

Section TrackerRuns.

Import FileformatReader.

Lemma for_each_inv items st :
  tracker_inv st ->
  exists ds st' out,
    for_each body st items = (ds, Return (st', out)) /\ tracker_inv st'.
Proof.
  revert st. induction items as [|[w data] items IH]; intros st Hinv.
  - exists [], st, []. split; [reflexivity | exact Hinv].
  - destruct (body_inv st w data Hinv) as (ds & st1 & o & Hb & Hinv1).
    destruct (IH st1 Hinv1) as (ds2 & st2 & out & Hf & Hinv2).
    rewrite (for_each_step _ _ _ items _ _ _ Hb), Hf.
    eexists _, _, _. split; [reflexivity | exact Hinv2].
Qed.

(** The Line-Ending Tracker never raises: every sequence of lines takes
    the loop to a state. *)
Lemma tracker_total items : exists st, reaches items st.
Proof.
  destruct (for_each_inv items start start_inv) as (ds & st & out & H & _).
  exists st, ds, out. exact H.
Qed.


Lemma after_block_fields top lines :
  fn (after_block top lines) = fn top
  /\ is_dos (after_block top lines) = is_dos top.
Proof.
  revert top. induction lines as [|item lines IH]; intros top; [split; reflexivity|].
  change (after_block top (item :: lines))
    with (after_block (mkFrame (fn top) (is_dos top) (Some (has_lf (snd item)))
                               (fst item)) lines).
  apply (IH (mkFrame (fn top) (is_dos top) (Some (has_lf (snd item))) (fst item))).
Qed.

Lemma after_block_snoc top lines w d :
  after_block top (lines ++ [(w, d)])
  = mkFrame (fn top) (is_dos top) (Some (has_lf d)) w.
Proof.
  unfold after_block. rewrite fold_left_app. cbn [fold_left fst snd].
  fold (after_block top lines).
  destruct (after_block_fields top lines) as [-> ->]. reflexivity.
Qed.

(** Lines of the file whose frame is on top. *)
Lemma same_file_block lines top rest dos :
  tracker_inv (top :: rest, Some dos) ->
  Forall (fun item => filename (fst item) = fn top) lines ->
  for_each body (top :: rest, Some dos) lines
  = (flat_map (line_of dos) lines,
     Return ((after_block top lines :: rest, Some dos), map stripped lines)).
Proof.
  revert top. induction lines as [|[w d] lines IH]; intros top Hinv Hall.
  - reflexivity.
  - inversion Hall as [|? ? Hw Hrest]; subst. cbn [fst] in Hw.
    pose proof (body_spec _ w d Hinv) as Hb.
    destruct Hinv as [Hcl Htop]. cbn [fst snd] in Hcl, Htop.
    unfold enter, returns_from_include in Hb. cbn [fst from above changes_file] in Hb.
    rewrite <- Hw, String.eqb_refl in Hb. cbn [negb andb] in Hb.
    rewrite <- Htop in Hb. cbv zeta in Hb. cbn [flat_map app] in Hb.
    assert (Hinv' : tracker_inv
                      (mkFrame (filename w) (Some dos) (Some (has_lf d)) w :: rest,
                       Some dos)).
    { split; cbn [fst snd]; [|reflexivity].
      inversion Hcl; subst. constructor; [split; discriminate | assumption]. }
    rewrite (for_each_cons_returns _ _ _ _ _ _ _ _ _ _ Hb (IH _ Hinv' ltac:(cbn [fn]; rewrite Hw; exact Hrest))).
    cbn [flat_map map]. unfold after_block at 2. cbn [fold_left fst snd].
    rewrite <- Htop, <- Hw. reflexivity.
Qed.

(** The first line of a file that has no frame yet. *)
Lemma new_file_line fi loc w d :
  tracker_inv (fi, loc) ->
  known fi (filename w) = false ->
  let dos := has_crlf d || negb (has_lf d) in
  body (fi, loc) (w, d)
  = (line_diags dos w d,
     Return ((mkFrame (filename w) (Some dos) (Some (has_lf d)) w :: fi, Some dos),
             (w, strip_terminator d))).
Proof.
  intros Hinv Hk. pose proof (body_spec _ w d Hinv) as Hb.
  unfold enter in Hb. cbn [fst] in Hb. rewrite (unknown_from _ _ Hk) in Hb.
  exact Hb.
Qed.

Lemma has_crlf_has_lf d : has_crlf d = true -> has_lf d = true.
Proof.
  unfold has_crlf, has_lf. intros H. apply endswith_true in H.
  rewrite H. change [CR; LF] with ([CR] ++ [LF]).
  rewrite app_assoc. apply endswith_app.
Qed.

Lemma strip_crlf d : has_crlf d = true -> strip_terminator d = Py.drop_last 2 d.
Proof. unfold has_crlf, strip_terminator. intros ->. reflexivity. Qed.

End TrackerRuns.

Section TrackerClaims.

Import FileformatReader.

(** The first line of the including file after the include has ended. *)
Lemma back_in_parent child parent rest w d dos :
  tracker_inv (child :: parent :: rest, is_dos child) ->
  fn child <> filename w ->
  fn parent = filename w ->
  is_dos parent = Some dos ->
  body (child :: parent :: rest, is_dos child) (w, d)
  = (final_diags child ++ line_diags dos (last_where parent) d,
     Return ((mkFrame (filename w) (Some dos) (Some (has_lf d)) (last_where parent) :: rest,
              Some dos),
             (last_where parent, strip_terminator d))).
Proof.
  intros Hinv Hc Hp Hd. pose proof (body_spec _ w d Hinv) as Hb.
  unfold enter, returns_from_include in Hb.
  cbn [fst from above changes_file known existsb] in Hb.
  apply String.eqb_neq in Hc. rewrite Hc, Hp, String.eqb_refl in Hb.
  cbn [negb andb orb] in Hb. rewrite Hd in Hb. cbv zeta in Hb.
  cbn [flat_map] in Hb. rewrite app_nil_r in Hb. exact Hb.
Qed.

Lemma after_block_last n c w0 d0 more :
  after_block (mkFrame n c (Some (has_lf d0)) w0) more
  = mkFrame n c (Some (has_lf (snd (last ((w0, d0) :: more) (w0, d0)))))
            (fst (last ((w0, d0) :: more) (w0, d0))).
Proof.
  destruct more as [|[w d] l _] using rev_ind; [reflexivity|].
  rewrite after_block_snoc, app_comm_cons, last_last. reflexivity.
Qed.

(** The lines of a file that has no frame yet, up to its end or its first
    include. *)
Lemma new_file_block fi loc w0 d0 more :
  tracker_inv (fi, loc) ->
  known fi (filename w0) = false ->
  Forall (from_file (filename w0)) more ->
  let dos := has_crlf d0 || negb (has_lf d0) in
  let z := last ((w0, d0) :: more) (w0, d0) in
  for_each body (fi, loc) ((w0, d0) :: more)
  = (flat_map (line_of dos) ((w0, d0) :: more),
     Return ((mkFrame (filename w0) (Some dos) (Some (has_lf (snd z))) (fst z) :: fi,
              Some dos),
             map stripped ((w0, d0) :: more))).
Proof.
  intros Hinv Hk Hall dos z.
  pose proof (new_file_line fi loc w0 d0 Hinv Hk) as Hb.
  cbv zeta in Hb. fold dos in Hb.
  apply (for_each_cons_returns _ _ _ _ _ _ _ _ _ _ Hb).
  subst z. rewrite <- after_block_last.
  apply same_file_block; [|exact Hall].
  destruct Hinv as [Hcl _]. cbn [fst] in Hcl.
  split; cbn [fst snd]; [|reflexivity].
  constructor; [split; discriminate | exact Hcl].
Qed.

Lemma crlf_lines_silent lines :
  Forall (fun item => has_crlf (snd item) = true \/ has_lf (snd item) = false) lines ->
  flat_map (line_of true) lines = [].
Proof.
  induction 1 as [|item l H _ IH]; [reflexivity|].
  cbn [flat_map]. rewrite IH, app_nil_r. unfold line_of, line_diags.
  destruct H as [-> | ->]; [rewrite andb_false_r|]; reflexivity.
Qed.

(** A file read on its own whose lines end in CRLF, the last one in CRLF
    or in nothing: no line is reported, and the end of the file is when
    its last line has a terminator. *)
Lemma dos_file_run (name : string) (items : list (Where * text))
      (w_last : Where) (d_last : text) :
  let file := items ++ [(w_last, d_last)] in
  Forall (from_file name) file ->
  Forall (fun item => has_crlf (snd item) = true) items ->
  has_crlf d_last = true \/ has_lf d_last = false ->
  __iter__ file = (dos_eof (w_last, d_last), Return (map stripped file)).
Proof.
  intros file Hname Hcrlf Hl.
  assert (Hall : Forall (fun item => has_crlf (snd item) = true
                                     \/ has_lf (snd item) = false) file).
  { apply Forall_app. split.
    - revert Hcrlf. apply Forall_impl. intros item H. left. exact H.
    - constructor; [exact Hl | constructor]. }
  assert (Hz : forall d, last file d = (w_last, d_last)) by (intros; apply last_last).
  destruct file as [|[w0 d0] more] eqn:Ef; [destruct items; discriminate|].
  assert (He0 : has_crlf d0 || negb (has_lf d0) = true).
  { destruct (Forall_inv Hall) as [H | H]; cbn [snd] in H; rewrite H;
      [reflexivity | apply orb_true_r]. }
  pose proof (new_file_block [] None w0 d0 more start_inv eq_refl) as Hb.
  rewrite He0, Hz in Hb. cbv zeta in Hb. rewrite (crlf_lines_silent _ Hall) in Hb.
  match type of Hb with
  | _ -> _ = ?rhs =>
      assert (Hrun : for_each body start ((w0, d0) :: more) = rhs)
  end.
  { apply Hb. pose proof (Forall_inv Hname) as Hn. unfold from_file in Hn.
    cbn [fst] in Hn. rewrite Hn. exact (Forall_inv_tail Hname). }
  unfold __iter__. rewrite Hrun, bind_return. cbn [fst snd].
  rewrite pop_all by (constructor; [split; discriminate | constructor]).
  cbn [flat_map diags result bind ret fst snd app].
  unfold final_diags, dos_eof. cbn [is_dos latest_has_lf last_where fst snd].
  destruct (has_lf d_last); reflexivity.
Qed.

(** C2 (as the code has it). A file read on its own whose lines all end
    in CRLF, the last one too, gets no [W_FILE_DOS_BARELF], no
    [W_FILE_UNIX_CRLF] and no [W_FILE_UNIX_NOLF], but the final
    [_pop_fileinfo] reports exactly one [W_FILE_DOS_EOFCRLF], at the
    position of the last line.  Every line is yielded without its CRLF. *)
Theorem crlf_file_flagged_at_eof (name : string) (items : list (Where * text))
        (w_last : Where) (d_last : text) :
  let file := items ++ [(w_last, d_last)] in
  Forall (fun item => filename (fst item) = name /\ has_crlf (snd item) = true) file ->
  __iter__ file
  = ([W_FILE_DOS_EOFCRLF w_last],
     Return (map (fun item => (fst item, Py.drop_last 2 (snd item))) file)).
Proof.
  intros file Hall.
  assert (Hout : map stripped file
                 = map (fun item => (fst item, Py.drop_last 2 (snd item))) file).
  { clear -Hall. induction Hall as [|item l [_ Hc] _ IH]; [reflexivity|].
    cbn [map]. rewrite IH. unfold stripped. rewrite (strip_crlf _ Hc). reflexivity. }
  assert (Hnames : Forall (from_file name) file).
  { revert Hall. apply Forall_impl. intros item [H _]. exact H. }
  assert (Hcrlf : Forall (fun item => has_crlf (snd item) = true) file).
  { revert Hall. apply Forall_impl. intros item [_ H]. exact H. }
  subst file. apply Forall_app in Hcrlf. destruct Hcrlf as [Hitems Hlast].
  apply Forall_inv in Hlast. cbn [snd] in Hlast.
  rewrite (dos_file_run name items w_last d_last Hnames Hitems (or_introl Hlast)).
  rewrite Hout. unfold dos_eof. cbn [fst snd].
  rewrite (has_crlf_has_lf _ Hlast). reflexivity.
Qed.

Lemma crlf_file_flagged_at_eof_witness :
  let w1 := mkWhere "sip.conf" 1 [] in
  let w2 := mkWhere "sip.conf" 2 [] in
  __iter__ [(w1, CRLF_line "[general]"); (w2, CRLF_line "bindport=5060")]
  = ([W_FILE_DOS_EOFCRLF w2],
     Return [(w1, str "[general]"); (w2, str "bindport=5060")]).
Proof.
  apply (crlf_file_flagged_at_eof "sip.conf"
           [(mkWhere "sip.conf" 1 [], CRLF_line "[general]")]
           (mkWhere "sip.conf" 2 []) (CRLF_line "bindport=5060")).
  repeat constructor.
Defined.

(** C2 as stated fails: a file of one CRLF line is reported at
    finalization. *)
Lemma crlf_file_not_silent :
  let w := mkWhere "sip.conf" 1 [] in
  has_crlf (CRLF_line "[general]") = true
  /\ diags (__iter__ [(w, CRLF_line "[general]")]) = [W_FILE_DOS_EOFCRLF w]
  /\ diags (__iter__ [(w, CRLF_line "[general]")]) <> [].
Proof. repeat split. discriminate. Qed.

(** When the last line has no terminator instead, nothing is reported. *)
Lemma crlf_file_without_final_terminator_silent
      (name : string) (items : list (Where * text)) (w_last : Where) (d_last : text) :
  let file := items ++ [(w_last, d_last)] in
  Forall (from_file name) file ->
  Forall (fun item => has_crlf (snd item) = true) items ->
  has_lf d_last = false ->
  diags (__iter__ file) = [].
Proof.
  intros file Hname Hcrlf Hl.
  unfold file. rewrite (dos_file_run name items w_last d_last Hname Hcrlf (or_intror Hl)).
  unfold diags, dos_eof. cbn [fst snd]. rewrite Hl. reflexivity.
Qed.




(** C5 (as the code has it). A file [p] classified UNIX by its first line
    includes a file [c] whose lines end in CRLF (the last one possibly in
    nothing).  The lines of [p] after the include are checked as UNIX
    lines: [W_FILE_UNIX_CRLF] for those ending in CRLF, never
    [W_FILE_DOS_BARELF].  When [c] is popped it gets one diagnostic,
    [W_FILE_DOS_EOFCRLF] at its last line, if that line ends in CRLF, and
    none if that line has no terminator.  [p] is finalized as a UNIX file. *)
Theorem include_keeps_parent_convention
        (p c : string) (w0 : Where) (d0 : text) (P1 C : list (Where * text))
        (wl : Where) (dl : text) (P2 : list (Where * text)) :
  p <> c ->
  has_lf d0 = true -> has_crlf d0 = false ->
  Forall (from_file p) ((w0, d0) :: P1 ++ P2) ->
  Forall (from_file c) (C ++ [(wl, dl)]) ->
  Forall (fun item => has_crlf (snd item) = true) C ->
  has_crlf dl = true \/ has_lf dl = false ->
  let parent_head := (w0, d0) :: P1 in
  let child := C ++ [(wl, dl)] in
  let parent_tail := rebound (fst (last parent_head (w0, d0))) P2 in
  __iter__ (parent_head ++ child ++ P2)
  = (flat_map (line_of false) parent_head
     ++ dos_eof (wl, dl)
     ++ flat_map (line_of false) parent_tail
     ++ unix_eof (last (parent_head ++ parent_tail) (w0, d0)),
     Return (map stripped (parent_head ++ child ++ parent_tail))).
Proof.
  intros Hpc Hlf Hcrlf Hp Hc HC Hl parent_head child parent_tail.
  assert (Hw0 : filename w0 = p) by exact (Forall_inv Hp).
  pose proof (Forall_inv_tail Hp) as Hp'. apply Forall_app in Hp'.
  destruct Hp' as [Hp1 Hp2].
  (* the including file up to the include *)
  assert (H1 : exists zP,
             zP = last parent_head (w0, d0)
             /\ for_each body start parent_head
                = (flat_map (line_of false) parent_head,
                   Return (([mkFrame p (Some false) (Some (has_lf (snd zP))) (fst zP)],
                            Some false),
                           map stripped parent_head))).
  { eexists. split; [reflexivity|].
    pose proof (new_file_block [] None w0 d0 P1 start_inv eq_refl) as Hb.
    rewrite Hw0, Hlf, Hcrlf in Hb. apply Hb. exact Hp1. }
  destruct H1 as (zP & HzP & H1).
  set (fp := mkFrame p (Some false) (Some (has_lf (snd zP))) (fst zP)) in *.
  assert (Hinv1 : tracker_inv ([fp], Some false)).
  { split; cbn [fst snd]; [|reflexivity].
    constructor; [split; discriminate | constructor]. }
  (* the included file *)
  assert (HCall : Forall (fun item => has_crlf (snd item) = true
                                      \/ has_lf (snd item) = false) child).
  { apply Forall_app. split.
    - revert HC. apply Forall_impl. intros item H. left. exact H.
    - constructor; [exact Hl | constructor]. }
  assert (H2 : for_each body ([fp], Some false) child
               = ([], Return (([mkFrame c (Some true) (Some (has_lf dl)) wl; fp],
                               Some true),
                              map stripped child))).
  { fold child in Hc.
    destruct child as [|[c0 e0] more] eqn:Ech; [destruct C; discriminate|].
    assert (Hc0 : filename c0 = c) by exact (Forall_inv Hc).
    assert (He0 : has_crlf e0 || negb (has_lf e0) = true).
    { destruct (Forall_inv HCall) as [H | H]; cbn [snd] in H; rewrite H;
        [reflexivity | apply orb_true_r]. }
    pose proof (new_file_block [fp] (Some false) c0 e0 more Hinv1) as Hb.
    rewrite Hc0, He0 in Hb. cbv zeta in Hb.
    rewrite (crlf_lines_silent _ HCall) in Hb.
    assert (Hz : last ((c0, e0) :: more) (c0, e0) = (wl, dl)).
    { rewrite <- Ech. unfold child. apply last_last. }
    rewrite Hz in Hb. apply Hb.
    - cbn. apply String.eqb_neq in Hpc. rewrite Hpc. reflexivity.
    - exact (Forall_inv_tail Hc). }
  set (fc := mkFrame c (Some true) (Some (has_lf dl)) wl) in *.
  pose proof (for_each_app_returns _ _ _ _ _ _ _ _ _ _ H1 H2) as H12.
  rewrite app_nil_r in H12.
  assert (Hfc : final_diags fc = dos_eof (wl, dl)).
  { unfold final_diags, dos_eof. cbn. destruct (has_lf dl); reflexivity. }
  unfold __iter__.
  destruct P2 as [|[w2 d2] P2'].
  - (* the include was the last line of its file *)
    rewrite app_nil_r. subst parent_tail. cbn [rebound flat_map].
    rewrite !app_nil_r, H12, bind_return. cbn [fst snd].
    rewrite pop_all by (constructor; [split; discriminate |
                         constructor; [split; discriminate | constructor]]).
    cbn [flat_map diags result bind ret fst snd]. rewrite Hfc, <- HzP.
    assert (Hfp : final_diags fp = unix_eof zP).
    { unfold final_diags, unix_eof. cbn [fp is_dos latest_has_lf last_where].
      destruct (has_lf (snd zP)); reflexivity. }
    rewrite Hfp, !app_nil_r, map_app. reflexivity.
  - (* back in the including file *)
    assert (Hinv2 : tracker_inv ([fc; fp], is_dos fc)).
    { split; cbn [fst snd]; [|reflexivity].
      constructor; [split; discriminate |
                    constructor; [split; discriminate | constructor]]. }
    assert (Hw2 : filename w2 = p) by exact (Forall_inv Hp2).
    pose proof (back_in_parent fc fp [] w2 d2 false Hinv2) as Hb.
    cbn [fn is_dos last_where fc fp] in Hb.
    specialize (Hb ltac:(congruence) ltac:(congruence) eq_refl).
    rewrite Hw2 in Hb. fold fc in Hb. rewrite Hfc in Hb.
    assert (H3 : for_each body
                   ([mkFrame p (Some false) (Some (has_lf d2)) (fst zP)], Some false) P2'
                 = (flat_map (line_of false) P2',
                    Return (([after_block (mkFrame p (Some false) (Some (has_lf d2)) (fst zP)) P2'],
                             Some false),
                            map stripped P2'))).
    { apply same_file_block.
      - split; cbn [fst snd]; [|reflexivity].
        constructor; [split; discriminate | constructor].
      - exact (Forall_inv_tail Hp2). }
    pose proof (for_each_cons_returns _ _ _ _ _ _ _ _ _ _ Hb H3) as H23.
    pose proof (for_each_app_returns _ _ _ _ _ _ _ _ _ _ H12 H23) as Hall.
    rewrite <- app_assoc in Hall. rewrite Hall, bind_return. cbn [fst snd].
    rewrite pop_all by (constructor; [|constructor];
                        rewrite after_block_last; split; discriminate).
    rewrite after_block_last.
    cbn [flat_map diags result bind ret fst snd].
    subst parent_tail. rewrite <- HzP. cbn [rebound].
    assert (Hz : last (parent_head ++ (fst zP, d2) :: P2') (w0, d0)
                 = last ((fst zP, d2) :: P2') (fst zP, d2)).
    { clear. generalize (fst zP, d2). intros z.
      destruct P2' as [|y l _] using rev_ind.
      - apply last_last.
      - rewrite app_comm_cons, app_assoc, !last_last. reflexivity. }
    rewrite Hz.
    set (z := last ((fst zP, d2) :: P2') (fst zP, d2)).
    assert (Hfz : final_diags (mkFrame p (Some false) (Some (has_lf (snd z))) (fst z))
                  = unix_eof z).
    { unfold final_diags, unix_eof. cbn [is_dos latest_has_lf last_where].
      destruct (has_lf (snd z)); reflexivity. }
    rewrite Hfz, !map_app, !app_nil_r. cbn [flat_map map].
    unfold line_of at 3, stripped at 4. cbn [fst snd].
    rewrite <- !app_assoc. reflexivity.
Qed.

Lemma include_keeps_parent_convention_witness :
  let p := mkWhere "extensions.conf" in
  let c := mkWhere "users.conf" in
  __iter__ [ (p 1 [], LF_line "[general]");
             (p 2 [], LF_line "#include users.conf");
             (c 1 [], CRLF_line "[alice]");
             (c 2 [], CRLF_line "secret=1");
             (p 3 [], CRLF_line "[other]");
             (p 4 [], str "x=1") ]
  = ([ W_FILE_DOS_EOFCRLF (c 2 []);
       W_FILE_UNIX_CRLF (p 2 []);
       W_FILE_UNIX_NOLF (p 4 []) ],
     Return [ (p 1 [], str "[general]");
              (p 2 [], str "#include users.conf");
              (c 1 [], str "[alice]");
              (c 2 [], str "secret=1");
              (p 2 [], str "[other]");
              (p 4 [], str "x=1") ]).
Proof.
  apply (include_keeps_parent_convention "extensions.conf" "users.conf"
           (mkWhere "extensions.conf" 1 []) (LF_line "[general]")
           [(mkWhere "extensions.conf" 2 [], LF_line "#include users.conf")]
           [(mkWhere "users.conf" 1 [], CRLF_line "[alice]")]
           (mkWhere "users.conf" 2 []) (CRLF_line "secret=1")
           [(mkWhere "extensions.conf" 3 [], CRLF_line "[other]");
            (mkWhere "extensions.conf" 4 [], str "x=1")]).
  - discriminate.
  - reflexivity.
  - reflexivity.
  - repeat constructor.
  - repeat constructor.
  - repeat constructor.
  - left. reflexivity.
Defined.

(** C5 as stated fails: the included DOS file ends in a line without
    terminator, and its finalization reports nothing. *)
Lemma include_child_without_terminator_silent :
  let p := mkWhere "extensions.conf" in
  let c := mkWhere "users.conf" in
  has_crlf (str "secret=1") = false
  /\ has_lf (str "secret=1") = false
  /\ diags (__iter__ [ (p 1 [], LF_line "#include users.conf");
                       (c 1 [], CRLF_line "[alice]");
                       (c 2 [], str "secret=1");
                       (p 2 [], LF_line "[other]") ])
     = [].
Proof. repeat split. Qed.

End TrackerClaims.

(** ** FileReader *)

Lemma decoder_keeps_position w raw ds w' t :
  EncodingReader.body (w, raw) = (ds, Return (w', t)) -> w' = w.
Proof.
  unfold EncodingReader.body. destruct (Utf8.decode raw).
  - intros H. injection H as _ <- _. reflexivity.
  - destruct (Cp1252.decode raw); [|discriminate].
    intros H. injection H as _ <- _. reflexivity.
Qed.

Lemma guard_passes_through w t :
  exists ds, NoCtrlReader.body (w, t) = (ds, Return (w, t))
             /\ ds = if NoCtrlReader.has_illegal t then [W_FILE_CTRL_CHAR w] else [].
Proof.
  unfold NoCtrlReader.body. destruct (NoCtrlReader.has_illegal t);
    eexists; split; reflexivity.
Qed.


(** A pull that yields a record went through the four loop bodies. *)
Lemma pipeline_body_returns st w raw ds st' r :
  FileReader.body st (w, raw) = (ds, Return (st', r)) ->
  exists t d1 d2 d3 wd d4,
    EncodingReader.body (w, raw) = (d1, Return (w, t))
    /\ NoCtrlReader.body (w, t) = (d2, Return (w, t))
    /\ FileformatReader.body st (w, t) = (d3, Return (st', wd))
    /\ AsteriskCommentReader.body wd = (d4, Return r)
    /\ ds = d1 ++ d2 ++ d3 ++ d4.
Proof.
  unfold FileReader.body. intros H.
  apply bind_returns in H. destruct H as (d1 & [w1 t] & ds1 & He & H & ->).
  pose proof (decoder_keeps_position _ _ _ _ _ He) as ->.
  destruct (guard_passes_through w t) as (d2 & Hg & _).
  rewrite Hg, bind_return in H.
  destruct (FileformatReader.body st (w, t)) as [d3 [[st1 wd]|e]] eqn:Et;
    [|discriminate H].
  cbn [diags result] in H. rewrite bind_return in H.
  destruct (AsteriskCommentReader.body wd) as [d4 [rec|e]] eqn:Es;
    [|discriminate H].
  cbn in H. injection H as <- <- <-.
  exists t, d1, d2, d3, wd, d4. rewrite app_nil_r. repeat split; assumption.
Qed.






(** ** BinFileReader *)

Section StackFacts.

Import BinFileReader.










(** A file included after the generator has ended is neither read nor
    closed, however often the consumer pulls. *)
Example included_after_end_stays_open :
  let session := drive session_opener
                   [Include "users.conf"; Next; Next; Next;
                    Include "extensions.conf"; Next; Next]
                   __init__ in
  map (fun item => lineno (fst item)) (fst session) = [1; 2]
  /\ finished (snd session) = true
  /\ is_open (snd session) 0 = false /\ times_closed (snd session) 0 = 1
  /\ is_open (snd session) 1 = true /\ times_closed (snd session) 1 = 0.
Proof. repeat split. Qed.

End StackFacts.

(** ** UTF-8: what the Decoder yields can be encoded and decoded again *)

Ltac arith_hyps :=
  unfold Utf8.second_of3, Utf8.second_of4, Utf8.is_cont, Utf8.between in *;
  repeat match goal with
         | H : context [N.eqb ?a ?b] |- _ =>
             revert H; destruct (N.eqb_spec a b); intro H
         | H : andb _ _ = true |- _ => apply andb_true_iff in H; destruct H
         | H : N.leb _ _ = true |- _ => apply N.leb_le in H
         | H : N.ltb _ _ = true |- _ => apply N.ltb_lt in H
         | H : N.ltb _ _ = false |- _ => apply N.ltb_ge in H
         end.

Section Utf8Facts.

Local Open Scope N_scope.

Ltac Zify.zify_post_hook ::= Z.to_euclidean_division_equations.

Ltac bool_lia :=
  unfold Utf8.second_of3, Utf8.second_of4, Utf8.is_cont, Utf8.between;
  repeat match goal with
         | |- context [N.eqb ?a ?b] => destruct (N.eqb_spec a b)
         | |- context [N.ltb ?a ?b] => destruct (N.ltb_spec a b)
         | |- context [N.leb ?a ?b] => destruct (N.leb_spec a b)
         end;
  cbn [andb orb]; first [reflexivity | exfalso; lia].

(** Decide the test at the head of the goal. *)
Ltac settle :=
  match goal with
  | |- (if ?b then _ else _) = _ =>
      first [ let H := fresh in
              assert (H : b = true) by bool_lia; rewrite H; clear H
            | let H := fresh in
              assert (H : b = false) by bool_lia; rewrite H; clear H ];
      cbv beta iota zeta
  end.

Lemma to_N_byte_of n : n < 256 -> Byte.to_N (Utf8.byte_of n) = n.
Proof.
  intros H. unfold Utf8.byte_of.
  pose proof (Byte.to_of_N_option_map n) as Ho.
  destruct (N.leb_spec n 255) as [_|]; [|lia].
  destruct (Byte.of_N n); [|discriminate]. injection Ho as ->. reflexivity.
Qed.

Lemma decode_cons b0 r0 :
  Utf8.decode (b0 :: r0) =
  let n0 := Byte.to_N b0 in
  if n0 <? 0x80 then option_map (cons n0) (Utf8.decode r0)
  else if Utf8.between 0xC2 0xDF n0 then
    match r0 with
    | b1 :: r1 =>
        let n1 := Byte.to_N b1 in
        if Utf8.is_cont n1
        then option_map (cons ((n0 - 0xC0) * 64 + Utf8.low6 n1)) (Utf8.decode r1)
        else None
    | _ => None
    end
  else if Utf8.between 0xE0 0xEF n0 then
    match r0 with
    | b1 :: b2 :: r2 =>
        let n1 := Byte.to_N b1 in
        let n2 := Byte.to_N b2 in
        if Utf8.second_of3 n0 n1 && Utf8.is_cont n2
        then option_map
               (cons ((n0 - 0xE0) * 4096 + Utf8.low6 n1 * 64 + Utf8.low6 n2))
               (Utf8.decode r2)
        else None
    | _ => None
    end
  else if Utf8.between 0xF0 0xF4 n0 then
    match r0 with
    | b1 :: b2 :: b3 :: r3 =>
        let n1 := Byte.to_N b1 in
        let n2 := Byte.to_N b2 in
        let n3 := Byte.to_N b3 in
        if Utf8.second_of4 n0 n1 && Utf8.is_cont n2 && Utf8.is_cont n3
        then option_map
               (cons ((n0 - 0xF0) * 262144 + Utf8.low6 n1 * 4096
                      + Utf8.low6 n2 * 64 + Utf8.low6 n3))
               (Utf8.decode r3)
        else None
    | _ => None
    end
  else None.
Proof. reflexivity. Qed.

Lemma app_comm_cons_all (b : byte) (l rest : list byte) :
  b :: (l ++ rest) = (b :: l) ++ rest.
Proof. reflexivity. Qed.

Lemma valid_char_spec c :
  valid_char c = true <-> c < 0xD800 \/ (0xDFFF < c /\ c < 0x110000).
Proof.
  unfold valid_char. rewrite orb_true_iff, andb_true_iff, !N.ltb_lt. reflexivity.
Qed.

Ltac decoded_now :=
  eexists; split; [reflexivity|];
  rewrite <- app_comm_cons_all, decode_cons; cbv beta iota zeta;
  rewrite !to_N_byte_of by lia;
  repeat settle; cbn [app]; cbv beta iota zeta;
  rewrite ?to_N_byte_of by lia;
  repeat settle; unfold Utf8.low6; do 2 f_equal; lia.

Lemma decode_encode_char c rest :
  valid_char c = true ->
  exists bs,
    Utf8.encode_char c = Some bs
    /\ Utf8.decode (bs ++ rest) = option_map (cons c) (Utf8.decode rest).
Proof.
  rewrite valid_char_spec. intros Hv.
  unfold Utf8.encode_char, Utf8.between.
  destruct (N.ltb_spec c 0x80); [decoded_now|].
  destruct (N.ltb_spec c 0x800); [decoded_now|].
  assert (Hs : (0xD800 <=? c) && (c <=? 0xDFFF) = false) by bool_lia.
  rewrite Hs.
  destruct (N.ltb_spec c 0x10000); [decoded_now|].
  destruct (N.ltb_spec c 0x110000); [decoded_now | lia].
Qed.

Lemma decode_encode t :
  forallb valid_char t = true ->
  exists bs,
    Utf8.encode t = Some bs
    /\ Utf8.decode bs = Some t.
Proof.
  induction t as [|c t IH]; cbn [forallb Utf8.encode]; intros Hv.
  - exists []. split; reflexivity.
  - apply andb_true_iff in Hv. destruct Hv as [Hc Ht].
    destruct (IH Ht) as (more & He & Hd).
    destruct (decode_encode_char c more Hc) as (bs & Hec & Hdc).
    exists (bs ++ more). rewrite Hec, He, Hdc, Hd. split; reflexivity.
Qed.

Lemma option_map_cons_Some (x : char) (o : option text) (t : text) :
  option_map (cons x) o = Some t -> exists t', o = Some t' /\ t = x :: t'.
Proof.
  destruct o as [t'|]; [|discriminate]. cbn. intros H. injection H as <-.
  exists t'. split; reflexivity.
Qed.

Lemma decode_valid_fuel n :
  forall bs t, (length bs <= n)%nat -> Utf8.decode bs = Some t ->
               forallb valid_char t = true.
Proof.
  assert (Hnil : forall t, Utf8.decode [] = Some t -> forallb valid_char t = true).
  { intros t H. change (Utf8.decode []) with (Some (@nil char)) in H.
    injection H as <-. reflexivity. }
  induction n as [|n IH]; intros [|b0 r0] t Hlen; cbn [length] in Hlen.
  1, 3: apply Hnil.
  1: exfalso; lia.
  rewrite decode_cons. cbv zeta.
  destruct (to_N b0 <? 0x80) eqn:E1.
  { intros H. apply option_map_cons_Some in H. destruct H as (t' & Hd & ->).
    cbn [forallb]. rewrite (IH r0 t' ltac:(lia) Hd), andb_true_r.
    apply valid_char_spec. arith_hyps. lia. }
  destruct (Utf8.between 0xC2 0xDF (to_N b0)) eqn:E2.
  { destruct r0 as [|b1 r1]; [discriminate|].
    destruct (Utf8.is_cont (to_N b1)) eqn:E3; [|discriminate].
    intros H. apply option_map_cons_Some in H. destruct H as (t' & Hd & ->).
    cbn [forallb length] in *. rewrite (IH r1 t' ltac:(lia) Hd), andb_true_r.
    apply valid_char_spec. unfold Utf8.low6. arith_hyps. lia. }
  destruct (Utf8.between 0xE0 0xEF (to_N b0)) eqn:E3.
  { destruct r0 as [|b1 [|b2 r2]]; try discriminate.
    destruct (Utf8.second_of3 (to_N b0) (to_N b1) && Utf8.is_cont (to_N b2)) eqn:E4;
      [|discriminate].
    intros H. apply option_map_cons_Some in H. destruct H as (t' & Hd & ->).
    cbn [forallb length] in *. rewrite (IH r2 t' ltac:(lia) Hd), andb_true_r.
    apply valid_char_spec. unfold Utf8.low6. clear E2. arith_hyps; lia. }
  destruct (Utf8.between 0xF0 0xF4 (to_N b0)) eqn:E4; [|discriminate].
  destruct r0 as [|b1 [|b2 [|b3 r3]]]; try discriminate.
  destruct (Utf8.second_of4 (to_N b0) (to_N b1) && Utf8.is_cont (to_N b2)
            && Utf8.is_cont (to_N b3)) eqn:E5; [|discriminate].
  intros H. apply option_map_cons_Some in H. destruct H as (t' & Hd & ->).
  cbn [forallb length] in *. rewrite (IH r3 t' ltac:(lia) Hd), andb_true_r.
  apply valid_char_spec. unfold Utf8.low6. clear E2 E3. arith_hyps; lia.
Qed.

Lemma decode_valid bs t :
  Utf8.decode bs = Some t -> forallb valid_char t = true.
Proof. apply (decode_valid_fuel (length bs)). lia. Qed.

Lemma cp1252_valid_byte b c :
  Cp1252.decode_byte b = Some c -> valid_char c = true.
Proof.
  assert (H : match Cp1252.decode_byte b with
              | Some c' => valid_char c' = true
              | None => True
              end) by (destruct b; vm_compute; trivial).
  intros E. rewrite E in H. exact H.
Qed.

Lemma cp1252_valid bs t :
  Cp1252.decode bs = Some t -> forallb valid_char t = true.
Proof.
  revert t. induction bs as [|b bs IH]; intros t; cbn [Cp1252.decode].
  - intros H. injection H as <-. reflexivity.
  - destruct (Cp1252.decode_byte b) as [c|] eqn:Eb; [|discriminate].
    destruct (Cp1252.decode bs) as [t'|]; [|discriminate].
    intros H. injection H as <-. cbn [forallb].
    rewrite (cp1252_valid_byte _ _ Eb), (IH t' eq_refl). reflexivity.
Qed.

(** What the Decoder yields is made of scalar values. *)
Lemma decoder_valid w raw ds w' t :
  EncodingReader.body (w, raw) = (ds, Return (w', t)) ->
  forallb valid_char t = true.
Proof.
  unfold EncodingReader.body.
  destruct (Utf8.decode raw) as [t0|] eqn:Eu.
  - intros H. injection H as _ _ <-. exact (decode_valid _ _ Eu).
  - destruct (Cp1252.decode raw) as [t0|] eqn:Ec; [|discriminate].
    intros H. injection H as _ _ <-. exact (cp1252_valid _ _ Ec).
Qed.

End Utf8Facts.

(** ** The splitter on its own output *)

Lemma blanks_after_code (data : text) :
  forallb Py.is_blank (skipn (Py.back_over_blanks data (length data)) data) = true.
Proof.
  induction data as [|x l IH] using rev_ind; [reflexivity|].
  rewrite back_over_blanks_snoc.
  destruct (Py.is_blank x) eqn:E.
  - pose proof (back_over_blanks_le l (length l)) as Hle.
    rewrite skipn_app, forallb_app, IH.
    replace (Py.back_over_blanks l (length l) - length l)%nat with 0%nat by lia.
    cbn. rewrite E. reflexivity.
  - rewrite skipn_all. reflexivity.
Qed.

Lemma contains_app c (a b : text) :
  Py.contains c (a ++ b) = Py.contains c a || Py.contains c b.
Proof. apply existsb_app. Qed.

Lemma blanks_hold_no_semi (l : text) :
  forallb Py.is_blank l = true -> Py.contains SEMI l = false.
Proof.
  unfold Py.contains. induction l as [|x l IH]; [reflexivity|].
  cbn [forallb existsb]. intros H. apply andb_true_iff in H. destruct H as [Hx Hl].
  rewrite (IH Hl), orb_false_r.
  destruct (N.eqb_spec SEMI x) as [<-|]; [discriminate Hx | reflexivity].
Qed.

(** The scan either copies the line, or puts a [;] into the code. *)
Lemma escape_scan_cases n :
  forall data parts,
    length data <= n ->
    exists new,
      fst (AsteriskCommentReader.escape_scan data parts) = parts ++ new
      /\ (concat new ++ snd (AsteriskCommentReader.escape_scan data parts) = data
          \/ Py.contains SEMI (concat new) = true).
Proof.
  induction n as [|n IH]; intros data parts Hlen; rewrite escape_scan_unfold.
  - destruct data; [|cbn in Hlen; lia]. cbn.
    exists [[]]. split; [reflexivity | left; reflexivity].
  - destruct (Py.index SEMI data) as [i|] eqn:Ei.
    + destruct (index_Some _ _ _ Ei) as (Hlt & _ & _).
      destruct (negb (i =? 0)%nat && _).
      * destruct (IH (skipn (i + 1) data) (parts ++ [firstn (i - 1) data ++ [SEMI]]))
          as (new & Hf & _).
        { rewrite length_skipn. lia. }
        exists ((firstn (i - 1) data ++ [SEMI]) :: new).
        rewrite Hf, <- app_assoc. split; [reflexivity | right].
        cbn [concat]. rewrite !contains_app. cbn. rewrite orb_true_r. reflexivity.
      * exists [firstn i data]. cbn [fst snd concat]. rewrite app_nil_r.
        split; [reflexivity | left; apply firstn_skipn].
    + exists [data]. cbn. rewrite !app_nil_r. split; [reflexivity | left; reflexivity].
Qed.

Lemma escape_split_cleaned data code comment :
  AsteriskCommentReader.escape_split data = (code, comment) ->
  Py.contains SEMI code = false ->
  code ++ comment = data.
Proof.
  unfold AsteriskCommentReader.escape_split.
  destruct (escape_scan_cases (length data) data [] (le_n _)) as (new & Hf & Hc).
  destruct (AsteriskCommentReader.escape_scan data []) as [parts cm].
  cbn [fst snd app] in Hf, Hc. subst parts.
  intros H. injection H as <- <-. intros Hno.
  rewrite app_assoc, firstn_skipn.
  destruct Hc as [Hc | Hc]; [exact Hc|].
  exfalso.
  rewrite <- (firstn_skipn (Py.back_over_blanks (concat new) (length (concat new)))
                           (concat new)) in Hc.
  rewrite contains_app, Hno, (blanks_hold_no_semi _ (blanks_after_code _)) in Hc.
  discriminate.
Qed.

Lemma splitter_returns w data ds r :
  AsteriskCommentReader.body (w, data) = (ds, Return r) ->
  r = (w, fst (split_of (Py.rstrip_blanks data)), snd (split_of (Py.rstrip_blanks data))).
Proof.
  rewrite comment_body_unfold. fold (split_of (Py.rstrip_blanks data)).
  destruct (split_of (Py.rstrip_blanks data)) as [code comment].
  destruct (Py.ends_blank data); cbn; intros H; injection H as _ <-; reflexivity.
Qed.

Lemma split_of_cleaned data :
  Py.contains SEMI (fst (split_of data)) = false ->
  fst (split_of data) ++ snd (split_of data) = data.
Proof.
  unfold split_of. destruct (negb (Py.contains BACKSLASH data)).
  - unfold AsteriskCommentReader.simple_comment_split.
    destruct (Py.index SEMI data); intros _; cbn [fst snd];
      [apply firstn_skipn | apply app_nil_r].
  - destruct (AsteriskCommentReader.escape_split data) as [code comment] eqn:E.
    cbn [fst snd]. apply escape_split_cleaned, E.
Qed.

(** The loop body, run on a line it has cleaned itself, yields the same
    record and reports nothing. *)
Lemma splitter_again w data :
  AsteriskCommentReader.body (w, Py.rstrip_blanks data)
  = ([], Return (w, fst (split_of (Py.rstrip_blanks data)),
                    snd (split_of (Py.rstrip_blanks data)))).
Proof.
  rewrite comment_body_unfold, (ends_blank_rstrip data).
  rewrite (rstrip_no_blank_end _ (ends_blank_rstrip data)).
  fold (split_of (Py.rstrip_blanks data)).
  destruct (split_of (Py.rstrip_blanks data)); reflexivity.
Qed.

(** ** Running the pipeline on its own output *)

Section Rerun.

Import FileformatReader.

Lemma from_head fi name old rest : from fi name = old :: rest -> fn old = name.
Proof.
  induction fi as [|top fi IH]; cbn [from]; [discriminate|].
  destruct (String.eqb_spec (fn top) name) as [E|E].
  - intros H. injection H as <- _. exact E.
  - exact IH.
Qed.

Lemma shape_from fi1 : forall fi2 name,
  map shape fi1 = map shape fi2 ->
  map shape (from fi1 name) = map shape (from fi2 name)
  /\ length (above fi1 name) = length (above fi2 name)
  /\ known fi1 name = known fi2 name.
Proof.
  induction fi1 as [|f1 fi1 IH]; intros [|f2 fi2] name H; try discriminate.
  - repeat split.
  - cbn [map] in H. injection H as Hfn Hlw Hrest.
    cbn [from above known existsb]. rewrite <- Hfn.
    destruct (String.eqb (fn f1) name).
    + cbn [map]. unfold shape at 1 3. rewrite Hfn, Hlw, Hrest. repeat split.
    + destruct (IH fi2 name Hrest) as (H1 & H2 & H3).
      cbn [orb length]. fold (known fi1 name). fold (known fi2 name).
      rewrite H1, H2, H3. repeat split.
Qed.

Lemma shape_returns fi1 fi2 w w' :
  map shape fi1 = map shape fi2 ->
  filename w' = filename w ->
  returns_from_include fi2 w' = returns_from_include fi1 w.
Proof.
  intros H Hw. unfold returns_from_include. rewrite Hw.
  destruct (shape_from fi1 fi2 (filename w) H) as (_ & _ & ->).
  f_equal. destruct fi1 as [|f1 fi1], fi2 as [|f2 fi2]; try discriminate;
    [reflexivity|].
  cbn [map] in H. injection H as Hfn _ _. cbn. rewrite Hfn, Hw. reflexivity.
Qed.

Lemma quiet_final pops : Forall quiet pops -> flat_map final_diags pops = [].
Proof.
  induction 1 as [|f l [Hd Hl] _ IH]; [reflexivity|].
  cbn [flat_map]. rewrite IH. unfold final_diags. rewrite Hd, Hl. reflexivity.
Qed.

Lemma no_lf_line c w :
  has_lf c = false ->
  has_crlf c = false /\ line_diags true w c = [] /\ strip_terminator c = c.
Proof.
  intros H. unfold line_diags, strip_terminator. fold (has_crlf c). fold (has_lf c).
  rewrite H. destruct (has_crlf c) eqn:E; [|repeat split; reflexivity].
  apply has_crlf_has_lf in E. congruence.
Qed.

(** One line in both runs: the tracker of the second run, given the
    position the first run yielded and a line without line feed, yields
    that position again and reports nothing. *)
Lemma tracker_again st1 st2 w t c :
  sim st1 st2 ->
  has_lf c = false ->
  exists d1 st1' st2' w',
    body st1 (w, t) = (d1, Return (st1', (w', strip_terminator t)))
    /\ body st2 (w', c) = ([], Return (st2', (w', c)))
    /\ sim st1' st2'.
Proof.
  intros (Hinv1 & Hown & Hshape & Hquiet & Hloc) Hc.
  assert (Hinv2 : tracker_inv st2).
  { split.
    - revert Hquiet. apply Forall_impl. intros f [Hd Hl].
      unfold classified. rewrite Hd, Hl. split; discriminate.
    - destruct (fst st2) as [|top rest]; [exact I|].
      rewrite Hloc. symmetry. exact (proj1 (Forall_inv Hquiet)). }
  pose proof (body_spec st1 w t Hinv1) as H1.
  destruct (shape_from _ _ (filename w) Hshape) as (Hfrom & _ & _).
  unfold enter in H1.
  destruct (from (fst st1) (filename w)) as [|old1 rest1] eqn:E1.
  - (* a file without frame *)
    cbv zeta in H1.
    destruct (from (fst st2) (filename w)) as [|? ?] eqn:E2; [|discriminate].
    pose proof (body_spec st2 w c Hinv2) as H2.
    unfold enter in H2. rewrite E2 in H2. cbv zeta in H2.
    destruct (no_lf_line c w Hc) as (Hcr & Hl & Hs).
    rewrite Hcr, Hc in H2. cbn [negb orb] in H2. rewrite Hl, Hs in H2.
    eexists _, _, _, w. split; [exact H1|]. split; [exact H2|].
    repeat split; cbn [fst snd].
    + constructor; [split; discriminate | exact (proj1 Hinv1)].
    + constructor; [reflexivity | exact Hown].
    + cbn [map]. rewrite Hshape. reflexivity.
    + constructor; [split; reflexivity | exact Hquiet].
  - (* a file with a frame, on top or below *)
    cbv zeta in H1.
    destruct (from (fst st2) (filename w)) as [|old2 rest2] eqn:E2; [discriminate|].
    cbn [map] in Hfrom. injection Hfrom as Hfn Hlw Hrest.
    set (w' := if returns_from_include (fst st1) w then last_where old1 else w) in *.
    assert (Hin1 : In old1 (fst st1)).
    { rewrite <- (above_from (fst st1) (filename w)), E1.
      apply in_or_app. right. left. reflexivity. }
    assert (Hw' : filename w' = filename w).
    { subst w'. destruct (returns_from_include (fst st1) w); [|reflexivity].
      rewrite Forall_forall in Hown. rewrite (Hown old1 Hin1).
      exact (from_head _ _ _ _ E1). }
    pose proof (body_spec st2 w' c Hinv2) as H2.
    unfold enter in H2. rewrite Hw', E2 in H2.
    rewrite (shape_returns _ _ w w' Hshape Hw') in H2.
    assert (Hpos : (if returns_from_include (fst st1) w then last_where old2 else w') = w').
    { subst w'. destruct (returns_from_include (fst st1) w); [symmetry; exact Hlw | reflexivity]. }
    rewrite Hpos in H2.
    assert (Hsplit2 : fst st2 = above (fst st2) (filename w) ++ old2 :: rest2).
    { rewrite <- E2. symmetry. apply above_from. }
    rewrite Hsplit2 in Hquiet. apply Forall_app in Hquiet.
    destruct Hquiet as [Hq_above Hq_from].
    pose proof (Forall_inv Hq_from) as [Hd2 _].
    pose proof (Forall_inv_tail Hq_from) as Hq_rest.
    rewrite Hd2 in H2. cbv zeta in H2.
    rewrite (quiet_final _ Hq_above) in H2.
    destruct (no_lf_line c w' Hc) as (_ & Hl & Hs). rewrite Hl, Hs, Hc in H2.
    eexists _, _, _, w'. split; [exact H1|]. split; [exact H2|].
    assert (Hsplit1 : fst st1 = above (fst st1) (filename w) ++ old1 :: rest1).
    { rewrite <- E1. symmetry. apply above_from. }
    destruct Hinv1 as [Hcl1 _]. rewrite Hsplit1 in Hcl1, Hown.
    apply Forall_app in Hcl1. destruct Hcl1 as [_ Hcl1].
    apply Forall_app in Hown. destruct Hown as [_ Hown].
    repeat split; cbn [fst snd].
    + constructor; [split; discriminate | exact (Forall_inv_tail Hcl1)].
    + constructor; [exact Hw' | exact (Forall_inv_tail Hown)].
    + cbn [map]. unfold shape at 1 3. cbn [fn last_where]. rewrite Hrest. reflexivity.
    + constructor; [split; reflexivity | exact Hq_rest].
Qed.

End Rerun.

Section RerunPipeline.

Lemma forallb_firstn {A} (P : A -> bool) (l : list A) k :
  forallb P l = true -> forallb P (firstn k l) = true.
Proof.
  intros H. rewrite <- (firstn_skipn k l), forallb_app in H.
  apply andb_true_iff in H. tauto.
Qed.

Lemma cleaned_valid t :
  forallb valid_char t = true ->
  forallb valid_char (Py.rstrip_blanks (FileformatReader.strip_terminator t)) = true.
Proof.
  intros H. unfold Py.rstrip_blanks. apply forallb_firstn.
  unfold FileformatReader.strip_terminator, Py.drop_last.
  destruct (Py.endswith t [CR; LF]); [apply forallb_firstn, H|].
  destruct (Py.endswith t [LF]); [apply forallb_firstn, H | exact H].
Qed.

(** One pull in both runs. *)
Lemma pipeline_again st1 st2 w raw ds st1' r :
  sim st1 st2 ->
  FileReader.body st1 (w, raw) = (ds, Return (st1', r)) ->
  rerunnable r ->
  exists raw2 st2',
    Utf8.encode (cleaned r) = Some raw2
    /\ FileReader.body st2 (position r, raw2) = ([], Return (st2', r))
    /\ sim st1' st2'.
Proof.
  intros Hsim Hb (Hctl & Hsemi & Hlf).
  apply pipeline_body_returns in Hb.
  destruct Hb as (t & d1 & d2 & d3 & wd & d4 & He & _ & Ht & Hs & _).
  pose proof (decoder_valid _ _ _ _ _ He) as Hvalid.
  destruct (tracker_again st1 st2 w t (cleaned r) Hsim Hlf)
    as (d1' & st1'' & st2' & w' & Ht1 & Ht2 & Hsim').
  rewrite Ht1 in Ht. injection Ht as _ -> <-.
  apply splitter_returns in Hs.
  set (d := Py.rstrip_blanks (FileformatReader.strip_terminator t)) in *.
  assert (Hclean : cleaned r = d).
  { subst r. unfold cleaned, code_text, comment_text. cbn [fst snd].
    apply split_of_cleaned. exact Hsemi. }
  rewrite Hclean in *.
  destruct (decode_encode d (cleaned_valid t Hvalid)) as (raw2 & Henc & Hdec).
  exists raw2, st2'. split; [exact Henc|]. split; [|exact Hsim'].
  assert (Hpos : position r = w') by (subst r; reflexivity).
  rewrite Hpos. unfold FileReader.body.
  change (@nil diag, Return (st2', r)) with (ret (st2', r)).
  rewrite (decoder_utf8 w' raw2 d Hdec).
  change (@nil diag, Return (w', d)) with (ret (w', d)). rewrite bind_ret.
  unfold NoCtrlReader.body. rewrite Hctl, !bind_ret, Ht2.
  change (@nil diag, Return (st2', (w', d))) with (ret (st2', (w', d))).
  rewrite bind_ret. subst d. rewrite splitter_again.
  match goal with
  | |- bind (@nil diag, Return ?x) _ = _ =>
      change (@nil diag, Return x) with (ret x)
  end.
  rewrite bind_ret, <- Hs. reflexivity.
Qed.

Lemma sim_start : sim FileformatReader.start FileformatReader.start.
Proof.
  repeat split; cbn; constructor.
Qed.

Lemma rerun_loop items :
  forall st1 st2 ds st1' recs,
    sim st1 st2 ->
    for_each FileReader.body st1 items = (ds, Return (st1', recs)) ->
    Forall rerunnable recs ->
    exists items2 st2',
      rerun_input recs = Some items2
      /\ for_each FileReader.body st2 items2 = ([], Return (st2', recs))
      /\ sim st1' st2'.
Proof.
  induction items as [|[w raw] items IH]; intros st1 st2 ds st1' recs Hsim Hrun Hall.
  - injection Hrun as _ <- <-. exists [], st2.
    split; [reflexivity | split; [reflexivity | exact Hsim]].
  - rewrite for_each_cons in Hrun.
    apply bind_returns in Hrun. destruct Hrun as (d1 & [st1a r] & d2 & Hb & Hrun & _).
    apply bind_returns in Hrun. destruct Hrun as (d3 & [st1b rs] & d4 & Hf & Hrun & _).
    injection Hrun as _ <- <-.
    pose proof (Forall_inv Hall) as Hr. pose proof (Forall_inv_tail Hall) as Hrs.
    destruct (pipeline_again _ _ _ _ _ _ _ Hsim Hb Hr) as (raw2 & st2a & Henc & Hb2 & Hsim2).
    destruct (IH _ _ _ _ _ Hsim2 Hf Hrs) as (items2 & st2b & Hin & Hf2 & Hsim3).
    exists ((position r, raw2) :: items2), st2b.
    cbn [rerun_input]. rewrite Henc, Hin. split; [reflexivity|].
    split; [|exact Hsim3].
    exact (for_each_cons_returns _ _ _ _ _ _ _ _ _ _ Hb2 Hf2).
Qed.

(** C3 (as the code has it). When no record of the first run holds a
    disallowed control character, a [;] in its code (left there by an
    escape) or a line feed at the end of its cleaned line, running the
    pipeline again on the cleaned lines yields the same records and no
    diagnostic. *)
Theorem second_run_reproduces_records
        (items : list (Where * bytes)) (ds : list diag) (recs : list record) :
  FileReader.__iter__ items = (ds, Return recs) ->
  Forall rerunnable recs ->
  second_run recs = ([], Return recs).
Proof.
  intros Hrun Hall. unfold FileReader.__iter__ in Hrun.
  apply bind_returns in Hrun. destruct Hrun as (d1 & [st1 out] & d2 & Hf & Hrun & _).
  apply bind_returns in Hrun. destruct Hrun as (d3 & fi & d4 & _ & Hrun & _).
  injection Hrun as _ ->.
  destruct (rerun_loop items _ _ _ _ _ sim_start Hf Hall)
    as (items2 & st2 & Hin & Hf2 & (_ & _ & _ & Hquiet & _)).
  unfold second_run, FileReader.__iter__. rewrite Hin, Hf2.
  match goal with
  | |- bind (@nil diag, Return ?x) _ = _ =>
      change (@nil diag, Return x) with (ret x)
  end.
  rewrite bind_ret, pop_all.
  - rewrite (quiet_final _ Hquiet). reflexivity.
  - revert Hquiet. apply Forall_impl. intros f [Hd Hl].
    unfold classified. rewrite Hd, Hl. split; discriminate.
Qed.

End RerunPipeline.

Lemma second_run_reproduces_records_witness :
  let w1 := mkWhere "extensions.conf" 1 (LF_bytes "exten => s,1,NoOp()  ; greet ") in
  let w2 := mkWhere "extensions.conf" 2 (LF_bytes "same => n,Hangup()") in
  second_run [ (w1, str "exten => s,1,NoOp()", str "  ; greet");
               (w2, str "same => n,Hangup()", []) ]
  = ([], Return [ (w1, str "exten => s,1,NoOp()", str "  ; greet");
                  (w2, str "same => n,Hangup()", []) ]).
Proof.
  intros w1 w2.
  apply (second_run_reproduces_records
           [ (w1, LF_bytes "exten => s,1,NoOp()  ; greet ");
             (w2, LF_bytes "same => n,Hangup()") ]
           [ W_WSH_EOL w1 ]).
  - reflexivity.
  - repeat constructor.
Defined.

(** C3 as stated fails.  A line with a control character is reported
    again by the second run: the guard passes the character through.  And
    the records of [foo\; bar; baz] are not reproduced: the second run
    takes the [;] that the escape left in the code for the start of the
    comment. *)
Lemma second_run_not_idempotent :
  (let w := mkWhere "a.conf" 1 [x07; x0a] in
   FileReader.__iter__ [(w, [x07; x0a])]
   = ([W_FILE_CTRL_CHAR w], Return [(w, [7%N], [])])
   /\ second_run [(w, [7%N], [])]
      = ([W_FILE_CTRL_CHAR w], Return [(w, [7%N], [])]))
  /\ (let raw := list_byte_of_string "foo\; bar; baz" in
      let w := mkWhere "a.conf" 1 raw in
      FileReader.__iter__ [(w, raw)]
      = ([], Return [(w, str "foo; bar", str "; baz")])
      /\ second_run [(w, str "foo; bar", str "; baz")]
         = ([], Return [(w, str "foo", str "; bar; baz")])
      /\ second_run [(w, str "foo; bar", str "; baz")]
         <> ([], Return [(w, str "foo; bar", str "; baz")])).
Proof.
  split; [split; reflexivity|].
  split; [reflexivity|]. split; [reflexivity|].
  vm_compute. discriminate.
Qed.

(** A line feed can only stay at the end of a cleaned line when the
    opener hands out lines that hold a line feed before their end, which
    a file opened in binary mode does not; the second run would strip
    it. *)
Example second_run_strips_line_feed :
  let raw := [x61; x0a; x0a] in
  let w := mkWhere "a.conf" 1 raw in
  FileReader.__iter__ [(w, raw)] = ([], Return [(w, [97; 10]%N, [])])
  /\ second_run [(w, [97; 10]%N, [])] = ([], Return [(w, [97%N], [])]).
Proof. split; reflexivity. Qed.

(** ** Lines as a file opened in binary mode yields them *)

Section FileLines.

Local Open Scope N_scope.

Lemma removelast_cons {A} (x : A) (l : list A) :
  removelast (x :: l) = match l with [] => [] | _ :: _ => x :: removelast l end.
Proof. destruct l; reflexivity. Qed.

Lemma lf_only_at_end_tail b raw :
  lf_only_at_end (b :: raw) = true -> lf_only_at_end raw = true.
Proof.
  unfold lf_only_at_end. rewrite removelast_cons.
  destruct raw; [reflexivity|]. cbn [forallb]. intros H.
  apply andb_true_iff in H. tauto.
Qed.

Lemma to_N_lf b : (to_N b =? LF) = Byte.eqb b x0a.
Proof. destruct b; reflexivity. Qed.

Lemma inner_no_lf_cons x t :
  (t = [] \/ ((x =? LF) = false /\ no_lf (removelast t) = true)) ->
  no_lf (removelast (x :: t)) = true.
Proof.
  rewrite removelast_cons. destruct t as [|y t]; [reflexivity|].
  intros [H | [Hx Ht]]; [discriminate|].
  change (negb (x =? LF) && no_lf (removelast (y :: t)) = true).
  rewrite Hx, Ht. reflexivity.
Qed.

Ltac not_lf := right; split; [apply N.eqb_neq; unfold Utf8.low6, LF; arith_hyps; lia|].

Lemma decode_lf_fuel n :
  forall raw t, (length raw <= n)%nat -> Utf8.decode raw = Some t ->
                lf_only_at_end raw = true -> no_lf (removelast t) = true.
Proof.
  assert (Hnil : forall t, Utf8.decode [] = Some t -> t = []).
  { intros t H. change (Utf8.decode []) with (Some (@nil char)) in H.
    injection H as <-. reflexivity. }
  induction n as [|n IH]; intros [|b0 r0] t Hlen; cbn [length] in Hlen.
  1, 3: intros H _; rewrite (Hnil t H); reflexivity.
  1: exfalso; lia.
  rewrite decode_cons. cbv zeta. intros H Hraw.
  pose proof (lf_only_at_end_tail _ _ Hraw) as Hr0.
  destruct (to_N b0 <? 0x80) eqn:E1.
  { apply option_map_cons_Some in H. destruct H as (t' & Hd & ->).
    apply inner_no_lf_cons.
    destruct r0 as [|b1 r1]; [left; exact (Hnil _ Hd)|].
    right. split; [|exact (IH (b1 :: r1) t' ltac:(cbn [length] in *; lia) Hd Hr0)].
    rewrite to_N_lf. unfold lf_only_at_end in Hraw. rewrite removelast_cons in Hraw.
    cbn [forallb] in Hraw. apply andb_true_iff in Hraw.
    apply negb_true_iff. tauto. }
  destruct (Utf8.between 0xC2 0xDF (to_N b0)) eqn:E2.
  { destruct r0 as [|b1 r1]; [discriminate|].
    destruct (Utf8.is_cont (to_N b1)) eqn:E3; [|discriminate].
    apply option_map_cons_Some in H. destruct H as (t' & Hd & ->).
    apply inner_no_lf_cons. not_lf.
    apply (IH r1 t' ltac:(cbn [length] in *; lia) Hd).
    exact (lf_only_at_end_tail _ _ Hr0). }
  destruct (Utf8.between 0xE0 0xEF (to_N b0)) eqn:E3.
  { destruct r0 as [|b1 [|b2 r2]]; try discriminate.
    destruct (Utf8.second_of3 (to_N b0) (to_N b1) && Utf8.is_cont (to_N b2)) eqn:E4;
      [|discriminate].
    apply option_map_cons_Some in H. destruct H as (t' & Hd & ->).
    apply inner_no_lf_cons. clear E2. not_lf.
    apply (IH r2 t' ltac:(cbn [length] in *; lia) Hd).
    exact (lf_only_at_end_tail _ _ (lf_only_at_end_tail _ _ Hr0)). }
  destruct (Utf8.between 0xF0 0xF4 (to_N b0)) eqn:E4; [|discriminate].
  destruct r0 as [|b1 [|b2 [|b3 r3]]]; try discriminate.
  destruct (Utf8.second_of4 (to_N b0) (to_N b1) && Utf8.is_cont (to_N b2)
            && Utf8.is_cont (to_N b3)) eqn:E5; [|discriminate].
  apply option_map_cons_Some in H. destruct H as (t' & Hd & ->).
  apply inner_no_lf_cons. clear E2 E3. not_lf.
  apply (IH r3 t' ltac:(cbn [length] in *; lia) Hd).
  exact (lf_only_at_end_tail _ _ (lf_only_at_end_tail _ _
           (lf_only_at_end_tail _ _ Hr0))).
Qed.

Lemma cp1252_lf_byte b c :
  Cp1252.decode_byte b = Some c -> (c =? LF) = Byte.eqb b x0a.
Proof.
  assert (H : match Cp1252.decode_byte b with
              | Some c' => (c' =? LF) = Byte.eqb b x0a
              | None => True
              end) by (destruct b; vm_compute; trivial).
  intros E. rewrite E in H. exact H.
Qed.

Lemma cp1252_lf raw : forall t,
  Cp1252.decode raw = Some t ->
  lf_only_at_end raw = true -> no_lf (removelast t) = true.
Proof.
  induction raw as [|b raw IH]; intros t; cbn [Cp1252.decode].
  - intros H _. injection H as <-. reflexivity.
  - destruct (Cp1252.decode_byte b) as [c|] eqn:Eb; [|discriminate].
    destruct (Cp1252.decode raw) as [t'|] eqn:Ed; [|discriminate].
    intros H Hraw. injection H as <-.
    apply inner_no_lf_cons.
    destruct raw as [|b1 raw'].
    + left. cbn in Ed. injection Ed as <-. reflexivity.
    + right. split; [|exact (IH t' eq_refl (lf_only_at_end_tail _ _ Hraw))].
      rewrite (cp1252_lf_byte _ _ Eb).
      unfold lf_only_at_end in Hraw. rewrite removelast_cons in Hraw.
      cbn [forallb] in Hraw. apply andb_true_iff in Hraw.
      apply negb_true_iff. tauto.
Qed.

Lemma decoder_lf w raw ds w' t :
  EncodingReader.body (w, raw) = (ds, Return (w', t)) ->
  lf_only_at_end raw = true -> no_lf (removelast t) = true.
Proof.
  unfold EncodingReader.body.
  destruct (Utf8.decode raw) as [t0|] eqn:Eu.
  - intros H. injection H as _ _ <-.
    exact (decode_lf_fuel (length raw) raw t0 (le_n _) Eu).
  - destruct (Cp1252.decode raw) as [t0|] eqn:Ec; [|discriminate].
    intros H. injection H as _ _ <-. exact (cp1252_lf raw t0 Ec).
Qed.

Lemma stripped_no_lf t :
  no_lf (removelast t) = true ->
  no_lf (FileformatReader.strip_terminator t) = true.
Proof.
  destruct t as [|x l _] using rev_ind; [reflexivity|].
  rewrite removelast_last. intros Hl.
  unfold FileformatReader.strip_terminator, Py.drop_last.
  fold (has_crlf (l ++ [x])). fold (has_lf (l ++ [x])).
  assert (Hcut : forall k, (1 <= k)%nat ->
            firstn (length (l ++ [x]) - k) (l ++ [x]) = firstn (length l + 1 - k) l).
  { intros k Hk. rewrite length_app. cbn [length].
    rewrite firstn_app.
    replace (length l + 1 - k - length l)%nat with 0%nat by lia.
    cbn [firstn]. apply app_nil_r. }
  destruct (has_crlf (l ++ [x])) eqn:Ec.
  - rewrite Hcut by lia. apply forallb_firstn, Hl.
  - destruct (has_lf (l ++ [x])) eqn:El.
    + rewrite Hcut by lia. apply forallb_firstn, Hl.
    + unfold has_lf in El. rewrite endswith_snoc in El.
      unfold no_lf in *. rewrite forallb_app. cbn [forallb].
      rewrite El, andb_true_r. exact Hl.
Qed.

Lemma no_lf_has_lf d : no_lf d = true -> has_lf d = false.
Proof.
  intros H. destruct (has_lf d) eqn:E; [|reflexivity].
  unfold has_lf in E. apply endswith_true in E. rewrite E in H.
  unfold no_lf in H. rewrite forallb_app in H. cbn in H.
  rewrite andb_false_r in H. discriminate.
Qed.

(** A record made from a file line, with no [;] in its code, has no line
    feed at the end of its cleaned line. *)
Lemma file_line_cleaned st w raw ds st' r :
  FileReader.body st (w, raw) = (ds, Return (st', r)) ->
  lf_only_at_end raw = true ->
  Py.contains SEMI (code_text r) = false ->
  has_lf (cleaned r) = false.
Proof.
  intros Hb Hraw Hsemi.
  apply pipeline_body_returns in Hb.
  destruct Hb as (t & d1 & d2 & d3 & wd & d4 & He & _ & Ht & Hs & _).
  pose proof (decoder_lf _ _ _ _ _ He Hraw) as Hlf.
  unfold FileformatReader.body in Ht.
  apply bind_returns in Ht. destruct Ht as (? & [[fi loc] w'] & ? & _ & Hc & _).
  assert (Hwd : snd wd = FileformatReader.strip_terminator t).
  { unfold FileformatReader.check_ending in Hc.
    repeat (apply bind_returns in Hc; destruct Hc as (? & ? & ? & _ & Hc & _);
            try match type of Hc with (let '(_, _) := ?x in _) = _ => destruct x end).
    injection Hc as _ _ <-. reflexivity. }
  destruct wd as [w'' d]. cbn [snd] in Hwd. subst d.
  apply splitter_returns in Hs.
  assert (Hclean : cleaned r
                   = Py.rstrip_blanks (FileformatReader.strip_terminator t)).
  { subst r. unfold cleaned, code_text, comment_text. cbn [fst snd].
    apply split_of_cleaned. exact Hsemi. }
  rewrite Hclean. apply no_lf_has_lf.
  unfold Py.rstrip_blanks. apply forallb_firstn, stripped_no_lf, Hlf.
Qed.

(** For the lines of files the third condition of [rerunnable] comes for
    free. *)
Lemma file_lines_rerunnable items :
  forall st ds st' recs,
    for_each FileReader.body st items = (ds, Return (st', recs)) ->
    Forall (fun item => lf_only_at_end (snd item) = true) items ->
    Forall (fun r => NoCtrlReader.has_illegal (cleaned r) = false
                     /\ Py.contains SEMI (code_text r) = false) recs ->
    Forall rerunnable recs.
Proof.
  induction items as [|[w raw] items IH]; intros st ds st' recs Hrun Hraw Hrecs.
  - injection Hrun as _ _ <-. constructor.
  - rewrite for_each_cons in Hrun.
    apply bind_returns in Hrun. destruct Hrun as (d1 & [st1 r] & d2 & Hb & Hrun & _).
    apply bind_returns in Hrun. destruct Hrun as (d3 & [st2 rs] & d4 & Hf & Hrun & _).
    injection Hrun as _ _ <-.
    pose proof (Forall_inv Hrecs) as [Hctl Hsemi].
    constructor.
    + split; [exact Hctl | split; [exact Hsemi|]].
      exact (file_line_cleaned _ _ _ _ _ _ Hb (Forall_inv Hraw) Hsemi).
    + exact (IH _ _ _ _ Hf (Forall_inv_tail Hraw) (Forall_inv_tail Hrecs)).
Qed.

End FileLines.

(** ** A whole session *)

(** Both handles end up closed once; the included file is reported for
    its final CRLF when the next line of the including file arrives, and
    that line is yielded with the position of the include line. *)
Example include_session :
  let session := BinFileReader.drive session_opener session_ops BinFileReader.__init__ in
  let p := mkWhere "extensions.conf" in
  let c := mkWhere "users.conf" in
  BinFileReader.closed (snd session) = [1; 0]
  /\ BinFileReader._files (snd session) = []
  /\ FileReader.__iter__ (fst session)
     = ([ W_FILE_DOS_EOFCRLF (c 2 (list_byte_of_string "secret=1" ++ [x0d; x0a])) ],
        Return
          [ (p 1 (LF_bytes "[general]"), str "[general]", []);
            (p 2 (LF_bytes "#include users.conf"), str "#include users.conf", []);
            (c 1 (list_byte_of_string "[alice]" ++ [x0d; x0a]), str "[alice]", []);
            (c 2 (list_byte_of_string "secret=1" ++ [x0d; x0a]), str "secret=1", []);
            (p 2 (LF_bytes "#include users.conf"), str "exten => s,1,NoOp()",
             str " ; greet") ]).
Proof. repeat split. Qed.

(* ===================================================================== *)
(** * Part IV: further properties of the readers                          *)
(* ===================================================================== *)

(** ** AsteriskCommentReader as a single pass *)

Section SinglePass.

Lemma unescape_cons (a : char) (rest : text) :
  unescape (a :: rest) =
  if N.eqb a SEMI then ([], a :: rest)
  else match rest with
       | b :: rest' =>
           if N.eqb a BACKSLASH && N.eqb b SEMI
           then let (code, comment) := unescape rest' in (SEMI :: code, comment)
           else let (code, comment) := unescape rest in (a :: code, comment)
       | [] => ([a], [])
       end.
Proof. reflexivity. Qed.

Lemma index_cons (c x : char) (rest : text) :
  Py.index c (x :: rest)
  = if N.eqb x c then Some 0 else option_map S (Py.index c rest).
Proof. reflexivity. Qed.

Lemma unescape_plain (a : char) (rest : text) :
  N.eqb a SEMI = false ->
  (N.eqb a BACKSLASH && match rest with b :: _ => N.eqb b SEMI | [] => false end)
  = false ->
  unescape (a :: rest) = (a :: fst (unescape rest), snd (unescape rest)).
Proof.
  intros Ha Hp. rewrite unescape_cons, Ha.
  destruct rest as [|b rest']; [reflexivity|].
  rewrite Hp. destruct (unescape (b :: rest')); reflexivity.
Qed.

(** What [unescape] does up to the first [;], told with the index the
    loop works with. *)
Lemma unescape_at_index data :
  unescape data =
  match Py.index SEMI data with
  | None => (data, [])
  | Some i =>
      if negb (Nat.eqb i 0)
         && match nth_error data (i - 1) with
            | Some c => N.eqb c BACKSLASH
            | None => false
            end
      then (firstn (i - 1) data ++ SEMI :: fst (unescape (skipn (i + 1) data)),
            snd (unescape (skipn (i + 1) data)))
      else (firstn i data, skipn i data)
  end.
Proof.
  induction data as [|a rest IH]; [reflexivity|].
  rewrite index_cons.
  destruct (N.eqb a SEMI) eqn:Ea; [rewrite unescape_cons, Ea; reflexivity|].
  destruct (N.eqb a BACKSLASH
            && match rest with b :: _ => N.eqb b SEMI | [] => false end) eqn:Ep.
  - (* the pair at the head *)
    apply andb_true_iff in Ep. destruct Ep as [Eb Es].
    destruct rest as [|b rest']; [discriminate|].
    rewrite unescape_cons, Ea, Eb, Es, index_cons, Es.
    cbn [andb option_map Nat.eqb negb Nat.sub nth_error]. rewrite Eb.
    cbn [firstn app Nat.add skipn]. destruct (unescape rest'); reflexivity.
  - rewrite (unescape_plain a rest Ea Ep), IH. clear IH.
    destruct (Py.index SEMI rest) as [k|] eqn:Ek; cbn [option_map]; [|reflexivity].
    cbn [Nat.eqb negb andb]. change (S k - 1) with (k - 0). rewrite Nat.sub_0_r.
    destruct k as [|k'].
    + cbn [Nat.eqb negb andb nth_error firstn skipn fst snd].
      destruct rest as [|b rest']; [discriminate|].
      rewrite index_cons in Ek. destruct (N.eqb b SEMI) eqn:Es.
      * rewrite andb_true_r in Ep. rewrite Ep. reflexivity.
      * destruct (Py.index SEMI rest'); discriminate.
    + cbn [Nat.eqb negb andb Nat.sub nth_error fst snd]. rewrite Nat.sub_0_r.
      destruct (match nth_error rest k' with
                | Some c => N.eqb c BACKSLASH
                | None => false
                end); reflexivity.
Qed.

(** The loop of lines 193-207 collects in [parts] the code that
    [unescape] gives, and leaves its comment. *)
Lemma escape_scan_unescape n :
  forall data parts,
    length data <= n ->
    concat (fst (AsteriskCommentReader.escape_scan data parts))
    = concat parts ++ fst (unescape data)
    /\ snd (AsteriskCommentReader.escape_scan data parts) = snd (unescape data).
Proof.
  induction n as [|n IH]; intros data parts Hlen;
    rewrite escape_scan_unfold, (unescape_at_index data).
  - destruct data; [|cbn in Hlen; lia]. cbn. rewrite concat_app. cbn.
    split; reflexivity.
  - destruct (Py.index SEMI data) as [i|] eqn:Ei.
    + destruct (index_Some _ _ _ Ei) as (Hlt & _ & _).
      destruct (negb (i =? 0) && _).
      * destruct (IH (skipn (i + 1) data) (parts ++ [firstn (i - 1) data ++ [SEMI]]))
          as [Hc Hm].
        { rewrite length_skipn. lia. }
        rewrite Hc, Hm, concat_app. cbn [concat fst snd].
        rewrite app_nil_r, <- !app_assoc. split; reflexivity.
      * cbn [fst snd]. rewrite concat_app. cbn [concat]. rewrite app_nil_r.
        split; reflexivity.
    + cbn [fst snd]. rewrite concat_app. cbn [concat]. rewrite app_nil_r.
      split; reflexivity.
Qed.

Lemma escape_split_unescape data :
  AsteriskCommentReader.escape_split data
  = (Py.rstrip_blanks (fst (unescape data)),
     trailing_blanks (fst (unescape data)) ++ snd (unescape data)).
Proof.
  unfold AsteriskCommentReader.escape_split.
  destruct (escape_scan_unescape (length data) data [] (le_n _)) as [Hc Hm].
  destruct (AsteriskCommentReader.escape_scan data []) as [parts cm].
  cbn [fst snd concat app] in Hc, Hm. rewrite Hc, Hm. reflexivity.
Qed.

(** The shortcut and the loop agree on what reaches them. *)
Lemma shortcut_is_escape_split data :
  Py.contains BACKSLASH data = false ->
  Py.ends_blank data = false ->
  AsteriskCommentReader.simple_comment_split data
  = AsteriskCommentReader.escape_split data.
Proof.
  intros Hno Hend.
  rewrite (escape_split_plain _ (contains_no_escaped _ Hno)).
  unfold AsteriskCommentReader.simple_comment_split.
  destruct (Py.index SEMI data); [reflexivity|].
  cbv zeta. rewrite (no_blank_end _ Hend), firstn_all, skipn_all. reflexivity.
Qed.

Lemma split_of_unescape data :
  split_of (Py.rstrip_blanks data)
  = (Py.rstrip_blanks (fst (unescape (Py.rstrip_blanks data))),
     trailing_blanks (fst (unescape (Py.rstrip_blanks data)))
     ++ snd (unescape (Py.rstrip_blanks data))).
Proof.
  unfold split_of.
  destruct (Py.contains BACKSLASH (Py.rstrip_blanks data)) eqn:E; cbn [negb].
  - apply escape_split_unescape.
  - rewrite (shortcut_is_escape_split _ E (ends_blank_rstrip data)).
    apply escape_split_unescape.
Qed.

(** The loop body as a function of the line. *)
Lemma splitter_spec w data :
  AsteriskCommentReader.body (w, data)
  = ((if Py.ends_blank data then [W_WSH_EOL w] else []),
     Return (w, Py.rstrip_blanks (fst (unescape (Py.rstrip_blanks data))),
             trailing_blanks (fst (unescape (Py.rstrip_blanks data)))
             ++ snd (unescape (Py.rstrip_blanks data)))).
Proof.
  rewrite comment_body_unfold. fold (split_of (Py.rstrip_blanks data)).
  rewrite split_of_unescape. destruct (Py.ends_blank data); reflexivity.
Qed.

(** X1. The splitter is a single pass with one character of lookahead:
    for every line, [W_WSH_EOL] is emitted once exactly when the line ends
    in a space or tab, and with [(code, comment)] the result of
    [unescape] on the line without its trailing blanks, the record
    yielded holds [code] without the blanks at its end and those blanks
    followed by [comment].  The position is passed on and the body never
    raises. *)
Theorem splitter_is_single_pass (w : Where) (data : text) :
  let trimmed := Py.rstrip_blanks data in
  AsteriskCommentReader.body (w, data)
  = ((if Py.ends_blank data then [W_WSH_EOL w] else []),
     Return (w, Py.rstrip_blanks (fst (unescape trimmed)),
             trailing_blanks (fst (unescape trimmed)) ++ snd (unescape trimmed))).
Proof. exact (splitter_spec w data). Qed.

Lemma splitter_split (w : Where) (data : text) :
  AsteriskCommentReader.body (w, data)
  = ((if Py.ends_blank data then [W_WSH_EOL w] else []),
     Return (w, fst (split_of (Py.rstrip_blanks data)),
                snd (split_of (Py.rstrip_blanks data)))).
Proof.
  rewrite comment_body_unfold. fold (split_of (Py.rstrip_blanks data)).
  destruct (split_of (Py.rstrip_blanks data)) as [code comment].
  destruct (Py.ends_blank data); reflexivity.
Qed.

Lemma ends_blank_cons (x : char) (l : text) :
  Py.ends_blank (x :: l)
  = match l with [] => Py.is_blank x | _ :: _ => Py.ends_blank l end.
Proof.
  destruct l as [|y l' _] using rev_ind.
  - exact (ends_blank_snoc [] x).
  - rewrite app_comm_cons, !ends_blank_snoc. destruct (l' ++ [y]) eqn:E;
      [destruct l'; discriminate | reflexivity].
Qed.

Lemma unescape_comment_starts data :
  snd (unescape data) = [] \/ exists rest, snd (unescape data) = SEMI :: rest.
Proof.
  remember (length data) as n eqn:Hn. revert data Hn.
  induction n as [n IH] using lt_wf_ind. intros data Hn.
  destruct data as [|a rest]; [left; reflexivity|].
  rewrite unescape_cons. destruct (N.eqb_spec a SEMI) as [->|Ea].
  - right. exists rest. reflexivity.
  - destruct rest as [|b rest']; [left; reflexivity|].
    destruct (N.eqb a BACKSLASH && N.eqb b SEMI).
    + destruct (IH (length rest') ltac:(subst n; cbn; lia) rest' eq_refl) as [H | H];
        destruct (unescape rest'); [left | right]; exact H.
    + destruct (IH (length (b :: rest')) ltac:(subst n; cbn; lia) (b :: rest') eq_refl)
        as [H | H]; destruct (unescape (b :: rest')); [left | right]; exact H.
Qed.

(** When no comment starts, the code ends as the line does. *)
Lemma unescape_code_end data :
  Py.ends_blank data = false ->
  snd (unescape data) = [] ->
  Py.ends_blank (fst (unescape data)) = false
  /\ (data <> [] -> fst (unescape data) <> []).
Proof.
  remember (length data) as n eqn:Hn. revert data Hn.
  induction n as [n IH] using lt_wf_ind. intros data Hn Hend.
  destruct data as [|a rest]; [split; [reflexivity | congruence]|].
  rewrite unescape_cons. destruct (N.eqb_spec a SEMI) as [->|Ea]; [discriminate|].
  destruct rest as [|b rest'].
  - intros _. split; [exact Hend | discriminate].
  - rewrite ends_blank_cons in Hend.
    destruct (N.eqb a BACKSLASH && N.eqb b SEMI).
    + rewrite ends_blank_cons in Hend.
      assert (Hr : Py.ends_blank rest' = false)
        by (destruct rest'; [reflexivity | exact Hend]).
      pose proof (IH (length rest') ltac:(subst n; cbn; lia) rest' eq_refl Hr) as H.
      destruct (unescape rest') as [c m]; cbn [fst snd] in *.
      intros Hm. destruct (H Hm) as [H1 _]. split; [|discriminate].
      rewrite ends_blank_cons. destruct c; [reflexivity | exact H1].
    + pose proof (IH (length (b :: rest')) ltac:(subst n; cbn; lia)
                     (b :: rest') eq_refl Hend) as H.
      destruct (unescape (b :: rest')) as [c m]; cbn [fst snd] in *.
      intros Hm. destruct (H Hm) as [H1 H2]. split; [|discriminate].
      rewrite ends_blank_cons. destruct c; [exfalso; apply H2; [discriminate | reflexivity] | exact H1].
Qed.

Lemma index_None (c : char) (data : text) :
  Py.contains c data = false -> Py.index c data = None.
Proof.
  unfold Py.contains. induction data as [|x rest IH]; [reflexivity|].
  cbn [existsb]. rewrite index_cons, (N.eqb_sym x c). intros H.
  apply orb_false_iff in H. destruct H as [-> H]. rewrite (IH H). reflexivity.
Qed.

Lemma unescape_no_semi (data : text) :
  Py.contains SEMI data = false -> unescape data = (data, []).
Proof.
  intros H. rewrite unescape_at_index, (index_None _ _ H). reflexivity.
Qed.

Lemma blank_is_plain (c : char) :
  Py.is_blank c = true -> N.eqb c SEMI = false /\ N.eqb c BACKSLASH = false.
Proof.
  unfold Py.is_blank. intros H. apply orb_true_iff in H.
  destruct H as [H | H]; apply N.eqb_eq in H; subst c; split; reflexivity.
Qed.

Lemma unescape_blanks (bl rest : text) :
  forallb Py.is_blank bl = true ->
  unescape (bl ++ SEMI :: rest) = (bl, SEMI :: rest).
Proof.
  induction bl as [|a bl' IH]; intros H.
  - cbn [app]. rewrite unescape_cons, N.eqb_refl. reflexivity.
  - cbn [forallb] in H. apply andb_true_iff in H. destruct H as [Ha Hbl].
    destruct (blank_is_plain a Ha) as [H1 H2]. cbn [app].
    rewrite unescape_plain by (try exact H1; rewrite H2; reflexivity).
    rewrite (IH Hbl). reflexivity.
Qed.

Lemma rstrip_app_blanks (data bl : text) :
  forallb Py.is_blank bl = true ->
  Py.rstrip_blanks (data ++ bl) = Py.rstrip_blanks data.
Proof.
  induction bl as [|y bl' IH] using rev_ind; intros H.
  - rewrite app_nil_r. reflexivity.
  - rewrite forallb_app in H. apply andb_true_iff in H. destruct H as [H1 H2].
    cbn [forallb] in H2. rewrite andb_true_r in H2.
    rewrite app_assoc, rstrip_blanks_snoc, H2. exact (IH H1).
Qed.

Lemma ends_blank_app_blanks (data bl : text) :
  bl <> [] -> forallb Py.is_blank bl = true -> Py.ends_blank (data ++ bl) = true.
Proof.
  destruct bl as [|y bl' _] using rev_ind; [congruence|]. intros _ H.
  rewrite forallb_app in H. apply andb_true_iff in H. destruct H as [_ H].
  cbn [forallb] in H. rewrite andb_true_r in H.
  rewrite app_assoc, ends_blank_snoc. exact H.
Qed.

Lemma rstrip_keeps_nonblank (l : text) (x : char) (r : text) :
  Py.is_blank x = false ->
  Py.rstrip_blanks (l ++ x :: r) = l ++ x :: Py.rstrip_blanks r.
Proof.
  intros Hx. induction r as [|y r' IH] using rev_ind.
  - rewrite rstrip_blanks_snoc, Hx. reflexivity.
  - change (l ++ x :: r' ++ [y]) with (l ++ (x :: r') ++ [y]).
    rewrite app_assoc, !rstrip_blanks_snoc.
    destruct (Py.is_blank y); [exact IH | rewrite <- app_assoc; reflexivity].
Qed.

Lemma rstrip_all_blanks (bl : text) :
  forallb Py.is_blank bl = true -> Py.rstrip_blanks bl = [].
Proof. intros H. exact (rstrip_app_blanks [] bl H). Qed.

Lemma trailing_blanks_spec (data : text) :
  Py.rstrip_blanks data ++ trailing_blanks data = data.
Proof. apply firstn_skipn. Qed.

Lemma trailing_blanks_all (bl : text) :
  forallb Py.is_blank bl = true -> trailing_blanks bl = bl.
Proof.
  intros H. pose proof (trailing_blanks_spec bl) as E.
  rewrite (rstrip_all_blanks bl H) in E. exact E.
Qed.

Lemma trailing_blanks_none (data : text) :
  Py.ends_blank data = false -> trailing_blanks data = [].
Proof.
  intros H. unfold trailing_blanks. rewrite (no_blank_end _ H). apply skipn_all.
Qed.

End SinglePass.

(** ** What every record looks like *)

(** X2. Whatever the line, the splitter returns a record; its code never
    ends in a space or a tab, and its comment is either empty or some
    blanks followed by a [;]: a comment of blanks alone does not occur. *)
Theorem record_shape (w : Where) (data : text) :
  exists code comment,
    result (AsteriskCommentReader.body (w, data)) = Return (w, code, comment)
    /\ Py.ends_blank code = false
    /\ (comment = []
        \/ exists bl rest,
             forallb Py.is_blank bl = true /\ comment = bl ++ SEMI :: rest).
Proof.
  rewrite splitter_spec. cbn [result snd].
  set (trimmed := Py.rstrip_blanks data).
  eexists _, _. split; [reflexivity|]. split; [apply ends_blank_rstrip|].
  destruct (unescape_comment_starts trimmed) as [E | [rest E]]; rewrite E.
  - left. rewrite app_nil_r. apply trailing_blanks_none.
    apply unescape_code_end; [apply ends_blank_rstrip | exact E].
  - right. exists (trailing_blanks (fst (unescape trimmed))), rest.
    split; [apply blanks_after_code | reflexivity].
Qed.

(** X3. A line whose first character after its indentation is a [;] has
    no code: all of it, less the blanks at its end, is the comment. *)
Theorem comment_line_has_no_code (w : Where) (bl rest : text) :
  forallb Py.is_blank bl = true ->
  result (AsteriskCommentReader.body (w, bl ++ SEMI :: rest))
  = Return (w, [], bl ++ SEMI :: Py.rstrip_blanks rest).
Proof.
  intros Hbl. rewrite splitter_spec. cbn [result snd].
  rewrite (rstrip_keeps_nonblank bl SEMI rest eq_refl), (unescape_blanks _ _ Hbl).
  cbn [fst snd]. rewrite (rstrip_all_blanks _ Hbl), (trailing_blanks_all _ Hbl).
  reflexivity.
Qed.

Lemma comment_line_has_no_code_witness :
  result (AsteriskCommentReader.body
            (mkWhere "sip.conf" 3 [], str "  " ++ SEMI :: str " context  "))
  = Return (mkWhere "sip.conf" 3 [], [], str "  " ++ SEMI :: Py.rstrip_blanks (str " context  ")).
Proof. apply (comment_line_has_no_code (mkWhere "sip.conf" 3 []) (str "  ")); reflexivity. Defined.

(** X4. Spaces and tabs at the end of a line change nothing but the
    warning: the line with blanks added gives [W_WSH_EOL] and the record of
    the line without them. *)
Theorem trailing_blanks_only_warn (w : Where) (data bl : text) :
  bl <> [] ->
  forallb Py.is_blank bl = true ->
  diags (AsteriskCommentReader.body (w, data ++ bl)) = [W_WSH_EOL w]
  /\ result (AsteriskCommentReader.body (w, data ++ bl))
     = result (AsteriskCommentReader.body (w, data)).
Proof.
  intros Hne Hbl. rewrite !splitter_spec. cbn [diags result fst snd].
  rewrite (ends_blank_app_blanks data bl Hne Hbl), (rstrip_app_blanks data bl Hbl).
  split; reflexivity.
Qed.

Lemma trailing_blanks_only_warn_witness :
  diags (AsteriskCommentReader.body (mkWhere "sip.conf" 3 [], str "a\;b ;c" ++ str " 	"))
  = [W_WSH_EOL (mkWhere "sip.conf" 3 [])]
  /\ result (AsteriskCommentReader.body (mkWhere "sip.conf" 3 [], str "a\;b ;c" ++ str " 	"))
     = result (AsteriskCommentReader.body (mkWhere "sip.conf" 3 [], str "a\;b ;c")).
Proof.
  apply (trailing_blanks_only_warn (mkWhere "sip.conf" 3 []) (str "a\;b ;c") (str " 	"));
    [discriminate | reflexivity].
Defined.

(** X5. A line without a [;] has no comment, and its backslashes stay as
    they are: the code is the line less the blanks at its end. *)
Theorem no_delimiter_no_comment (w : Where) (data : text) :
  Py.contains SEMI data = false ->
  result (AsteriskCommentReader.body (w, data))
  = Return (w, Py.rstrip_blanks data, []).
Proof.
  intros H. rewrite splitter_spec. cbn [result snd].
  assert (Ht : Py.contains SEMI (Py.rstrip_blanks data) = false).
  { unfold Py.rstrip_blanks.
    rewrite <- (firstn_skipn (Py.back_over_blanks data (length data)) data) in H.
    rewrite contains_app in H. apply orb_false_iff in H. exact (proj1 H). }
  rewrite (unescape_no_semi _ Ht). cbn [fst snd].
  rewrite (rstrip_no_blank_end _ (ends_blank_rstrip data)),
          (trailing_blanks_none _ (ends_blank_rstrip data)).
  reflexivity.
Qed.

Lemma no_delimiter_no_comment_witness :
  result (AsteriskCommentReader.body (mkWhere "sip.conf" 3 [], str "exten => s,1,Set(a=b\c) "))
  = Return (mkWhere "sip.conf" 3 [], Py.rstrip_blanks (str "exten => s,1,Set(a=b\c) "), []).
Proof. apply no_delimiter_no_comment. reflexivity. Defined.

(** ** NoCtrlReader and EncodingReader on the bytes of the line *)

Section ControlCharacters.

Local Open Scope N_scope.

Ltac Zify.zify_post_hook ::= Z.to_euclidean_division_equations.

Lemma illegal_below_space : Forall (fun x => x < 0x20) NoCtrlReader.illegal.
Proof. repeat constructor. Qed.

Lemma control_char_small (n : nat) :
  (n < 32)%nat ->
  existsb (N.eqb (N.of_nat n)) NoCtrlReader.illegal = control_char (N.of_nat n).
Proof.
  intros H. do 32 (destruct n as [|n]; [reflexivity|]). exfalso; lia.
Qed.

(** The literal set of lines 84-87 is what its comment says. *)
Lemma illegal_spec (c : char) :
  existsb (N.eqb c) NoCtrlReader.illegal = control_char c.
Proof.
  destruct (N.ltb_spec c 0x20) as [Hlt | Hge].
  - rewrite <- (N2Nat.id c). apply control_char_small. lia.
  - unfold control_char. destruct (N.ltb_spec c 0x20) as [|_]; [exfalso; lia|].
    cbn [andb]. apply not_true_iff_false. intros H.
    apply existsb_exists in H. destruct H as (x & Hin & Hx).
    apply N.eqb_eq in Hx. subst x.
    pose proof illegal_below_space as Hall. rewrite Forall_forall in Hall.
    specialize (Hall c Hin). cbv beta in Hall. lia.
Qed.

Lemma has_illegal_spec (data : text) :
  NoCtrlReader.has_illegal data = existsb control_char data.
Proof.
  unfold NoCtrlReader.has_illegal.
  induction data as [|c rest IH]; [reflexivity|].
  cbn [existsb]. rewrite IH, illegal_spec. reflexivity.
Qed.

Lemma control_char_low (c : char) : 0x80 <= c -> control_char c = false.
Proof.
  intros H. unfold control_char.
  destruct (N.ltb_spec c 0x20) as [|_]; [exfalso; lia | reflexivity].
Qed.

Variable P : char -> bool.
Hypothesis P_low : forall c, 0x80 <= c -> P c = false.

Lemma utf8_keeps_low_fuel n :
  forall bs t, (length bs <= n)%nat -> Utf8.decode bs = Some t ->
               existsb P t = existsb (fun b => P (Byte.to_N b)) bs.
Proof.
  assert (Hnil : forall t, Utf8.decode [] = Some t ->
                           existsb P t = existsb (fun b => P (Byte.to_N b)) []).
  { intros t H. change (Utf8.decode []) with (Some (@nil char)) in H.
    injection H as <-. reflexivity. }
  induction n as [|n IH]; intros [|b0 r0] t Hlen; cbn [length] in Hlen.
  1, 3: apply Hnil.
  1: exfalso; lia.
  rewrite decode_cons. cbv zeta.
  destruct (to_N b0 <? 0x80) eqn:E1.
  { intros H. apply option_map_cons_Some in H. destruct H as (t' & Hd & ->).
    cbn [existsb]. rewrite (IH r0 t' ltac:(lia) Hd). reflexivity. }
  destruct (Utf8.between 0xC2 0xDF (to_N b0)) eqn:E2.
  { destruct r0 as [|b1 r1]; [discriminate|].
    destruct (Utf8.is_cont (to_N b1)) eqn:E3; [|discriminate].
    intros H. apply option_map_cons_Some in H. destruct H as (t' & Hd & ->).
    cbn [existsb length] in *. rewrite (IH r1 t' ltac:(lia) Hd).
    rewrite !P_low by (unfold Utf8.low6; arith_hyps; lia). reflexivity. }
  destruct (Utf8.between 0xE0 0xEF (to_N b0)) eqn:E3.
  { destruct r0 as [|b1 [|b2 r2]]; try discriminate.
    destruct (Utf8.second_of3 (to_N b0) (to_N b1) && Utf8.is_cont (to_N b2)) eqn:E4;
      [|discriminate].
    intros H. apply option_map_cons_Some in H. destruct H as (t' & Hd & ->).
    cbn [existsb length] in *. rewrite (IH r2 t' ltac:(lia) Hd).
    clear E2.
    rewrite !P_low by (unfold Utf8.low6; arith_hyps; lia). reflexivity. }
  destruct (Utf8.between 0xF0 0xF4 (to_N b0)) eqn:E4; [|discriminate].
  destruct r0 as [|b1 [|b2 [|b3 r3]]]; try discriminate.
  destruct (Utf8.second_of4 (to_N b0) (to_N b1) && Utf8.is_cont (to_N b2)
            && Utf8.is_cont (to_N b3)) eqn:E5; [|discriminate].
  intros H. apply option_map_cons_Some in H. destruct H as (t' & Hd & ->).
  cbn [existsb length] in *. rewrite (IH r3 t' ltac:(lia) Hd).
  clear E2 E3.
  rewrite !P_low by (unfold Utf8.low6; arith_hyps; lia). reflexivity.
Qed.

Lemma cp1252_keeps_low_byte (b : byte) (c : char) :
  Cp1252.decode_byte b = Some c -> P c = P (Byte.to_N b).
Proof.
  assert (H : match Cp1252.decode_byte b with
              | Some c' => (if Byte.to_N b <? 0x80 then N.eqb c' (Byte.to_N b)
                            else (0x80 <=? c') && (0x80 <=? Byte.to_N b)) = true
              | None => True
              end) by (destruct b; vm_compute; trivial).
  intros E. rewrite E in H.
  destruct (Byte.to_N b <? 0x80).
  - apply N.eqb_eq in H. rewrite H. reflexivity.
  - apply andb_true_iff in H. destruct H as [H1 H2].
    apply N.leb_le in H1, H2. rewrite !P_low by assumption. reflexivity.
Qed.

Lemma cp1252_keeps_low (bs : bytes) (t : text) :
  Cp1252.decode bs = Some t ->
  existsb P t = existsb (fun b => P (Byte.to_N b)) bs.
Proof.
  revert t. induction bs as [|b bs IH]; intros t; cbn [Cp1252.decode].
  - intros H. injection H as <-. reflexivity.
  - destruct (Cp1252.decode_byte b) as [c|] eqn:Eb; [|discriminate].
    destruct (Cp1252.decode bs) as [t'|]; [|discriminate].
    intros H. injection H as <-. cbn [existsb].
    rewrite (cp1252_keeps_low_byte _ _ Eb), (IH t' eq_refl). reflexivity.
Qed.

Lemma decoder_keeps_low w raw ds w' t :
  EncodingReader.body (w, raw) = (ds, Return (w', t)) ->
  existsb P t = existsb (fun b => P (Byte.to_N b)) raw.
Proof.
  unfold EncodingReader.body.
  destruct (Utf8.decode raw) as [t0|] eqn:Eu.
  - intros H. injection H as _ _ <-.
    exact (utf8_keeps_low_fuel (length raw) raw t0 (le_n _) Eu).
  - destruct (Cp1252.decode raw) as [t0|] eqn:Ec; [|discriminate].
    intros H. injection H as _ _ <-. exact (cp1252_keeps_low raw t0 Ec).
Qed.

End ControlCharacters.

Lemma ascii_decodes (data : bytes) :
  forallb ascii_byte data = true -> Utf8.decode data = Some (map Byte.to_N data).
Proof.
  induction data as [|b rest IH]; [reflexivity|].
  cbn [forallb map]. intros H. apply andb_true_iff in H. destruct H as [Hb Hr].
  rewrite decode_cons. cbv zeta. unfold ascii_byte in Hb. rewrite Hb, (IH Hr).
  reflexivity.
Qed.

Lemma guard_body (w : Where) (data : text) :
  NoCtrlReader.body (w, data)
  = ((if existsb control_char data then [W_FILE_CTRL_CHAR w] else []),
     Return (w, data)).
Proof.
  unfold NoCtrlReader.body. rewrite has_illegal_spec.
  destruct (existsb control_char data); reflexivity.
Qed.

(** X6. The guard reports a line exactly when it holds a character below
    U+0020 other than tab, line feed and carriage return: the literal set
    [illegal] is complete.  One warning is given however many such
    characters the line holds, and the line is passed on unchanged. *)
Theorem guard_reports_control_chars (w : Where) (data : text) :
  NoCtrlReader.body (w, data)
  = ((if existsb control_char data then [W_FILE_CTRL_CHAR w] else []),
     Return (w, data)).
Proof. exact (guard_body w data). Qed.

(** X7. The Decoder raises on exactly the lines that are not UTF-8 and
    hold one of the bytes 0x81, 0x8D, 0x8F, 0x90, 0x9D; it raises nothing
    but [UnicodeDecodeError], and has then already reported
    [E_FILE_UTF8_BAD]. *)
Theorem decoder_raises_iff (w : Where) (data : bytes) :
  (result (EncodingReader.body (w, data)) = Raise UnicodeDecodeError
   <-> undecodable data = true)
  /\ (forall e, result (EncodingReader.body (w, data)) = Raise e ->
                e = UnicodeDecodeError
                /\ diags (EncodingReader.body (w, data)) = [E_FILE_UTF8_BAD w]).
Proof.
  unfold undecodable. destruct (Utf8.decode data) as [t|] eqn:Eu.
  - rewrite (decoder_utf8 w data t Eu). cbn [result diags fst snd].
    split; [split; discriminate | discriminate].
  - rewrite (decoder_fallback w data Eu). cbn [result diags fst snd].
    pose proof (cp1252_decode_Some data) as Hc.
    destruct (Cp1252.decode data) as [t|].
    + assert (Hu : existsb cp1252_undefined data = false)
        by (apply Hc; eexists; reflexivity).
      rewrite Hu. split; [split; discriminate | discriminate].
    + destruct (existsb cp1252_undefined data).
      * split; [split; reflexivity|]. intros e H. injection H as <-.
        split; reflexivity.
      * destruct Hc as [_ Hc]. destruct (Hc eq_refl) as [t Ht]. discriminate.
Qed.

(** X8. A line of 7-bit ASCII is decoded byte by byte into the same code
    points, and nothing is reported. *)
Theorem ascii_line_decodes (w : Where) (data : bytes) :
  forallb ascii_byte data = true ->
  EncodingReader.body (w, data) = ([], Return (w, map Byte.to_N data)).
Proof. intros H. exact (decoder_utf8 w data _ (ascii_decodes data H)). Qed.

Lemma ascii_line_decodes_witness :
  EncodingReader.body (mkWhere "sip.conf" 1 (LF_bytes "[general]"), LF_bytes "[general]")
  = ([], Return (mkWhere "sip.conf" 1 (LF_bytes "[general]"),
                 map Byte.to_N (LF_bytes "[general]"))).
Proof. apply ascii_line_decodes. reflexivity. Defined.

(** X9. Whichever codec decoded the line, the guard that follows reports
    it exactly when one of its bytes is a control byte: the bytes of a
    multi-byte sequence and the characters they stand for never count. *)
Theorem control_bytes_reported (w w' : Where) (raw : bytes) (ds : list diag) (t : text) :
  EncodingReader.body (w, raw) = (ds, Return (w', t)) ->
  NoCtrlReader.body (w', t)
  = ((if existsb (fun b => control_char (Byte.to_N b)) raw
      then [W_FILE_CTRL_CHAR w] else []),
     Return (w, t)).
Proof.
  intros H. rewrite (decoder_keeps_position _ _ _ _ _ H).
  unfold NoCtrlReader.body. rewrite has_illegal_spec.
  rewrite (decoder_keeps_low control_char control_char_low _ _ _ _ _ H).
  destruct (existsb _ raw); reflexivity.
Qed.

Lemma control_bytes_reported_witness :
  NoCtrlReader.body (mkWhere "sip.conf" 1 [], [0x61; 0xE9; 0x07; 0x0A]%N)
  = ((if existsb (fun b => control_char (Byte.to_N b)) [x61; xe9; x07; x0a]
      then [W_FILE_CTRL_CHAR (mkWhere "sip.conf" 1 [])] else []),
     Return (mkWhere "sip.conf" 1 [], [0x61; 0xE9; 0x07; 0x0A]%N)).
Proof.
  apply (control_bytes_reported (mkWhere "sip.conf" 1 []) (mkWhere "sip.conf" 1 [])
           [x61; xe9; x07; x0a] [E_FILE_UTF8_BAD (mkWhere "sip.conf" 1 [])]).
  reflexivity.
Defined.

(** ** FileformatReader over any sequence of lines *)

Section TrackerWhole.

Import FileformatReader.

Lemma terminator_split (data : text) :
  strip_terminator data ++ terminator data = data.
Proof.
  unfold strip_terminator, terminator, has_crlf, has_lf.
  destruct (Py.endswith data [CR; LF]) eqn:E1.
  - symmetry. exact (endswith_true data [CR; LF] E1).
  - destruct (Py.endswith data [LF]) eqn:E2.
    + symmetry. exact (endswith_true data [LF] E2).
    + apply app_nil_r.
Qed.

Lemma from_incl fi name : exists pre, fi = pre ++ from fi name.
Proof. exists (above fi name). symmetry. apply above_from. Qed.

Lemma enter_position fi w pops w' cls rest :
  Forall own_position fi ->
  enter fi w = (pops, w', cls, rest) ->
  filename w' = filename w.
Proof.
  intros Hown. unfold enter.
  destruct (from_incl fi (filename w)) as [pre Hpre].
  destruct (from fi (filename w)) as [|old rest0] eqn:Ef;
    intros H; injection H as _ <- _ _; [reflexivity|].
  destruct (returns_from_include fi w); [|reflexivity].
  rewrite Hpre in Hown. apply Forall_app in Hown. destruct Hown as [_ Hown].
  rewrite (Forall_inv Hown). exact (from_head _ _ _ _ Ef).
Qed.

(** Every frame stores a position of its own file, and the line is
    yielded at a position of its file. *)
Lemma body_own st w data ds st' w' d' :
  tracker_inv st -> Forall own_position (fst st) ->
  body st (w, data) = (ds, Return (st', (w', d'))) ->
  tracker_inv st' /\ Forall own_position (fst st')
  /\ filename w' = filename w /\ d' = strip_terminator data.
Proof.
  intros Hinv Hown H.
  destruct (body_inv st w data Hinv) as (ds0 & st0 & o & Hb0 & Hinv0).
  rewrite H in Hb0. injection Hb0 as _ <- _.
  pose proof (body_spec st w data Hinv) as Hb.
  destruct (enter (fst st) w) as [[[pops w1] cls] rest] eqn:Ee.
  cbv zeta in Hb. rewrite Hb in H. injection H as _ <- <- <-.
  pose proof (enter_position _ _ _ _ _ _ Hown Ee) as Hw.
  destruct (enter_rest _ _ _ _ _ _ Ee) as [pre Hpre].
  rewrite Hpre in Hown. apply Forall_app in Hown. destruct Hown as [_ Hrest].
  repeat split; try assumption; try apply Hinv0.
  cbn [fst]. constructor; [exact Hw | exact Hrest].
Qed.

Lemma for_each_own items : forall st,
  tracker_inv st -> Forall own_position (fst st) ->
  exists ds st' out,
    for_each body st items = (ds, Return (st', out))
    /\ tracker_inv st'
    /\ map snd out = map (fun item => strip_terminator (snd item)) items
    /\ map (fun o => filename (fst o)) out
       = map (fun item => filename (fst item)) items.
Proof.
  induction items as [|[w data] items IH]; intros st Hinv Hown.
  - exists [], st, []. split; [reflexivity|]. split; [exact Hinv|]. split; reflexivity.
  - destruct (body_inv st w data Hinv) as (ds & st1 & [w' d'] & Hb & _).
    destruct (body_own _ _ _ _ _ _ _ Hinv Hown Hb) as (Hinv1 & Hown1 & Hw & Hd).
    destruct (IH st1 Hinv1 Hown1) as (ds2 & st2 & out & Hf & Hinv2 & Ht & Hn).
    rewrite (for_each_cons_returns _ _ _ _ _ _ _ _ _ _ Hb Hf).
    eexists _, _, _. split; [reflexivity|]. split; [exact Hinv2|].
    cbn [map fst snd]. rewrite Ht, Hn, Hw, Hd. split; reflexivity.
Qed.

(** A file that the stack does not hold, read to its end. *)
Lemma single_file_run (w0 : Where) (d0 : text) (more : list (Where * text)) :
  Forall (from_file (filename w0)) more ->
  let file := (w0, d0) :: more in
  let dos := has_crlf d0 || negb (has_lf d0) in
  let z := last file (w0, d0) in
  __iter__ file
  = (flat_map (line_of dos) file ++ (if dos then dos_eof z else unix_eof z),
     Return (map stripped file)).
Proof.
  intros Hall file dos z.
  pose proof (new_file_block [] None w0 d0 more start_inv eq_refl Hall) as Hb.
  cbv zeta in Hb. fold file dos z in Hb.
  match type of Hb with
  | _ = ?rhs => assert (Hrun : for_each body start file = rhs) by exact Hb
  end.
  unfold __iter__. rewrite Hrun, bind_return. cbn [fst snd].
  rewrite pop_all by (constructor; [split; discriminate | constructor]).
  cbn [flat_map diags result bind ret fst snd]. rewrite !app_nil_r.
  unfold final_diags, dos_eof, unix_eof. cbn [is_dos latest_has_lf last_where].
  destruct dos, (has_lf (snd z)); reflexivity.
Qed.

Lemma lf_lines_silent lines :
  Forall lf_terminated lines -> flat_map (line_of false) lines = [].
Proof.
  induction 1 as [|item l [_ H] _ IH]; [reflexivity|].
  cbn [flat_map]. rewrite IH, app_nil_r. unfold line_of, line_diags.
  rewrite H. reflexivity.
Qed.

Lemma strip_lf d :
  has_lf d = true -> has_crlf d = false -> strip_terminator d = Py.drop_last 1 d.
Proof. unfold has_crlf, has_lf, strip_terminator. intros -> ->. reflexivity. Qed.

End TrackerWhole.

(** X10. What is stripped is the terminator: the text the tracker yields,
    followed by the CRLF or LF found at the end of the line, is the line;
    a second terminator before it stays in the text. *)
Theorem terminator_round_trip (data : text) :
  FileformatReader.strip_terminator data ++ terminator data = data.
Proof. exact (terminator_split data). Qed.

(** X11. The Line-Ending Tracker never raises: the assertion of line 105
    and the [fileinfo[-1]] of lines 127-136 hold for every sequence of
    lines, whatever the files they name.  It yields one item for each
    line, in order, with the text stripped of its terminator and a
    position of the same file. *)
Theorem tracker_never_raises (items : list (Where * text)) :
  exists ds out,
    FileformatReader.__iter__ items = (ds, Return out)
    /\ map snd out
       = map (fun item => FileformatReader.strip_terminator (snd item)) items
    /\ map (fun o => filename (fst o)) out
       = map (fun item => filename (fst item)) items.
Proof.
  destruct (for_each_own items FileformatReader.start start_inv (Forall_nil _))
    as (ds & st & out & Hf & [Hcl _] & Ht & Hn).
  unfold FileformatReader.__iter__. rewrite Hf, bind_return.
  rewrite (pop_all _ Hcl). cbn [diags result bind ret fst snd].
  eexists _, _. split; [reflexivity|]. split; assumption.
Qed.

(** X12. A file read on its own is judged by its first line: the file is
    DOS when that line ends in CRLF or in no line feed at all, and UNIX
    otherwise.  Every line is checked against that convention, then the
    end of the file is: a DOS file must not end in a line feed, a UNIX
    file must. *)
Theorem single_file_report (w0 : Where) (d0 : text) (more : list (Where * text)) :
  Forall (from_file (filename w0)) more ->
  let file := (w0, d0) :: more in
  let dos := has_crlf d0 || negb (has_lf d0) in
  let z := last file (w0, d0) in
  FileformatReader.__iter__ file
  = (flat_map (line_of dos) file ++ (if dos then dos_eof z else unix_eof z),
     Return (map stripped file)).
Proof. exact (single_file_run w0 d0 more). Qed.

Lemma single_file_report_witness :
  FileformatReader.__iter__
    [(mkWhere "a.conf" 1 [], LF_line "[x]"); (mkWhere "a.conf" 2 [], CRLF_line "y=1");
     (mkWhere "a.conf" 3 [], str "z=2")]
  = ([W_FILE_UNIX_CRLF (mkWhere "a.conf" 2 []); W_FILE_UNIX_NOLF (mkWhere "a.conf" 3 [])],
     Return [(mkWhere "a.conf" 1 [], str "[x]"); (mkWhere "a.conf" 2 [], str "y=1");
             (mkWhere "a.conf" 3 [], str "z=2")]).
Proof.
  apply (single_file_report (mkWhere "a.conf" 1 []) (LF_line "[x]")
           [(mkWhere "a.conf" 2 [], CRLF_line "y=1"); (mkWhere "a.conf" 3 [], str "z=2")]).
  repeat constructor.
Defined.

(** X13. A file read on its own whose lines all end in a bare line feed
    passes without any diagnostic, each line yielded without its line
    feed. *)
Theorem unix_file_silent (name : string) (file : list (Where * text)) :
  Forall (from_file name) file ->
  Forall lf_terminated file ->
  FileformatReader.__iter__ file
  = ([], Return (map (fun item => (fst item, Py.drop_last 1 (snd item))) file)).
Proof.
  intros Hname Hlf.
  assert (Hout : map stripped file
                 = map (fun item => (fst item, Py.drop_last 1 (snd item))) file).
  { clear -Hlf. induction Hlf as [|item l [H1 H2] _ IH]; [reflexivity|].
    cbn [map]. rewrite IH. unfold stripped. rewrite (strip_lf _ H1 H2). reflexivity. }
  destruct file as [|[w0 d0] more]; [reflexivity|].
  pose proof (Forall_inv Hname) as Hn. unfold from_file in Hn. cbn [fst] in Hn.
  assert (Hmore : Forall (from_file (filename w0)) more)
    by (rewrite Hn; exact (Forall_inv_tail Hname)).
  assert (Hz : lf_terminated (last ((w0, d0) :: more) (w0, d0))).
  { rewrite Forall_forall in Hlf. apply Hlf.
    destruct (exists_last (l := (w0, d0) :: more) ltac:(discriminate)) as (l' & a & E).
    rewrite E, last_last. apply in_or_app. right. left. reflexivity. }
  rewrite (single_file_run w0 d0 more Hmore), Hout. cbv zeta.
  destruct (Forall_inv Hlf) as [H1 H2]. cbn [snd] in H1, H2. rewrite H1, H2.
  cbn [orb negb]. rewrite (lf_lines_silent _ Hlf).
  unfold unix_eof. rewrite (proj1 Hz). reflexivity.
Qed.

Lemma unix_file_silent_witness :
  FileformatReader.__iter__
    [(mkWhere "a.conf" 1 [], LF_line "[x]"); (mkWhere "a.conf" 2 [], LF_line "y=1")]
  = ([], Return (map (fun item => (fst item, Py.drop_last 1 (snd item)))
                     [(mkWhere "a.conf" 1 [], LF_line "[x]");
                      (mkWhere "a.conf" 2 [], LF_line "y=1")])).
Proof. apply (unix_file_silent "a.conf"); repeat constructor. Defined.

(** ** BinFileReader: the order and the numbers of the lines *)

Section StackLines.

Import BinFileReader.

Lemma resume_lines files : forall cl po,
  fst (resume files cl po) = hd_error (flat_map remaining files)
  /\ flat_map remaining (fst (fst (snd (resume files cl po))))
     = tl (flat_map remaining files).
Proof.
  induction files as [|h rest IH]; intros cl po; [split; reflexivity|].
  cbn [resume flat_map]. destruct (pending h) as [|l more] eqn:Ep.
  - assert (Hr : remaining h = []) by (unfold remaining; rewrite Ep; reflexivity).
    rewrite Hr. cbn [app]. apply IH.
  - assert (Hr : remaining h
                 = (mkWhere (name (hfile h)) (counter h + 1) l, l)
                   :: numbered (name (hfile h)) (S (counter h)) more)
      by (unfold remaining; rewrite Ep; reflexivity).
    rewrite Hr. split; reflexivity.
Qed.

Lemma next_lines st :
  finished st = false ->
  fst (next st) = hd_error (flat_map remaining (_files st))
  /\ flat_map remaining (_files (snd (next st)))
     = tl (flat_map remaining (_files st))
  /\ finished (snd (next st))
     = match flat_map remaining (_files st) with [] => true | _ :: _ => false end.
Proof.
  intros Hfin. unfold next. rewrite Hfin.
  pose proof (resume_lines (_files st) (closed st) (popped st)) as H.
  destruct (resume (_files st) (closed st) (popped st)) as [item [[files cl] po]].
  cbn [fst snd _files finished] in *. destruct H as [H1 H2].
  split; [exact H1|]. split; [exact H2|].
  rewrite H1. destruct (flat_map remaining (_files st)); reflexivity.
Qed.

Lemma drive_next open ops st :
  drive open (Next :: ops) st
  = (match fst (next st) with
     | Some i => i :: fst (drive open ops (snd (next st)))
     | None => fst (drive open ops (snd (next st)))
     end,
     snd (drive open ops (snd (next st)))).
Proof.
  cbn [drive]. destruct (next st) as [item st']. cbn [fst snd].
  destruct (drive open ops st') as [items st'']. destruct item; reflexivity.
Qed.

(** Once the generator has ended, pulling gives nothing and changes
    nothing. *)
Lemma drain_finished open k : forall st,
  finished st = true -> drive open (repeat Next k) st = ([], st).
Proof.
  induction k as [|k IH]; intros st Hfin; [reflexivity|].
  cbn [repeat]. rewrite drive_next. unfold next. rewrite Hfin. cbn [fst snd].
  rewrite (IH st Hfin). reflexivity.
Qed.

(** Pulling [k] times gives the first [k] of the lines the stack still
    holds, top file first; the generator goes on as long as every pull
    found a line. *)
Lemma drain open k : forall st,
  finished st = false ->
  fst (drive open (repeat Next k) st) = firstn k (flat_map remaining (_files st))
  /\ flat_map remaining (_files (snd (drive open (repeat Next k) st)))
     = skipn k (flat_map remaining (_files st))
  /\ (k <= length (flat_map remaining (_files st)) ->
      finished (snd (drive open (repeat Next k) st)) = false).
Proof.
  induction k as [|k IH]; intros st Hfin;
    [split; [reflexivity | split; [reflexivity | intros _; exact Hfin]]|].
  cbn [repeat]. rewrite drive_next. cbn [fst snd].
  destruct (next_lines st Hfin) as (Hi & Hs & Hf). rewrite Hi.
  destruct (flat_map remaining (_files st)) as [|i L]; cbn [hd_error tl] in *.
  - rewrite (drain_finished open k _ Hf). cbn [fst snd]. rewrite Hs.
    split; [reflexivity|]. split; [reflexivity|]. cbn [length]. lia.
  - destruct (IH (snd (next st)) Hf) as (IH1 & IH2 & IH3).
    rewrite IH1, IH2, Hs. split; [reflexivity|]. split; [reflexivity|].
    cbn [length]. intros Hk. apply IH3. rewrite Hs. lia.
Qed.

Lemma drive_app open ops1 ops2 st :
  drive open (ops1 ++ ops2) st
  = (fst (drive open ops1 st) ++ fst (drive open ops2 (snd (drive open ops1 st))),
     snd (drive open ops2 (snd (drive open ops1 st)))).
Proof.
  revert st. induction ops1 as [|[f|] ops1 IH]; intros st.
  - cbn [app drive fst snd]. destruct (drive open ops2 st). reflexivity.
  - cbn [app drive]. destruct (include open f st); apply IH.
  - cbn [app]. rewrite !drive_next, IH. cbn [fst snd].
    destruct (fst (next st)); reflexivity.
Qed.

Lemma include_lines (open : opener) (f : string) (fp : file) (st : state) :
  open f = Some fp -> binary fp ->
  exists st',
    include open f st = Return st'
    /\ flat_map remaining (_files st')
       = lines_of fp ++ flat_map remaining (_files st)
    /\ finished st' = finished st.
Proof.
  intros Ho Hb. unfold include. rewrite Ho.
  destruct (mode_binary fp) as [[|]|] eqn:Em;
    try (exfalso; apply Hb; exact Em);
    eexists; (split; [reflexivity|]); split; reflexivity.
Qed.

Lemma drive_include (open : opener) (f : string) (ops : list op) (st st' : state) :
  include open f st = Return st' ->
  drive open (Include f :: ops) st = drive open ops st'.
Proof. intros H. cbn [drive]. rewrite H. reflexivity. Qed.

Lemma length_numbered nm lines : forall start,
  length (numbered nm start lines) = length lines.
Proof.
  induction lines as [|l more IH]; intros start; [reflexivity|].
  cbn [numbered length]. rewrite IH. reflexivity.
Qed.

End StackLines.

(** X14. One file read to its end or part of it: the lines come in the
    order of the file, numbered from 1, and the position names the file as
    the opened object does ([fp.name]), not as [include] was asked. *)
Theorem single_file_numbering
        (open : BinFileReader.opener) (f : string) (fp : BinFileReader.file) (k : nat) :
  open f = Some fp -> binary fp ->
  fst (BinFileReader.drive open
         (BinFileReader.Include f :: repeat BinFileReader.Next k)
         BinFileReader.__init__)
  = firstn k (lines_of fp).
Proof.
  intros Ho Hb.
  destruct (include_lines open f fp BinFileReader.__init__ Ho Hb)
    as (st' & Hi & Hl & Hfin).
  rewrite (drive_include _ _ _ _ _ Hi).
  rewrite (proj1 (drain open k st' Hfin)), Hl.
  cbn [BinFileReader._files BinFileReader.__init__ flat_map].
  rewrite app_nil_r. reflexivity.
Qed.

Lemma single_file_numbering_witness :
  fst (BinFileReader.drive session_opener
         (BinFileReader.Include "users.conf" :: repeat BinFileReader.Next 3)
         BinFileReader.__init__)
  = firstn 3 (lines_of (BinFileReader.mkFile "users.conf" (Some true) true
                          [list_byte_of_string "[alice]" ++ [x0d; x0a];
                           list_byte_of_string "secret=1" ++ [x0d; x0a]])).
Proof. apply single_file_numbering; [reflexivity | discriminate]. Defined.

(** X15. Includes are read depth first.  When [g] is included after [j]
    lines of [f] have been pulled, [f] not yet found at its end, the next
    pulls give all of [g], numbered from 1, and then the rest of [f], whose
    numbering goes on at [j + 1]. *)
Theorem include_is_depth_first
        (open : BinFileReader.opener) (f g : string)
        (fp gp : BinFileReader.file) (j k : nat) :
  open f = Some fp -> binary fp ->
  open g = Some gp -> binary gp ->
  j <= length (BinFileReader.content fp) ->
  fst (BinFileReader.drive open
         (BinFileReader.Include f :: repeat BinFileReader.Next j
          ++ BinFileReader.Include g :: repeat BinFileReader.Next k)
         BinFileReader.__init__)
  = firstn j (lines_of fp)
    ++ firstn k (lines_of gp ++ skipn j (lines_of fp)).
Proof.
  intros Hf Hbf Hg Hbg Hj.
  destruct (include_lines open f fp BinFileReader.__init__ Hf Hbf)
    as (st1 & Hi1 & Hl1 & Hfin1).
  cbn [BinFileReader._files BinFileReader.__init__ flat_map] in Hl1.
  rewrite app_nil_r in Hl1.
  rewrite (drive_include _ _ _ _ _ Hi1), drive_app. cbn [fst].
  destruct (drain open j st1 Hfin1) as (Hd1 & Hd2 & Hd3).
  rewrite Hd1, Hl1. f_equal.
  assert (Hfin2 : BinFileReader.finished
                    (snd (BinFileReader.drive open (repeat BinFileReader.Next j) st1))
                  = false).
  { apply Hd3. rewrite Hl1. unfold lines_of. rewrite length_numbered. exact Hj. }
  set (st2 := snd (BinFileReader.drive open (repeat BinFileReader.Next j) st1)) in *.
  destruct (include_lines open g gp st2 Hg Hbg) as (st3 & Hi3 & Hl3 & Hfin3).
  rewrite (drive_include _ _ _ _ _ Hi3).
  rewrite Hfin2 in Hfin3.
  rewrite (proj1 (drain open k st3 Hfin3)), Hl3, Hd2, Hl1. reflexivity.
Qed.

Lemma include_is_depth_first_witness :
  fst (BinFileReader.drive session_opener
         (BinFileReader.Include "extensions.conf" :: repeat BinFileReader.Next 2
          ++ BinFileReader.Include "users.conf" :: repeat BinFileReader.Next 4)
         BinFileReader.__init__)
  = firstn 2 (lines_of (BinFileReader.mkFile "extensions.conf" (Some true) true
                          [LF_bytes "[general]"; LF_bytes "#include users.conf";
                           LF_bytes "exten => s,1,NoOp() ; greet"]))
    ++ firstn 4 (lines_of (BinFileReader.mkFile "users.conf" (Some true) true
                             [list_byte_of_string "[alice]" ++ [x0d; x0a];
                              list_byte_of_string "secret=1" ++ [x0d; x0a]])
                 ++ skipn 2 (lines_of (BinFileReader.mkFile "extensions.conf" (Some true) true
                          [LF_bytes "[general]"; LF_bytes "#include users.conf";
                           LF_bytes "exten => s,1,NoOp() ; greet"]))).
Proof.
  apply include_is_depth_first;
    [reflexivity | discriminate | reflexivity | discriminate | cbn; lia].
Defined.

(** ** FileReader: the whole pipeline *)

Section WholePipeline.

Lemma for_each_raises {S I O} (body : S -> I -> M (S * O)) st item rest ds e :
  body st item = (ds, Raise e) -> for_each body st (item :: rest) = (ds, Raise e).
Proof. intros H. rewrite for_each_cons, H. reflexivity. Qed.

Lemma for_each_later_raises {S I O} (body : S -> I -> M (S * O))
      st item rest ds st1 o ds2 e :
  body st item = (ds, Return (st1, o)) ->
  for_each body st1 rest = (ds2, Raise e) ->
  for_each body st (item :: rest) = (ds ++ ds2, Raise e).
Proof.
  intros H1 H2. rewrite for_each_cons, H1, bind_return. cbv beta iota.
  rewrite H2. reflexivity.
Qed.

Lemma decoder_total (w : Where) (raw : bytes) :
  undecodable raw = false ->
  exists ds t, EncodingReader.body (w, raw) = (ds, Return (w, t)).
Proof.
  unfold undecodable. destruct (Utf8.decode raw) as [t|] eqn:Eu; intros Hu.
  - exists [], t. exact (decoder_utf8 w raw t Eu).
  - rewrite (decoder_fallback w raw Eu).
    destruct (proj2 (cp1252_decode_Some raw) Hu) as [t ->].
    eexists _, _. reflexivity.
Qed.

Lemma decoder_fails (w : Where) (raw : bytes) :
  undecodable raw = true ->
  EncodingReader.body (w, raw) = ([E_FILE_UTF8_BAD w], Raise UnicodeDecodeError).
Proof.
  unfold undecodable. destruct (Utf8.decode raw) as [t|] eqn:Eu; [discriminate|].
  intros Hu. rewrite (decoder_fallback w raw Eu).
  destruct (Cp1252.decode raw) as [t|] eqn:Ec; [|reflexivity].
  rewrite (proj1 (cp1252_decode_Some raw)) in Hu by (eexists; exact Ec).
  discriminate.
Qed.

(** The four stages in a row, when the Decoder returns. *)
Lemma pipeline_body_chain st w raw d1 t d3 st' w' d' :
  EncodingReader.body (w, raw) = (d1, Return (w, t)) ->
  FileformatReader.body st (w, t) = (d3, Return (st', (w', d'))) ->
  FileReader.body st (w, raw)
  = (d1 ++ (if existsb control_char t then [W_FILE_CTRL_CHAR w] else [])
        ++ d3 ++ (if Py.ends_blank d' then [W_WSH_EOL w'] else []),
     Return (st', (w', fst (split_of (Py.rstrip_blanks d')),
                   snd (split_of (Py.rstrip_blanks d'))))).
Proof.
  intros He Hb. unfold FileReader.body.
  rewrite He, bind_return. cbv beta.
  rewrite guard_body, bind_return. cbv beta.
  rewrite Hb, bind_return. cbv beta iota.
  rewrite splitter_split, bind_return. cbv beta.
  cbn [diags result fst snd ret]. rewrite app_nil_r. reflexivity.
Qed.

Lemma pipeline_body_total st w raw :
  tracker_inv st -> undecodable raw = false ->
  exists ds st' r,
    FileReader.body st (w, raw) = (ds, Return (st', r)) /\ tracker_inv st'.
Proof.
  intros Hinv Hu. destruct (decoder_total w raw Hu) as (d1 & t & He).
  destruct (body_inv st w t Hinv) as (d3 & st' & [w' d'] & Hb & Hinv').
  eexists _, _, _. split; [exact (pipeline_body_chain _ _ _ _ _ _ _ _ _ He Hb)|].
  exact Hinv'.
Qed.

Lemma pipeline_body_fails st w raw :
  undecodable raw = true ->
  FileReader.body st (w, raw) = ([E_FILE_UTF8_BAD w], Raise UnicodeDecodeError).
Proof. intros Hu. unfold FileReader.body. rewrite (decoder_fails w raw Hu). reflexivity. Qed.

Lemma pipeline_outcome items : forall st,
  tracker_inv st ->
  if existsb (fun item => undecodable (snd item)) items
  then result (for_each FileReader.body st items) = Raise UnicodeDecodeError
  else exists ds st' out,
         for_each FileReader.body st items = (ds, Return (st', out))
         /\ tracker_inv st' /\ length out = length items.
Proof.
  induction items as [|[w raw] items IH]; intros st Hinv.
  - cbn [existsb]. exists [], st, []. repeat split; apply Hinv.
  - cbn [existsb snd]. destruct (undecodable raw) eqn:Eu; cbn [orb].
    + rewrite (for_each_raises _ _ _ _ _ _ (pipeline_body_fails st w raw Eu)).
      reflexivity.
    + destruct (pipeline_body_total st w raw Hinv Eu) as (ds & st1 & r & Hb & Hinv1).
      specialize (IH st1 Hinv1).
      destruct (existsb (fun item => undecodable (snd item)) items).
      * destruct (for_each FileReader.body st1 items) as [ds2 [x|e]] eqn:Ef;
          cbn [result snd] in IH; [discriminate|]. injection IH as ->.
        rewrite (for_each_later_raises _ _ _ _ _ _ _ _ _ Hb Ef). reflexivity.
      * destruct IH as (ds2 & st2 & out & Hf & Hinv2 & Hlen).
        rewrite (for_each_cons_returns _ _ _ _ _ _ _ _ _ _ Hb Hf).
        eexists _, _, _. split; [reflexivity|]. split; [exact Hinv2|].
        cbn [length]. rewrite Hlen. reflexivity.
Qed.

End WholePipeline.

(** X16. The pipeline can fail in one way only.  Reading ends in
    [UnicodeDecodeError] when some line is neither UTF-8 nor free of the
    five bytes cp1252 leaves undefined; on every other input it runs to
    the end, finalization included, and gives one record for each line. *)
Theorem pipeline_fails_only_on_undecodable (items : list (Where * bytes)) :
  if existsb (fun item => undecodable (snd item)) items
  then result (FileReader.__iter__ items) = Raise UnicodeDecodeError
  else exists out,
         result (FileReader.__iter__ items) = Return out
         /\ length out = length items.
Proof.
  pose proof (pipeline_outcome items FileformatReader.start start_inv) as H.
  unfold FileReader.__iter__.
  destruct (existsb (fun item => undecodable (snd item)) items).
  - destruct (for_each FileReader.body FileformatReader.start items) as [ds [x|e]];
      cbn [result snd] in H; [discriminate|]. injection H as ->. reflexivity.
  - destruct H as (ds & st & out & Hf & [Hcl _] & Hlen).
    rewrite Hf, bind_return. cbv beta iota. rewrite (pop_all _ Hcl).
    exists out. split; [reflexivity | exact Hlen].
Qed.

(** ** A clean file passes in silence *)

Section CleanFile.

Import FileformatReader.

Lemma plain_byte_facts (b : byte) :
  plain_byte b = true ->
  ascii_byte b = true
  /\ control_char (Byte.to_N b) = false
  /\ N.eqb (Byte.to_N b) CR = false.
Proof.
  assert (H : implb (plain_byte b)
                (ascii_byte b && negb (control_char (Byte.to_N b))
                 && negb (N.eqb (Byte.to_N b) CR)) = true)
    by (destruct b; reflexivity).
  intros Hp. rewrite Hp in H. cbn [implb] in H.
  apply andb_true_iff in H. destruct H as [H H3].
  apply andb_true_iff in H. destruct H as [H1 H2].
  apply negb_true_iff in H2, H3. repeat split; assumption.
Qed.

Lemma has_crlf_snoc (l : text) (y : char) :
  has_crlf (l ++ [y; LF]) = N.eqb y CR.
Proof.
  unfold has_crlf, Py.endswith. rewrite length_app. cbn [length].
  replace (length l + 2 - 2) with (length l) by lia.
  rewrite skipn_app, skipn_all, Nat.sub_diag. cbn [app skipn Py.eqb].
  replace (Nat.leb 2 (length l + 2)) with true by (symmetry; apply Nat.leb_le; lia).
  rewrite N.eqb_refl, !andb_true_r. reflexivity.
Qed.

(** What a clean line is, stage by stage. *)
Lemma clean_line_facts (raw : bytes) :
  clean_line raw = true ->
  exists body,
    raw = body ++ [x0a] /\ removelast raw = body
    /\ forallb ascii_byte raw = true
    /\ existsb control_char (map Byte.to_N raw) = false
    /\ has_lf (map Byte.to_N raw) = true
    /\ has_crlf (map Byte.to_N raw) = false
    /\ strip_terminator (map Byte.to_N raw) = map Byte.to_N body
    /\ Py.ends_blank (map Byte.to_N body) = false.
Proof.
  unfold clean_line. intros H.
  apply andb_true_iff in H. destruct H as [H Hend].
  apply andb_true_iff in H. destruct H as [Hlast Hplain].
  apply negb_true_iff in Hend.
  assert (Hne : raw <> []) by (intros ->; discriminate).
  assert (Hraw : raw = removelast raw ++ [x0a]).
  { rewrite (app_removelast_last x00 Hne) at 1.
    rewrite (Byte.byte_dec_bl _ _ Hlast). reflexivity. }
  set (body := removelast raw) in *. clearbody body. subst raw. clear Hne Hlast.
  exists body.
  assert (Hall : Forall (fun b => ascii_byte b = true
                                  /\ control_char (Byte.to_N b) = false
                                  /\ N.eqb (Byte.to_N b) CR = false) body).
  { apply Forall_forall. intros b Hb. apply plain_byte_facts.
    rewrite forallb_forall in Hplain. exact (Hplain b Hb). }
  assert (Hlf : has_lf (map Byte.to_N (body ++ [x0a])) = true).
  { rewrite map_app. apply endswith_app. }
  assert (Hcrlf : has_crlf (map Byte.to_N (body ++ [x0a])) = false).
  { rewrite map_app. clear -Hall.
    destruct body as [|y l _] using rev_ind; [reflexivity|].
    apply Forall_app in Hall. destruct Hall as [_ Hy].
    apply Forall_inv in Hy. destruct Hy as (_ & _ & Hy).
    rewrite map_app, <- app_assoc. cbn [map app].
    change [Byte.to_N y; Byte.to_N x0a] with [Byte.to_N y; LF].
    rewrite has_crlf_snoc. exact Hy. }
  repeat split; try assumption; try reflexivity.
  - rewrite forallb_app. apply andb_true_iff. split; [|reflexivity].
    apply forallb_forall. rewrite Forall_forall in Hall. intros b Hb.
    apply (Hall b Hb).
  - rewrite map_app, existsb_app. apply orb_false_iff. split; [|reflexivity].
    apply not_true_iff_false. intros Hex. apply existsb_exists in Hex.
    destruct Hex as (c & Hin & Hc). apply in_map_iff in Hin.
    destruct Hin as (b & <- & Hb). rewrite Forall_forall in Hall.
    destruct (Hall b Hb) as (_ & Hno & _). congruence.
  - pose proof (terminator_split (map Byte.to_N (body ++ [x0a]))) as Ht.
    unfold terminator in Ht. rewrite Hcrlf, Hlf in Ht.
    set (s := strip_terminator (map Byte.to_N (body ++ [x0a]))) in *. clearbody s.
    rewrite map_app in Ht. exact (app_inv_tail _ _ _ Ht).
Qed.

Lemma clean_tracker_step nm st w t :
  clean_state nm st -> filename w = nm ->
  has_lf t = true -> has_crlf t = false ->
  body st (w, t)
  = ([], Return (([mkFrame nm (Some false) (Some true) w], Some false),
                 (w, strip_terminator t))).
Proof.
  intros [-> | [w0 ->]] Hn Hlf Hcrlf.
  - pose proof (new_file_line [] None w t start_inv eq_refl) as Hb.
    cbv zeta in Hb. rewrite Hcrlf, Hlf, Hn in Hb. cbn [orb negb] in Hb.
    unfold line_diags in Hb. rewrite Hcrlf in Hb. exact Hb.
  - assert (Hinv : tracker_inv ([mkFrame nm (Some false) (Some true) w0], Some false)).
    { split; cbn [fst snd]; [|reflexivity].
      constructor; [split; discriminate | constructor]. }
    pose proof (body_spec _ w t Hinv) as Hb.
    unfold enter, returns_from_include, changes_file in Hb.
    cbn [fst from above fn is_dos last_where] in Hb.
    rewrite Hn, String.eqb_refl in Hb. cbn [negb andb] in Hb. cbv zeta in Hb.
    unfold line_diags in Hb. rewrite Hcrlf, Hlf in Hb. exact Hb.
Qed.

Lemma clean_line_step nm st w raw :
  clean_state nm st -> filename w = nm -> clean_line raw = true ->
  exists st',
    FileReader.body st (w, raw) = ([], Return (st', clean_record (w, raw)))
    /\ clean_state nm st'.
Proof.
  intros Hst Hn Hc.
  destruct (clean_line_facts raw Hc)
    as (lbody & Hraw & Hrm & Hascii & Hctrl & Hlf & Hcrlf & Hstrip & Hend).
  pose proof (decoder_utf8 w raw _ (ascii_decodes raw Hascii)) as He.
  pose proof (clean_tracker_step nm st w _ Hst Hn Hlf Hcrlf) as Hb.
  eexists. split.
  - rewrite (pipeline_body_chain _ _ _ _ _ _ _ _ _ He Hb).
    rewrite Hctrl, Hstrip, Hend, (rstrip_no_blank_end _ Hend).
    unfold clean_record. cbn [fst snd]. rewrite Hrm. reflexivity.
  - right. eexists. reflexivity.
Qed.

Lemma clean_lines_run nm items : forall st,
  clean_state nm st ->
  Forall (fun item => filename (fst item) = nm) items ->
  Forall (fun item => clean_line (snd item) = true) items ->
  exists st',
    for_each FileReader.body st items = ([], Return (st', map clean_record items))
    /\ clean_state nm st'.
Proof.
  induction items as [|[w raw] items IH]; intros st Hst Hn Hc.
  - exists st. split; [reflexivity | exact Hst].
  - destruct (clean_line_step nm st w raw Hst (Forall_inv Hn) (Forall_inv Hc))
      as (st1 & Hb & Hst1).
    destruct (IH st1 Hst1 (Forall_inv_tail Hn) (Forall_inv_tail Hc))
      as (st2 & Hf & Hst2).
    exists st2. split; [|exact Hst2].
    exact (for_each_cons_returns _ _ _ _ _ _ _ _ _ _ Hb Hf).
Qed.

End CleanFile.

(** X17. No false alarm: a file read on its own whose lines are printable
    ASCII and tabs, each ended by a line feed with no blank before it,
    goes through the five readers without a single diagnostic, and every
    line gives the split of its text at its own position. *)
Theorem clean_file_is_silent (nm : string) (items : list (Where * bytes)) :
  Forall (fun item => filename (fst item) = nm) items ->
  Forall (fun item => clean_line (snd item) = true) items ->
  FileReader.__iter__ items = ([], Return (map clean_record items)).
Proof.
  intros Hn Hc.
  destruct (clean_lines_run nm items FileformatReader.start (or_introl eq_refl) Hn Hc)
    as (st & Hf & Hst).
  unfold FileReader.__iter__. rewrite Hf, bind_return. cbv beta iota.
  destruct Hst as [-> | [w ->]]; reflexivity.
Qed.

Lemma clean_file_is_silent_witness :
  FileReader.__iter__
    [(mkWhere "sip.conf" 1 (LF_bytes "[general]"), LF_bytes "[general]");
     (mkWhere "sip.conf" 2 (LF_bytes "port=5060 ; default"), LF_bytes "port=5060 ; default")]
  = ([], Return (map clean_record
    [(mkWhere "sip.conf" 1 (LF_bytes "[general]"), LF_bytes "[general]");
     (mkWhere "sip.conf" 2 (LF_bytes "port=5060 ; default"), LF_bytes "port=5060 ; default")])).
Proof. apply (clean_file_is_silent "sip.conf"); repeat constructor. Defined.
